(** * networkstatus: checks, verdict reduction, LED signalling and button input

    A shallow embedding of [networkstatus.py], [hardware.py] and
    [network-status-main.py].

    Conventions of the embedding.
    - A Python value that is one of [None], [True], [False] is a [pyval].
    - Times ([time.time()]) and measurements are Python floats; a float is
      embedded as the exact rational [Q] that it stands for.  The sums of
      the program add a whole number of seconds to a clock reading or to
      zero and are exact on doubles of that size; the product
      [current_time * 10] is not, and is rounded to a double
      ([Py.float_mul]).  Rendering a float as text and reading it back
      ([str], [float]) is left to the environment.
    - Everything outside the three source files (the clock, the GPIO input
      pin, the probes run by the leaf checks) is an oracle [Env]: the k-th
      question asked by the program is answered by the oracle at index k.
      The index is the field [tick] of the [World].
    - Stateful code is written in a state monad over [World]. *)

From Stdlib Require Import ZArith QArith Qround Qabs String Ascii List Bool Lia Lqa.
From Stdlib Require Import DecimalString.
Import ListNotations.

(* ================================================================== *)
(** * Python values and builtins *)
(* ================================================================== *)

Module Py.

(** [None], [True], [False]. *)
Inductive pyval : Type :=
| PyNone
| PyBool (b : bool).

Definition pyval_eqb (a b : pyval) : bool :=
  match a, b with
  | PyNone, PyNone => true
  | PyBool x, PyBool y => Bool.eqb x y
  | _, _ => false
  end.

(** Truth value testing: [None] and [False] are false. *)
Definition truthy (v : pyval) : bool :=
  match v with
  | PyNone => false
  | PyBool b => b
  end.

(** [not v] *)
Definition py_not (v : pyval) : bool := negb (truthy v).

(** [a and b]: [a] when [a] is false, else [b]. *)
Definition py_and (a b : pyval) : pyval := if truthy a then b else a.

(** [a or b]: [a] when [a] is true, else [b]. *)
Definition py_or (a b : pyval) : pyval := if truthy a then a else b.

(** [round(x)] of a float: to the nearest integer, ties to the even one. *)
Definition round (x : Q) : Z :=
  let f := Qfloor x in
  match Qcompare (x - inject_Z f) (1 # 2) with
  | Lt => f
  | Gt => (f + 1)%Z
  | Eq => if Z.even f then f else (f + 1)%Z
  end.

(** [2.0 ** e] *)
Definition pow2 (e : Z) : Q :=
  match e with
  | Z0 => 1
  | Zpos p => inject_Z (2 ^ Zpos p)
  | Zneg p => 1 # (2 ^ p)
  end.

(** The exponent of a positive real: the [e] with [2 ** e <= x < 2 ** (e + 1)]. *)
Definition exponent (x : Q) : Z :=
  let e := (Z.log2 (Qnum x) - Z.log2 (Zpos (Qden x)))%Z in
  if Qle_bool (pow2 e) x then e else (e - 1)%Z.

(** The double nearest to the real [x], ties to the even significand:
    53 significant bits, and no bit below [2 ** -1074].  A result beyond
    the largest double is not modelled. *)
Definition to_double (x : Q) : Q :=
  if Qeq_bool x 0 then 0
  else
    let e := Z.max (exponent (Qabs x) - 52) (-1074) in
    inject_Z (round (x / pow2 e)) * pow2 e.

(** [a * b] on floats: the product of the two doubles, rounded to a
    double. *)
Definition float_mul (a b : Q) : Q := to_double (a * b).

(** [a >= b] on floats. *)
Definition ge (a b : Q) : bool := Qle_bool b a.

(** [a <= b] on floats. *)
Definition le (a b : Q) : bool := Qle_bool a b.

(** [str(n)] of an int. *)
Definition str_int (n : Z) : string := NilZero.string_of_int (Z.to_int n).

Definition comma : ascii := ","%char.

(** [sep.join(l)] *)
Definition join (sep : string) (l : list string) : string := String.concat sep l.

(** [s.split(",")] *)
Fixpoint split (s : string) : list string :=
  match s with
  | EmptyString => [EmptyString]
  | String c s' =>
      if Ascii.eqb c comma then EmptyString :: split s'
      else match split s' with
           | h :: t => String c h :: t
           | [] => [String c EmptyString]
           end
  end.

(** [s.replace(",", empty)]: every comma removed *)
Fixpoint remove_commas (s : string) : string :=
  match s with
  | EmptyString => EmptyString
  | String c s' =>
      if Ascii.eqb c comma then remove_commas s' else String c (remove_commas s')
  end.

(** [functools.reduce(f, l, init)] *)
Definition reduce {A B : Type} (f : A -> B -> A) (l : list B) (init : A) : A :=
  fold_left f l init.

(** [[x] * n] *)
Definition list_times {A : Type} (x : A) (n : nat) : list A := repeat x n.

End Py.
Import Py.

(** Number of comma-separated fields of a report line:
    [len(s.split(","))]. *)
Definition fields (s : string) : nat := length (split s).

(* ================================================================== *)
(** * The outside world *)
(* ================================================================== *)

(** One printer record of [dns_service_discovery]:
    [dict(name=..., address=...)]. *)
Record Printer : Type := mkPrinter { name : string; address : string }.

(** What [speedtest] measured: [download()], [upload()],
    [server['latency']], [server['name']]. *)
Record Speed : Type := mkSpeed
  { down : Q; up : Q; latency : Q; server_name : string }.

(** The answers of everything that is not in the source files, indexed by
    the number of questions asked so far.  A probe that raises an exception
    (a timeout, a nonzero exit code, a parse failure) answers [None]. *)
Record Env : Type := mkEnv
  { clock : nat -> Q;                                  (* time.time() *)
    button : nat -> bool;                              (* GPIO.input(RUN_TEST) *)
    utc_now : nat -> string;                           (* datetime.now(utc).strftime(...) *)
    ping : nat -> string -> Q -> option Q;             (* ping(host, timeout) *)
    dns_resolve : nat -> string -> Q -> option string; (* dns_resolve(host, timeout) *)
    default_gateway : nat -> Q -> option string;       (* default_gateway(timeout) *)
    discover_printers : nat -> Q -> option (list Printer);
    speedtest : nat -> Q -> option Speed;
    str_float : Q -> string;                           (* str(x), x a float *)
    float_str : string -> Q                            (* float(s), s = str(x) *)
  }.

Module hardware_types.

(** [Hardware.TestState] *)
Record TestState : Type := mkTestState
  { normal_test_result : pyval;
    extended_test_result : pyval;
    scheduled_normal_test : bool;
    scheduled_extended_test : bool;
    last_normal_test_failure_time : Q;
    last_extended_test_failure_time : Q;
    normal_test_running : bool;
    extended_test_running : bool;
    last_normal_test_started_time : Q;
    last_extended_test_started_time : Q }.

(** [Hardware.Leds] *)
Inductive Leds : Type :=
| NORMAL_PASS | NORMAL_FAIL | EXTENDED_PASS | EXTENDED_FAIL | TEST_RUNNING.

Definition Leds_value (l : Leds) : Z :=
  match l with
  | NORMAL_PASS => 17
  | NORMAL_FAIL => 23
  | EXTENDED_PASS => 24
  | EXTENDED_FAIL => 25
  | TEST_RUNNING => 12
  end.

(** Iteration order of [for led in self.Leds]. *)
Definition all_leds : list Leds :=
  [NORMAL_PASS; NORMAL_FAIL; EXTENDED_PASS; EXTENDED_FAIL; TEST_RUNNING].

(** [Hardware.UserInput] *)
Inductive UserInput : Type := NO_INPUT | NORMAL_TEST | EXTENDED_TEST.

End hardware_types.
Import hardware_types.

(** The state of the process that the modelled code reads and writes:
    how many answers the environment has given, the one [TestState] object
    of the one [Hardware] instance, and the values handed to [GPIO.output],
    oldest first. *)
Record World : Type := mkWorld
  { tick : nat;
    test_state : TestState;
    gpio_out : list (Leds * pyval) }.

(** The same process at another index of the oracle, or with the
    [TestState] object changed. *)
Definition with_tick (k : nat) (w : World) : World :=
  mkWorld k (test_state w) (gpio_out w).

Definition with_state (set : TestState -> TestState) (w : World) : World :=
  mkWorld (tick w) (set (test_state w)) (gpio_out w).

(** ** State monad *)

Definition State (S A : Type) : Type := S -> A * S.

Definition ret {S A : Type} (a : A) : State S A := fun s => (a, s).

Definition bind {S A B : Type} (m : State S A) (k : A -> State S B) : State S B :=
  fun s => let (a, s') := m s in k a s'.

Declare Scope monad_scope.
Delimit Scope monad_scope with monad.
Notation "x <- m ;; k" := (bind m (fun x => k))
  (at level 61, m at next level, right associativity) : monad_scope.
Notation "m ;;; k" := (bind m (fun _ => k))
  (at level 61, right associativity) : monad_scope.
Open Scope monad_scope.

Definition exec {S A : Type} (m : State S A) (s : S) : S := snd (m s).
Definition eval {S A : Type} (m : State S A) (s : S) : A := fst (m s).

(** [for x in l: body(x)] *)
Fixpoint for_each {S A : Type} (l : list A) (body : A -> State S unit) : State S unit :=
  match l with
  | [] => ret tt
  | x :: l' => body x ;;; for_each l' body
  end.

(** Code that touches the process state only. *)
Definition M (A : Type) : Type := State World A.

(** Ask the environment one question. *)
Definition ask {A : Type} (oracle : nat -> A) : M A :=
  fun w => (oracle (tick w), mkWorld (S (tick w)) (test_state w) (gpio_out w)).

(* ================================================================== *)
(** * networkstatus.py *)
(* ================================================================== *)

Module networkstatus.

(** [TestObserver.TestType] *)
Inductive TestType : Type := NORMAL | EXTENDED.

(** The interface [TestObserver]: two methods acting on the process. *)
Record TestObserver : Type := mkTestObserver
  { notify_test_started : TestType -> M unit;
    notify_test_completed : TestType -> pyval -> M unit }.

(** The base class, whose methods only [return]. *)
Definition TestObserver_base : TestObserver :=
  {| notify_test_started := fun _ => ret tt;
     notify_test_completed := fun _ _ => ret tt |}.

(** The classes derived from [StatusCheck], with their attributes.
    [FailEveryNTimes n i] holds [self.n] and the counter [self.i]. *)
#[warnings="-register-all"]
Inductive StatusCheck : Type :=
| FailEveryNTimes (n i : Z)
| PingPrinterCheck (max_ping timeout : Q)
| PingCheck (host : string) (max_ping timeout : Q)
| PingDefaultGatewayCheck (max_ping timeout : Q)
| DnsCheck (host : string) (timeout : Q)
| SpeedCheck (min_down min_up max_ping timeout : Q)
| MultipleChecks (checks : list StatusCheck).

(** What [check()] returns: the value string and the evaluated fields. *)
Definition CheckResult : Type := (string * list pyval)%type.

Definition PASS : string := "Pass".
Definition FAIL : string := "Fail".
Definition NO_PING : string := "-1".

(** [combine_checks(array_of_tuples)] *)
Definition combine_checks (array_of_tuples : list CheckResult) : CheckResult :=
  let result_strings := map fst array_of_tuples in
  let result_arrays := map snd array_of_tuples in
  let result_string := join "," result_strings in
  let result_array := List.concat result_arrays in
  (result_string, result_array).

(** [combine_results(lhs, rhs)] *)
Definition combine_results (lhs rhs : pyval) : pyval :=
  match lhs with
  | PyNone => rhs
  | _ => match rhs with
         | PyNone => lhs
         | _ => py_and lhs rhs
         end
  end.

Section Checks.

Variable env : Env.

(** [PingCheckBase.do_to_value] *)
Definition PingCheckBase_do_to_value (max_ping : Q) (value_string : string) : pyval :=
  if String.eqb value_string NO_PING then PyBool false
  else PyBool (le (float_str env value_string) max_ping).

(** [FailEveryNTimes.do_to_value] *)
Definition FailEveryNTimes_do_to_value (value_string : string) : pyval :=
  PyBool (negb (String.eqb value_string FAIL)).

(** [DnsCheck.do_to_value]: the body evaluates [bool(value_string)] and
    falls off the end, so the call returns [None]. *)
Definition DnsCheck_do_to_value (value_string : string) : pyval :=
  let _ := negb (String.eqb value_string EmptyString) in PyNone.

(** [FailEveryNTimes.do_check]: the value and the new counter. *)
Definition FailEveryNTimes_do_check (n i : Z) : string * Z :=
  let i := (i - 1)%Z in
  if (i =? 0)%Z then (FAIL, n) else (PASS, i).

(** [PingCheck.do_check] *)
Definition PingCheck_do_check (host : string) (timeout : Q) : M string :=
  r <- ask (fun k => ping env k host timeout) ;;
  match r with
  | Some t => ret (str_float env t)
  | None => ret "-1"%string
  end.

(** [PingDefaultGatewayCheck.do_check] *)
Definition PingDefaultGatewayCheck_do_check (timeout : Q) : M string :=
  g <- ask (fun k => default_gateway env k timeout) ;;
  match g with
  | Some default_gw =>
      r <- ask (fun k => ping env k default_gw timeout) ;;
      match r with
      | Some t => ret (str_float env t)
      | None => ret "-1"%string
      end
  | None => ret "-1"%string
  end.

(** [DnsCheck.do_check] *)
Definition DnsCheck_do_check (host : string) (timeout : Q) : M string :=
  r <- ask (fun k => dns_resolve env k host timeout) ;;
  match r with
  | Some _ => ret "True"%string
  | None => ret "False"%string
  end.

(** [PingPrinterCheck.do_check]; [ping] is called with its default
    timeout of 10. *)
Definition PingPrinterCheck_do_check (timeout : Q) : M string :=
  r <- ask (fun k => discover_printers env k timeout) ;;
  match r with
  | None => ret (NO_PING ++ ",")%string
  | Some printers =>
      let printer_addresses := join " " (map address printers) in
      match printers with
      | [] => ret (NO_PING ++ ",")%string
      | [printer] =>
          t <- ask (fun k => ping env k (address printer) 10) ;;
          match t with
          | Some t => ret (str_float env t ++ "," ++ printer_addresses)%string
          | None => ret (NO_PING ++ ",")%string
          end
      | _ => ret (NO_PING ++ "," ++ printer_addresses)%string
      end
  end.

(** [StatusCheck.check], the inherited method:
    [value = self.do_check(); return value, [self.do_to_value(value)]] *)
Definition StatusCheck_check (do_check : M string) (do_to_value : string -> pyval)
  : M CheckResult :=
  value <- do_check ;;
  ret (value, [do_to_value value]).

(** [PingPrinterCheck.check] *)
Definition PingPrinterCheck_check (max_ping timeout : Q) : M CheckResult :=
  value <- PingPrinterCheck_do_check timeout ;;
  let values := split value in
  ret (value, [PingCheckBase_do_to_value max_ping (hd EmptyString values); PyNone]).

(** [SpeedCheck.check] *)
Definition SpeedCheck_check (min_down min_up max_ping timeout : Q) : M CheckResult :=
  r <- ask (fun k => speedtest env k timeout) ;;
  match r with
  | Some m =>
      let name := remove_commas (server_name m) in
      let results :=
        [PyBool (ge (down m) min_down);
         PyBool (ge (up m) min_up);
         PyBool (le (latency m) max_ping);
         PyNone] in
      ret ((str_int (round (down m)) ++ "," ++ str_int (round (up m)) ++ ","
            ++ str_float env (latency m) ++ "," ++ name)%string, results)
  | None =>
      ret ("-1,-1,-1,N/A"%string, [PyBool false; PyBool false; PyBool false; PyNone])
  end.

(** [check()], by class.  The object is returned with its attributes as
    the call left them. *)
Fixpoint check (c : StatusCheck) : M (CheckResult * StatusCheck) :=
  match c with
  | FailEveryNTimes n i =>
      let (value, i') := FailEveryNTimes_do_check n i in
      ret ((value, [FailEveryNTimes_do_to_value value]), FailEveryNTimes n i')
  | PingPrinterCheck max_ping timeout =>
      r <- PingPrinterCheck_check max_ping timeout ;; ret (r, c)
  | PingCheck host max_ping timeout =>
      r <- StatusCheck_check (PingCheck_do_check host timeout)
             (PingCheckBase_do_to_value max_ping) ;;
      ret (r, c)
  | PingDefaultGatewayCheck max_ping timeout =>
      r <- StatusCheck_check (PingDefaultGatewayCheck_do_check timeout)
             (PingCheckBase_do_to_value max_ping) ;;
      ret (r, c)
  | DnsCheck host timeout =>
      r <- StatusCheck_check (DnsCheck_do_check host timeout) DnsCheck_do_to_value ;;
      ret (r, c)
  | SpeedCheck min_down min_up max_ping timeout =>
      r <- SpeedCheck_check min_down min_up max_ping timeout ;; ret (r, c)
  | MultipleChecks checks =>
      (* [check.check() for check in self.checks] *)
      let fix each (l : list StatusCheck) : M (list CheckResult * list StatusCheck) :=
        match l with
        | [] => ret ([], [])
        | c0 :: l' =>
            rc <- check c0 ;;
            rl <- each l' ;;
            ret (fst rc :: fst rl, snd rc :: snd rl)
        end in
      rl <- each checks ;;
      ret (combine_checks (fst rl), MultipleChecks (snd rl))
  end.

End Checks.

(** [column_names()] *)
Fixpoint column_names (c : StatusCheck) : string :=
  match c with
  | FailEveryNTimes n _ => ("fail every " ++ str_int n ++ " times")%string
  | PingPrinterCheck _ _ => "ping time for the printer (ms),printer address"%string
  | PingCheck host _ _ => ("ping time for " ++ host ++ " (ms)")%string
  | PingDefaultGatewayCheck _ _ => "ping time for the default gateway (ms)"%string
  | DnsCheck host _ => ("DNS resolution check for " ++ host)%string
  | SpeedCheck _ _ _ _ =>
      "download speed (bps),upload speed (bps),speed test latency (ms),speed test server name"%string
  | MultipleChecks checks => join "," (map column_names checks)
  end.

(** [num_columns()] *)
Fixpoint num_columns (c : StatusCheck) : nat :=
  match c with
  | FailEveryNTimes _ _ => 1
  | PingPrinterCheck _ _ => 2
  | PingCheck _ _ _ => 1
  | PingDefaultGatewayCheck _ _ => 1
  | DnsCheck _ _ => 1
  | SpeedCheck _ _ _ _ => 4
  | MultipleChecks checks => list_sum (map num_columns checks)
  end.

(** [NormalAndExtendedChecks], with its three attributes. *)
Record NormalAndExtendedChecks : Type := mkNormalAndExtendedChecks
  { normal_checks : StatusCheck;
    extended_checks : StatusCheck;
    test_observers : list TestObserver }.

(** The method calls made by [NormalAndExtendedChecks], in the order in
    which they are made: [check()] of one of the two composites, or a
    notification of the observer at a position of [test_observers]. *)
Inductive Call : Type :=
| CallCheck (test_type : TestType)
| CallStarted (observer : nat) (test_type : TestType)
| CallCompleted (observer : nat) (test_type : TestType) (result : pyval).

(** The process state together with the calls made so far (oldest first).
    Checks and observers act on [world] only. *)
Record Sys : Type := mkSys { world : World; calls : list Call }.

Definition lift {A : Type} (m : M A) : State Sys A :=
  fun s => let (a, w) := m (world s) in (a, mkSys w (calls s)).

Definition called (c : Call) : State Sys unit :=
  fun s => (tt, mkSys (world s) (calls s ++ [c])).

(** The observers with their positions. *)
Definition enumerate {A : Type} (l : list A) : list (nat * A) :=
  combine (seq 0 (length l)) l.

Section Scheduler.

Variable env : Env.

Definition do_check_call (test_type : TestType) (c : StatusCheck)
  : State Sys (CheckResult * StatusCheck) :=
  called (CallCheck test_type) ;;; lift (check env c).

Definition do_notify_test_started (io : nat * TestObserver) (test_type : TestType)
  : State Sys unit :=
  called (CallStarted (fst io) test_type) ;;;
  lift (notify_test_started (snd io) test_type).

Definition do_notify_test_completed (io : nat * TestObserver) (test_type : TestType)
  (result : pyval) : State Sys unit :=
  called (CallCompleted (fst io) test_type result) ;;;
  lift (notify_test_completed (snd io) test_type result).

(** [NormalAndExtendedChecks.normal_check] *)
Definition normal_check (self : NormalAndExtendedChecks)
  : State Sys (string * NormalAndExtendedChecks) :=
  let skip_extended :=
    join "," (list_times EmptyString (num_columns (extended_checks self))) in
  for_each (enumerate (test_observers self))
    (fun observer => do_notify_test_started observer NORMAL) ;;;
  rc <- do_check_call NORMAL (normal_checks self) ;;
  let results := fst rc in
  let normal_tests_result := reduce combine_results (snd results) PyNone in
  for_each (enumerate (test_observers self))
    (fun observer => do_notify_test_completed observer NORMAL normal_tests_result) ;;;
  ret ((fst results ++ "," ++ skip_extended)%string,
       mkNormalAndExtendedChecks (snd rc) (extended_checks self) (test_observers self)).

(** [NormalAndExtendedChecks.extended_check] *)
Definition extended_check (self : NormalAndExtendedChecks)
  : State Sys (string * NormalAndExtendedChecks) :=
  nrc <- do_check_call NORMAL (normal_checks self) ;;
  let normal_results := fst nrc in
  for_each (enumerate (test_observers self))
    (fun observer =>
       do_notify_test_started observer NORMAL ;;;
       do_notify_test_started observer EXTENDED) ;;;
  let normal_tests_result := reduce combine_results (snd normal_results) PyNone in
  erc <- do_check_call EXTENDED (extended_checks self) ;;
  let extended_results := fst erc in
  let extended_tests_result := reduce combine_results (snd extended_results) PyNone in
  for_each (enumerate (test_observers self))
    (fun observer =>
       do_notify_test_completed observer NORMAL normal_tests_result ;;;
       do_notify_test_completed observer EXTENDED extended_tests_result) ;;;
  ret ((fst normal_results ++ "," ++ fst extended_results)%string,
       mkNormalAndExtendedChecks (snd nrc) (snd erc) (test_observers self)).

End Scheduler.

(** [NormalAndExtendedChecks.column_names] *)
Definition NormalAndExtendedChecks_column_names (self : NormalAndExtendedChecks) : string :=
  let normal_column_names := column_names (normal_checks self) in
  let extended_column_names := column_names (extended_checks self) in
  (normal_column_names ++ "," ++ extended_column_names)%string.

(** [NormalAndExtendedChecks.num_columns] *)
Definition NormalAndExtendedChecks_num_columns (self : NormalAndExtendedChecks) : nat :=
  num_columns (normal_checks self) + num_columns (extended_checks self).

End networkstatus.
Import networkstatus.

(* ================================================================== *)
(** * hardware.py *)
(* ================================================================== *)

Module hardware.

(** ** Assignments to the attributes of the [TestState] object *)

Definition set_normal_test_result (v : pyval) (s : TestState) : TestState :=
  mkTestState v (extended_test_result s) (scheduled_normal_test s)
    (scheduled_extended_test s) (last_normal_test_failure_time s)
    (last_extended_test_failure_time s) (normal_test_running s)
    (extended_test_running s) (last_normal_test_started_time s)
    (last_extended_test_started_time s).

Definition set_extended_test_result (v : pyval) (s : TestState) : TestState :=
  mkTestState (normal_test_result s) v (scheduled_normal_test s)
    (scheduled_extended_test s) (last_normal_test_failure_time s)
    (last_extended_test_failure_time s) (normal_test_running s)
    (extended_test_running s) (last_normal_test_started_time s)
    (last_extended_test_started_time s).

Definition set_scheduled_normal_test (b : bool) (s : TestState) : TestState :=
  mkTestState (normal_test_result s) (extended_test_result s) b
    (scheduled_extended_test s) (last_normal_test_failure_time s)
    (last_extended_test_failure_time s) (normal_test_running s)
    (extended_test_running s) (last_normal_test_started_time s)
    (last_extended_test_started_time s).

Definition set_scheduled_extended_test (b : bool) (s : TestState) : TestState :=
  mkTestState (normal_test_result s) (extended_test_result s)
    (scheduled_normal_test s) b (last_normal_test_failure_time s)
    (last_extended_test_failure_time s) (normal_test_running s)
    (extended_test_running s) (last_normal_test_started_time s)
    (last_extended_test_started_time s).

Definition set_last_normal_test_failure_time (t : Q) (s : TestState) : TestState :=
  mkTestState (normal_test_result s) (extended_test_result s)
    (scheduled_normal_test s) (scheduled_extended_test s) t
    (last_extended_test_failure_time s) (normal_test_running s)
    (extended_test_running s) (last_normal_test_started_time s)
    (last_extended_test_started_time s).

Definition set_last_extended_test_failure_time (t : Q) (s : TestState) : TestState :=
  mkTestState (normal_test_result s) (extended_test_result s)
    (scheduled_normal_test s) (scheduled_extended_test s)
    (last_normal_test_failure_time s) t (normal_test_running s)
    (extended_test_running s) (last_normal_test_started_time s)
    (last_extended_test_started_time s).

Definition set_normal_test_running (b : bool) (s : TestState) : TestState :=
  mkTestState (normal_test_result s) (extended_test_result s)
    (scheduled_normal_test s) (scheduled_extended_test s)
    (last_normal_test_failure_time s) (last_extended_test_failure_time s) b
    (extended_test_running s) (last_normal_test_started_time s)
    (last_extended_test_started_time s).

Definition set_extended_test_running (b : bool) (s : TestState) : TestState :=
  mkTestState (normal_test_result s) (extended_test_result s)
    (scheduled_normal_test s) (scheduled_extended_test s)
    (last_normal_test_failure_time s) (last_extended_test_failure_time s)
    (normal_test_running s) b (last_normal_test_started_time s)
    (last_extended_test_started_time s).

Definition set_last_normal_test_started_time (t : Q) (s : TestState) : TestState :=
  mkTestState (normal_test_result s) (extended_test_result s)
    (scheduled_normal_test s) (scheduled_extended_test s)
    (last_normal_test_failure_time s) (last_extended_test_failure_time s)
    (normal_test_running s) (extended_test_running s) t
    (last_extended_test_started_time s).

Definition set_last_extended_test_started_time (t : Q) (s : TestState) : TestState :=
  mkTestState (normal_test_result s) (extended_test_result s)
    (scheduled_normal_test s) (scheduled_extended_test s)
    (last_normal_test_failure_time s) (last_extended_test_failure_time s)
    (normal_test_running s) (extended_test_running s)
    (last_normal_test_started_time s) t.

(** [TestState.__init__] *)
Definition TestState_init : TestState :=
  mkTestState (PyBool true) (PyBool true) true true 0 0 false false 0 0.

(** ** Primitive actions *)

(** [self.test_state.<attribute>]: a read of the shared object. *)
Definition read {A : Type} (attribute : TestState -> A) : M A :=
  fun w => (attribute (test_state w), w).

(** [self.test_state.<attribute> = v] *)
Definition assign (set : TestState -> TestState) : M unit :=
  fun w => (tt, mkWorld (tick w) (set (test_state w)) (gpio_out w)).

(** [GPIO.output(led.value, v)] *)
Definition GPIO_output (led : Leds) (v : pyval) : M unit :=
  fun w => (tt, mkWorld (tick w) (test_state w) (gpio_out w ++ [(led, v)])).

(** [time.sleep(d)]: the clock is an oracle, so sleeping changes nothing
    that the model records. *)
Definition time_sleep (d : Q) : M unit := ret tt.

Definition hour : Q := 60 * 60.
Definition day : Q := 24 * hour.
Definition week : Q := 7 * day.

(** The body of [__get_blink_state] once [current_time] is known.
    [current_time * 10] is the product of two doubles, rounded to a double
    before [round] sees it. *)
Definition blink_state_at (last_failure_time current_time : Q) : bool :=
  if ge (last_failure_time + hour) current_time then
    (0 <? round (float_mul current_time 10) mod 2)%Z
  else if ge (last_failure_time + day) current_time then
    (0 <? round current_time mod 2)%Z
  else if ge (last_failure_time + week) current_time then
    (0 <? round (float_mul current_time 10) mod 20)%Z
  else true.

(** The five values that [__update_leds] hands to [GPIO.output], as
    expressions over the attributes read. *)
Definition normal_pass_value (normal_blink_state : bool) (s : TestState) : pyval :=
  py_and (py_and (PyBool normal_blink_state) (normal_test_result s))
         (PyBool (negb (scheduled_normal_test s))).

Definition normal_fail_value (s : TestState) : pyval :=
  py_and (PyBool (py_not (normal_test_result s)))
         (PyBool (negb (scheduled_normal_test s))).

Definition extended_pass_value (extended_blink_state : bool) (s : TestState) : pyval :=
  py_and (py_and (PyBool extended_blink_state) (extended_test_result s))
         (PyBool (negb (scheduled_extended_test s))).

Definition extended_fail_value (s : TestState) : pyval :=
  py_and (PyBool (py_not (extended_test_result s)))
         (PyBool (negb (scheduled_extended_test s))).

Definition test_running_value (min_test_running_led_time current_time : Q)
  (s : TestState) : pyval :=
  py_or (py_or (py_or (PyBool (normal_test_running s))
                      (PyBool (extended_test_running s)))
               (PyBool (ge (last_normal_test_started_time s + min_test_running_led_time)
                           current_time)))
        (PyBool (ge (last_extended_test_started_time s + min_test_running_led_time)
                    current_time)).

Section Hardware.

Variable env : Env.

(** [time.time()] *)
Definition time_time : M Q := ask (clock env).

(** [GPIO.input(self.Buttons.RUN_TEST.value)] *)
Definition GPIO_input : M bool := ask (button env).

(** [Hardware.__get_blink_state] *)
Definition get_blink_state (last_failure_time : Q) : M bool :=
  current_time <- time_time ;;
  ret (blink_state_at last_failure_time current_time).

(** [Hardware.__update_leds].  Single-threaded, the two locks have no
    effect.  [test_state = self.test_state] binds a second name to the one
    [TestState] object, so every attribute below is read from the shared
    object at the moment its expression is evaluated. *)
Definition update_leds : M unit :=
  current_time <- time_time ;;
  let min_test_running_led_time := 1 in
  f <- read last_normal_test_failure_time ;;
  normal_blink_state <- get_blink_state f ;;
  f <- read last_extended_test_failure_time ;;
  extended_blink_state <- get_blink_state f ;;
  v <- read (normal_pass_value normal_blink_state) ;;
  GPIO_output NORMAL_PASS v ;;;
  v <- read normal_fail_value ;;
  GPIO_output NORMAL_FAIL v ;;;
  v <- read (extended_pass_value extended_blink_state) ;;
  GPIO_output EXTENDED_PASS v ;;;
  v <- read extended_fail_value ;;
  GPIO_output EXTENDED_FAIL v ;;;
  v <- read (test_running_value min_test_running_led_time current_time) ;;
  GPIO_output TEST_RUNNING v.

(** [Hardware.update] *)
Definition update : M unit := update_leds.

(** [Hardware.__init__] *)
Definition Hardware_init : M unit :=
  assign (fun _ => TestState_init) ;;;
  for_each all_leds (fun led => GPIO_output led (PyBool false)) ;;;
  time_sleep 1 ;;;
  for_each all_leds (fun led => GPIO_output led (PyBool true)) ;;;
  time_sleep 1 ;;;
  for_each all_leds (fun led => GPIO_output led (PyBool false)).

Definition TestType_eqb (a b : TestType) : bool :=
  match a, b with
  | NORMAL, NORMAL | EXTENDED, EXTENDED => true
  | _, _ => false
  end.

(** [Hardware.notify_test_started] *)
Definition notify_test_started (test_type : TestType) : M unit :=
  (if TestType_eqb test_type NORMAL then
     assign (set_normal_test_running true) ;;;
     t <- time_time ;;
     assign (set_last_normal_test_started_time t)
   else ret tt) ;;;
  (if TestType_eqb test_type EXTENDED then
     assign (set_extended_test_running true) ;;;
     t <- time_time ;;
     assign (set_last_extended_test_started_time t)
   else ret tt) ;;;
  update_leds.

(** [Hardware.notify_test_completed] *)
Definition notify_test_completed (test_type : TestType) (result : pyval) : M unit :=
  (if TestType_eqb test_type NORMAL then
     assign (set_normal_test_result result) ;;;
     assign (set_normal_test_running false) ;;;
     assign (set_scheduled_normal_test false) ;;;
     if py_not result then
       t <- time_time ;;
       assign (set_last_normal_test_failure_time t)
     else ret tt
   else if TestType_eqb test_type EXTENDED then
     assign (set_extended_test_result result) ;;;
     assign (set_extended_test_running false) ;;;
     assign (set_scheduled_extended_test false) ;;;
     if py_not result then
       t <- time_time ;;
       assign (set_last_extended_test_failure_time t)
     else ret tt
   else ret tt) ;;;
  update_leds.

(** [Hardware] as a [TestObserver]. *)
Definition Hardware : TestObserver :=
  {| networkstatus.notify_test_started := notify_test_started;
     networkstatus.notify_test_completed := notify_test_completed |}.

(** The loop of [Hardware.get_user_input]; [fuel] bounds the number of
    iterations, and [None] is returned when it runs out. *)
Fixpoint poll (fuel : nat) (timeout_time : Q) (user_input_time : option Q)
  : M (option UserInput) :=
  let sleep_time := 1 # 10 in
  let button_push_time_for_extended_test := 3 in
  match fuel with
  | O => ret None
  | S fuel' =>
      match user_input_time with
      | None =>
          pushed <- GPIO_input ;;
          if pushed then
            t <- time_time ;;
            assign (set_scheduled_normal_test true) ;;;
            update_leds ;;;
            poll fuel' timeout_time (Some t)
          else
            t <- time_time ;;
            if ge t timeout_time then ret (Some NO_INPUT)
            else time_sleep sleep_time ;;; poll fuel' timeout_time None
      | Some pushed_at =>
          pushed <- GPIO_input ;;
          if negb pushed then ret (Some NORMAL_TEST)
          else
            t <- time_time ;;
            if ge t (pushed_at + button_push_time_for_extended_test) then
              assign (set_scheduled_extended_test true) ;;;
              update_leds ;;;
              ret (Some EXTENDED_TEST)
            else time_sleep sleep_time ;;; poll fuel' timeout_time (Some pushed_at)
      end
  end.

(** [Hardware.get_user_input] *)
Definition get_user_input (fuel : nat) (timeout : Q) : M (option UserInput) :=
  t <- time_time ;;
  let timeout_time := t + timeout in
  poll fuel timeout_time None.

End Hardware.

End hardware.

(* ================================================================== *)
(** * network-status-main.py *)
(* ================================================================== *)

Module main.

(** The variables of [main()] that its loop reads and writes, with the
    process state and the lines printed on standard output, oldest first. *)
Record MainState : Type := mkMain
  { checks : NormalAndExtendedChecks;
    last_normal_test : Q;
    last_extended_test : Q;
    sys : Sys;
    printed : list string }.

Definition user_input_timeout : Q := 1.
Definition status_timeout : Q := 10.
Definition max_ping : Q := 200.
Definition normal_test_interval : Q := 60.
Definition extended_test_interval : Q := 60 * 60.

Definition quick_checks : StatusCheck :=
  MultipleChecks
    [PingDefaultGatewayCheck max_ping status_timeout;
     PingCheck "google.com" max_ping status_timeout;
     DnsCheck "google.com" status_timeout;
     PingPrinterCheck max_ping status_timeout].

Definition extended_checks : StatusCheck :=
  MultipleChecks
    [SpeedCheck (20 * 1000 * 1000) (5 * 1000 * 1000) max_ping status_timeout].

Section Main.

Variable env : Env.

(** The first statement of the body of [while True] in [main()]: the
    [if] that runs the batch that is due and prints its row. *)
Definition run_due_batch (st : MainState) : MainState :=
  let (current_time, s1) := lift (hardware.time_time env) (sys st) in
  let normal_due := ge current_time (last_normal_test st + normal_test_interval) in
  let extended_due := ge current_time (last_extended_test st + extended_test_interval) in
  if normal_due || extended_due then
    let (time_str, s2) := lift (ask (utc_now env)) s1 in
    if extended_due then
      let header := ("# time(utc)," ++ NormalAndExtendedChecks_column_names (checks st))%string in
      let (r, s3) := extended_check env (checks st) s2 in
      mkMain (snd r) current_time current_time s3
        (printed st ++ [header] ++ [(time_str ++ "," ++ fst r)%string])
    else
      let (r, s3) := normal_check env (checks st) s2 in
      mkMain (snd r) current_time (last_extended_test st) s3
        (printed st ++ [(time_str ++ "," ++ fst r)%string])
  else mkMain (checks st) (last_normal_test st) (last_extended_test st) s1 (printed st).

(** One turn of [while True]: the batch, then the button; [fuel] bounds
    the polling of [get_user_input]. *)
Definition cycle (fuel : nat) (st : MainState) : option MainState :=
  let st1 := run_due_batch st in
  let (user_input, s4) :=
    lift (hardware.get_user_input env fuel user_input_timeout) (sys st1) in
  match user_input with
  | None => None
  | Some NO_INPUT =>
      Some (mkMain (checks st1) (last_normal_test st1) (last_extended_test st1) s4
              (printed st1))
  | Some NORMAL_TEST =>
      Some (mkMain (checks st1) 0 (last_extended_test st1) s4 (printed st1))
  | Some EXTENDED_TEST =>
      Some (mkMain (checks st1) 0 0 s4 (printed st1))
  end.

(** The first [cycles] turns of the loop. *)
Fixpoint loop (cycles fuel : nat) (st : MainState) : option MainState :=
  match cycles with
  | O => Some st
  | S n =>
      match cycle fuel st with
      | Some st' => loop n fuel st'
      | None => None
      end
  end.

(** The state in which [main()] enters its loop. *)
Definition start (w : World) : MainState :=
  let w := exec hardware.Hardware_init w in
  let checks :=
    mkNormalAndExtendedChecks quick_checks extended_checks [hardware.Hardware env] in
  mkMain checks 0 0 (mkSys w []) [].

(** What a turn of the loop that starts in [st] reads and prints. *)
Definition now (st : MainState) : Q := clock env (tick (world (sys st))).

Definition normal_due (st : MainState) : bool :=
  ge (now st) (last_normal_test st + normal_test_interval).

Definition extended_due (st : MainState) : bool :=
  ge (now st) (last_extended_test st + extended_test_interval).

Definition time_str (st : MainState) : string :=
  utc_now env (S (tick (world (sys st)))).

(** The process when the batch of the turn starts: the clock and the
    date have been read. *)
Definition at_batch (st : MainState) : Sys :=
  mkSys (with_tick (2 + tick (world (sys st))) (world (sys st))) (calls (sys st)).

Definition header (st : MainState) : string :=
  ("# time(utc)," ++ NormalAndExtendedChecks_column_names (checks st))%string.

Definition extended_row (st : MainState) : string :=
  (time_str st ++ "," ++ fst (eval (extended_check env (checks st)) (at_batch st)))%string.

Definition normal_row (st : MainState) : string :=
  (time_str st ++ "," ++ fst (eval (normal_check env (checks st)) (at_batch st)))%string.

Definition main (cycles fuel : nat) (w : World) : option MainState :=
  loop cycles fuel (start w).

End Main.

(** The lines of the output that are header lines. *)
Fixpoint starts_with (p s : string) : bool :=
  match p, s with
  | EmptyString, _ => true
  | String a p', String b s' => Ascii.eqb a b && starts_with p' s'
  | String _ _, EmptyString => false
  end.

Definition is_header (line : string) : bool := starts_with "# time(utc)," line.

Definition headers (out : list string) : list string := filter is_header out.

(** The number of Extended batches among the calls made. *)
Definition is_extended_check (c : Call) : bool :=
  match c with
  | CallCheck EXTENDED => true
  | _ => false
  end.

Definition extended_batches (cs : list Call) : nat :=
  length (filter is_extended_check cs).

End main.

(* ================================================================== *)
(** * Two threads on the shared [TestState]

    [main()] starts a daemon thread that calls [Hardware.update] every
    0.1 s while the main thread runs the checks and notifies the same
    [Hardware] object.  The interleaving model below runs one refresh in
    the background thread against one [notify_test_completed] in the main
    thread.  A thread switch may happen between two statements; the
    evaluation of the argument of one [GPIO.output] call is taken as one
    step. *)
(* ================================================================== *)

Module threads.

Inductive Thread : Type := Background | Foreground.

Definition Thread_eqb (a b : Thread) : bool :=
  match a, b with
  | Background, Background | Foreground, Foreground => true
  | _, _ => false
  end.

(** A [threading.Lock]: free, or held by a thread. *)
Definition Lock : Type := option Thread.

(** A reference to a [TestState] object.  The process has one such
    object, the one that [self.test_state] names. *)
Inductive Ref : Type := self_test_state.

(** The local variables of one activation of [__update_leds] and the
    statement it is at. *)
Record Refresh : Type := mkRefresh
  { pc : nat;
    current_time : Q;
    local_test_state : option Ref;
    normal_blink_state : bool;
    extended_blink_state : bool }.

Definition Refresh_start : Refresh := mkRefresh 0 0 None false false.

(** The statement that [notify_test_completed(test_type, result)] is at;
    its last statement is the call of [__update_leds]. *)
Record Completion : Type := mkCompletion
  { cpc : nat;
    test_type : TestType;
    result : pyval;
    refresh : Refresh }.

Record Config : Type := mkConfig
  { shared : World;
    test_state_lock : Lock;
    led_lock : Lock;
    background : Refresh;
    foreground : Completion }.

Section Threads.

Variable env : Env.

(** Dereference: the attributes are those of the shared object now. *)
Definition deref (r : option Ref) (w : World) : TestState := test_state w.

Definition at_pc (n : nat) (r : Refresh) : Refresh :=
  mkRefresh n (current_time r) (local_test_state r) (normal_blink_state r)
    (extended_blink_state r).

(** One statement of [__update_leds] run by thread [me].  [None] when the
    thread cannot move: it waits for a lock, or it has returned. *)
Definition refresh_step (me : Thread) (r : Refresh) (w : World) (sl ll : Lock)
  : option (Refresh * World * Lock * Lock) :=
  match pc r with
  | 0%nat => (* current_time = time.time() *)
      let (t, w') := hardware.time_time env w in
      Some (mkRefresh 1 t (local_test_state r) (normal_blink_state r)
              (extended_blink_state r), w', sl, ll)
  | 1%nat => (* self.test_state_lock.acquire() *)
      match sl with
      | None => Some (at_pc 2 r, w, Some me, ll)
      | Some _ => None
      end
  | 2%nat => (* test_state = self.test_state *)
      Some (mkRefresh 3 (current_time r) (Some self_test_state)
              (normal_blink_state r) (extended_blink_state r), w, sl, ll)
  | 3%nat => (* self.test_state_lock.release() *)
      Some (at_pc 4 r, w, None, ll)
  | 4%nat =>
      let s := deref (local_test_state r) w in
      let (b, w') := hardware.get_blink_state env (last_normal_test_failure_time s) w in
      Some (mkRefresh 5 (current_time r) (local_test_state r) b
              (extended_blink_state r), w', sl, ll)
  | 5%nat =>
      let s := deref (local_test_state r) w in
      let (b, w') := hardware.get_blink_state env (last_extended_test_failure_time s) w in
      Some (mkRefresh 6 (current_time r) (local_test_state r)
              (normal_blink_state r) b, w', sl, ll)
  | 6%nat => (* self.led_lock.acquire() *)
      match ll with
      | None => Some (at_pc 7 r, w, sl, Some me)
      | Some _ => None
      end
  | 7%nat =>
      let s := deref (local_test_state r) w in
      Some (at_pc 8 r,
            exec (hardware.GPIO_output NORMAL_PASS
                    (hardware.normal_pass_value (normal_blink_state r) s)) w, sl, ll)
  | 8%nat =>
      let s := deref (local_test_state r) w in
      Some (at_pc 9 r,
            exec (hardware.GPIO_output NORMAL_FAIL (hardware.normal_fail_value s)) w,
            sl, ll)
  | 9%nat =>
      let s := deref (local_test_state r) w in
      Some (at_pc 10 r,
            exec (hardware.GPIO_output EXTENDED_PASS
                    (hardware.extended_pass_value (extended_blink_state r) s)) w, sl, ll)
  | 10%nat =>
      let s := deref (local_test_state r) w in
      Some (at_pc 11 r,
            exec (hardware.GPIO_output EXTENDED_FAIL (hardware.extended_fail_value s)) w,
            sl, ll)
  | 11%nat =>
      let s := deref (local_test_state r) w in
      Some (at_pc 12 r,
            exec (hardware.GPIO_output TEST_RUNNING
                    (hardware.test_running_value 1 (current_time r) s)) w, sl, ll)
  | 12%nat => (* self.led_lock.release() *)
      Some (at_pc 13 r, w, sl, None)
  | _ => None
  end.

Definition at_cpc (n : nat) (c : Completion) : Completion :=
  mkCompletion n (test_type c) (result c) (refresh c).

(** One statement of [notify_test_completed] run by the main thread. *)
Definition completion_step (c : Completion) (w : World) (sl ll : Lock)
  : option (Completion * World * Lock * Lock) :=
  let normal := hardware.TestType_eqb (test_type c) NORMAL in
  match cpc c with
  | 0%nat => (* self.test_state_lock.acquire() *)
      match sl with
      | None => Some (at_cpc 1 c, w, Some Foreground, ll)
      | Some _ => None
      end
  | 1%nat =>
      Some (at_cpc 2 c,
            exec (hardware.assign
                    (if normal then hardware.set_normal_test_result (result c)
                     else hardware.set_extended_test_result (result c))) w, sl, ll)
  | 2%nat =>
      Some (at_cpc 3 c,
            exec (hardware.assign
                    (if normal then hardware.set_normal_test_running false
                     else hardware.set_extended_test_running false)) w, sl, ll)
  | 3%nat =>
      Some (at_cpc 4 c,
            exec (hardware.assign
                    (if normal then hardware.set_scheduled_normal_test false
                     else hardware.set_scheduled_extended_test false)) w, sl, ll)
  | 4%nat =>
      if py_not (result c) then
        let (t, w') := hardware.time_time env w in
        Some (at_cpc 5 c,
              exec (hardware.assign
                      (if normal then hardware.set_last_normal_test_failure_time t
                       else hardware.set_last_extended_test_failure_time t)) w', sl, ll)
      else Some (at_cpc 5 c, w, sl, ll)
  | 5%nat => (* self.test_state_lock.release() *)
      Some (at_cpc 6 c, w, None, ll)
  | _ => (* self.__update_leds() *)
      match refresh_step Foreground (refresh c) w sl ll with
      | Some (r, w', sl', ll') =>
          Some (mkCompletion (cpc c) (test_type c) (result c) r, w', sl', ll')
      | None => None
      end
  end.

(** The scheduler lets thread [t] run one statement; a thread that cannot
    move leaves the configuration as it is. *)
Definition step (t : Thread) (c : Config) : Config :=
  match t with
  | Background =>
      match refresh_step Background (background c) (shared c)
              (test_state_lock c) (led_lock c) with
      | Some (r, w, sl, ll) => mkConfig w sl ll r (foreground c)
      | None => c
      end
  | Foreground =>
      match completion_step (foreground c) (shared c)
              (test_state_lock c) (led_lock c) with
      | Some (f, w, sl, ll) => mkConfig w sl ll (background c) f
      | None => c
      end
  end.

Definition run (schedule : list Thread) (c : Config) : Config :=
  fold_left (fun c t => step t c) schedule c.

(** Both threads at their first statement, both locks free. *)
Definition initial (w : World) (test_type : TestType) (result : pyval) : Config :=
  mkConfig w None None Refresh_start (mkCompletion 0 test_type result Refresh_start).

End Threads.

End threads.

(* ================================================================== *)
(** * Vocabulary of the properties *)
(* ================================================================== *)

Definition is_pass (v : pyval) : bool := pyval_eqb v (PyBool true).
Definition is_fail (v : pyval) : bool := pyval_eqb v (PyBool false).
Definition is_unknown (v : pyval) : bool := pyval_eqb v PyNone.

(** ** LED refresh *)

(** The values that one refresh, started in [w], hands to [GPIO.output]. *)
Definition refresh_values (env : Env) (w : World) : list (Leds * pyval) :=
  skipn (length (gpio_out w)) (gpio_out (exec (hardware.update_leds env) w)).

(** An output is driven on when the value written is true. *)
Definition lit (out : list (Leds * pyval)) : list (Leds * bool) :=
  map (fun p => (fst p, truthy (snd p))) out.

(** The five outputs in the words of the specification, from the two
    blink states, the time of the refresh and the attributes. *)
Definition claimed_leds (normal_blink extended_blink : bool) (now : Q)
  (s : TestState) : list (Leds * bool) :=
  [(NORMAL_PASS,
    normal_blink && is_pass (normal_test_result s) && negb (scheduled_normal_test s));
   (NORMAL_FAIL,
    is_fail (normal_test_result s) && negb (scheduled_normal_test s));
   (EXTENDED_PASS,
    extended_blink && is_pass (extended_test_result s)
    && negb (scheduled_extended_test s));
   (EXTENDED_FAIL,
    is_fail (extended_test_result s) && negb (scheduled_extended_test s));
   (TEST_RUNNING,
    normal_test_running s || extended_test_running s
    || le now (last_normal_test_started_time s + 1)
    || le now (last_extended_test_started_time s + 1))].

(** The values handed to [GPIO.output] for a list of outputs that are on
    or off. *)
Definition as_written (l : list (Leds * bool)) : list (Leds * pyval) :=
  map (fun p => (fst p, PyBool (snd p))) l.

(** The blink states that a refresh started in [w] computes: the clock is
    read once for the refresh and once by each [__get_blink_state]. *)
Definition normal_blink (env : Env) (w : World) : bool :=
  hardware.blink_state_at (last_normal_test_failure_time (test_state w))
    (clock env (S (tick w))).

Definition extended_blink (env : Env) (w : World) : bool :=
  hardware.blink_state_at (last_extended_test_failure_time (test_state w))
    (clock env (S (S (tick w)))).

(** The values of one refresh as a list. *)
Definition refresh_list (env : Env) (w : World) : list (Leds * pyval) :=
  let s := test_state w in
  [(NORMAL_PASS, hardware.normal_pass_value (normal_blink env w) s);
   (NORMAL_FAIL, hardware.normal_fail_value s);
   (EXTENDED_PASS, hardware.extended_pass_value (extended_blink env w) s);
   (EXTENDED_FAIL, hardware.extended_fail_value s);
   (TEST_RUNNING, hardware.test_running_value 1 (clock env (tick w)) s)].

(** ** Blink regimes *)



(** A clock reading of the year 2026, as a double: 1793700000.55. *)
Definition reading_2026 : Q := 7523323087106867 # 4194304.




(** ** Operations on the [Hardware] object *)

Inductive Op : Type :=
| OpStarted (test_type : TestType)
| OpCompleted (test_type : TestType) (result : pyval)
| OpUserInput (fuel : nat) (timeout : Q)
| OpUpdate.

Definition run_op (env : Env) (w : World) (op : Op) : World :=
  match op with
  | OpStarted t => exec (hardware.notify_test_started env t) w
  | OpCompleted t r => exec (hardware.notify_test_completed env t r) w
  | OpUserInput fuel timeout => exec (hardware.get_user_input env fuel timeout) w
  | OpUpdate => exec (hardware.update env) w
  end.

Definition run_ops (env : Env) (ops : list Op) (w : World) : World :=
  fold_left (run_op env) ops w.

Definition is_completion_of (k : TestType) (op : Op) : bool :=
  match op with
  | OpCompleted t _ => hardware.TestType_eqb t k
  | _ => false
  end.

Definition scheduled (k : TestType) (s : TestState) : bool :=
  match k with
  | NORMAL => scheduled_normal_test s
  | EXTENDED => scheduled_extended_test s
  end.

Definition pass_led (k : TestType) : Leds :=
  match k with NORMAL => NORMAL_PASS | EXTENDED => EXTENDED_PASS end.

Definition fail_led (k : TestType) : Leds :=
  match k with NORMAL => NORMAL_FAIL | EXTENDED => EXTENDED_FAIL end.

Definition Leds_eqb (a b : Leds) : bool := (Leds_value a =? Leds_value b)%Z.

(** Whether a refresh drove [led] on: some value written to it is true. *)
Definition drives_on (led : Leds) (out : list (Leds * pyval)) : bool :=
  existsb (fun p => Leds_eqb (fst p) led && truthy (snd p)) out.

(** The values written to [led], in the order of the writes. *)
Definition written_to (led : Leds) (out : list (Leds * pyval)) : list pyval :=
  map snd (filter (fun p => Leds_eqb (fst p) led) out).

(** ** Arity of a check *)

(** The value string of [check()] has [num_columns()] fields, whatever the
    environment answers. *)
Definition arity_ok (env : Env) (c : StatusCheck) : Prop :=
  forall w, fields (fst (fst (eval (check env c) w))) = num_columns c.

(** [[check.check() for check in checks]] *)
Definition check_each (env : Env)
  : list StatusCheck -> M (list CheckResult * list StatusCheck) :=
  fix each (l : list StatusCheck) : M (list CheckResult * list StatusCheck) :=
    match l with
    | [] => ret ([], [])
    | c0 :: l' =>
        rc <- check env c0 ;;
        rl <- each l' ;;
        ret (fst rc :: fst rl, snd rc :: snd rl)
    end.

(** ** Order of the calls of a batch *)

(** The notifications of [n] observers in [extended_check]: each observer
    in turn is told Normal, then Extended. *)
Definition started_calls (n : nat) : list Call :=
  flat_map (fun i => [CallStarted i NORMAL; CallStarted i EXTENDED]) (seq 0 n).

Definition completed_calls (n : nat) (normal_result extended_result : pyval)
  : list Call :=
  flat_map (fun i => [CallCompleted i NORMAL normal_result;
                      CallCompleted i EXTENDED extended_result]) (seq 0 n).

(** What the loops over the observers do to the process. *)
Definition started_both (observers : list TestObserver) : M unit :=
  for_each observers
    (fun o => notify_test_started o NORMAL ;;; notify_test_started o EXTENDED).

Definition completed_both (observers : list TestObserver)
  (normal_result extended_result : pyval) : M unit :=
  for_each observers
    (fun o => notify_test_completed o NORMAL normal_result ;;;
              notify_test_completed o EXTENDED extended_result).

Definition started_normal (observers : list TestObserver) : M unit :=
  for_each observers (fun o => notify_test_started o NORMAL).

Definition completed_normal (observers : list TestObserver) (result : pyval) : M unit :=
  for_each observers (fun o => notify_test_completed o NORMAL result).

(** The overall verdict of a check result. *)
Definition overall (r : CheckResult) : pyval := reduce combine_results (snd r) PyNone.

(** Padding for the Extended columns of a Normal row. *)
Definition skip_extended (self : NormalAndExtendedChecks) : string :=
  join "," (list_times EmptyString (num_columns (extended_checks self))).

(** ** Button observations *)

(** [n] turns of the polling loop in a row, the first asking the button at
    index [k], in each of which the button reads released and the clock
    reads less than [timeout_time]. *)
Fixpoint idle_until (env : Env) (k : nat) (timeout_time : Q) (n : nat) : bool :=
  match n with
  | O => true
  | S n' =>
      negb (button env k) && negb (ge (clock env (S k)) timeout_time)
      && idle_until env (S (S k)) timeout_time n'
  end.

(** [n] turns in a row in each of which the button reads pushed and the
    clock reads less than three seconds after [pushed_at]. *)
Fixpoint held_until (env : Env) (k : nat) (pushed_at : Q) (n : nat) : bool :=
  match n with
  | O => true
  | S n' =>
      button env k && negb (ge (clock env (S k)) (pushed_at + 3))
      && held_until env (S (S k)) pushed_at n'
  end.

(** The process right after the turn that saw the push at index [k]:
    [scheduled_normal_test] assigned, then one refresh. *)
Definition after_push (env : Env) (k : nat) (w : World) : World :=
  exec (hardware.update_leds env)
    (with_state (hardware.set_scheduled_normal_test true) (with_tick (2 + k) w)).

(** The process right after the turn at index [k] that saw the hold reach
    three seconds: [scheduled_extended_test] assigned, then one refresh. *)
Definition after_hold (env : Env) (k : nat) (w : World) : World :=
  exec (hardware.update_leds env)
    (with_state (hardware.set_scheduled_extended_test true) (with_tick (2 + k) w)).

(** ** Concrete environments *)

(** An environment given by its clock and its button, in which every
    probe fails. *)
Definition env_of (clock : nat -> Q) (button : nat -> bool) : Env :=
  mkEnv clock button (fun _ => "2026-01-01T00:00:00Z"%string)
    (fun _ _ _ => None) (fun _ _ _ => None) (fun _ _ => None) (fun _ _ => None)
    (fun _ _ => None) (fun _ => "0.0"%string) (fun _ => 0).

(** The button is never pushed, and the clock jumps by 10000 s from one
    reading to the next. *)
Definition env_down : Env :=
  env_of (fun k => inject_Z (10000 * (Z.of_nat k + 1))) (fun _ => false).

(** The clock stands at [t]. *)
Definition env_at (t : Q) : Env := env_of (fun _ => t) (fun _ => false).

(** A clock that advances a quarter of a second per question. *)
Definition quarter_clock (k : nat) : Q := inject_Z (Z.of_nat k) / 4.

(** The button is never pushed. *)
Definition env_quiet : Env := env_of quarter_clock (fun _ => false).

(** The button is pushed from question 3 on and released at question 12. *)
Definition env_tap : Env :=
  env_of quarter_clock (fun k => (3 <=? k)%nat && (k <? 12)%nat).

(** The button is pushed from question 3 on and held. *)
Definition env_hold : Env := env_of quarter_clock (fun k => (3 <=? k)%nat).

(** The process before [Hardware()] is constructed. *)
Definition world0 : World := mkWorld 0 hardware.TestState_init [].

(** ** A refresh interleaved with a completion *)

(** The clock stands far more than a week after the epoch. *)
Definition env_late : Env := env_at 1000000.

(** The process after [Hardware()] and a Normal batch that passed. *)
Definition world_passed : World :=
  exec (hardware.notify_test_completed env_late NORMAL (PyBool true))
    (exec hardware.Hardware_init world0).

(** The process after [Hardware()] and a Normal batch that failed. *)
Definition world_failed : World :=
  exec (hardware.notify_test_completed env_late NORMAL (PyBool false))
    (exec hardware.Hardware_init world0).

(** The background thread runs [__update_leds] up to and including the
    write of Normal-Pass; the main thread then runs the locked part of
    [notify_test_completed(NORMAL, False)]; the background thread then
    finishes its refresh. *)
Definition torn_schedule : list threads.Thread :=
  repeat threads.Background 8 ++ repeat threads.Foreground 6
  ++ repeat threads.Background 5.

(** ** Repeated checks *)

(** [FailEveryNTimes(n)]: the constructor sets [self.i = n]. *)
Definition FailEveryNTimes_init (n : Z) : StatusCheck := FailEveryNTimes n n.

(** [k] calls of [check()] in a row on the same object: the results,
    oldest first, the object and the process after the last call. *)
Fixpoint check_times (env : Env) (k : nat) (c : StatusCheck) (w : World)
  : list CheckResult * StatusCheck * World :=
  match k with
  | O => ([], c, w)
  | S k' =>
      let '(r, c1, w1) := check env c w in
      let '(rs, c2, w2) := check_times env k' c1 w1 in
      (r :: rs, c2, w2)
  end.

(** What the [j]-th call on a fresh [FailEveryNTimes(n)] returns. *)
Definition every_nth (n : Z) (j : nat) : CheckResult :=
  if (Z.of_nat j mod n =? 0)%Z then (FAIL, [PyBool false]) else (PASS, [PyBool true]).

(** ** Names without commas *)

(** The hosts in the names of the columns hold no comma and no composite
    is empty. *)
Fixpoint plain_names (c : StatusCheck) : bool :=
  match c with
  | PingCheck host _ _ => (fields host =? 1)%nat
  | DnsCheck host _ => (fields host =? 1)%nat
  | MultipleChecks checks =>
      negb (length checks =? 0)%nat && forallb plain_names checks
  | _ => true
  end.

(** An environment that renders every float as [12.5] and reads it back. *)
Definition env_ping (t : Q) : Env :=
  mkEnv (fun _ => 0) (fun _ => false) (fun _ => "2026-01-01T00:00:00Z"%string)
    (fun _ _ _ => Some t) (fun _ _ _ => Some "192.0.2.1"%string)
    (fun _ _ => Some "192.0.2.254"%string)
    (fun _ _ => Some [mkPrinter "a" "192.0.2.7"; mkPrinter "b" "192.0.2.8"])
    (fun _ _ => Some (mkSpeed 30000000 6000000 t "Example, Town"))
    (fun _ => "12.5"%string) (fun _ => t).

(** ** Well-formed values *)

(** No composite in the check is empty. *)
Fixpoint nonempty_composites (c : StatusCheck) : bool :=
  match c with
  | MultipleChecks checks =>
      negb (length checks =? 0)%nat && forallb nonempty_composites checks
  | _ => true
  end.

(** Floats are rendered without a comma and no printer address holds
    one. *)
Definition plain_env (env : Env) : Prop :=
  (forall x, fields (str_float env x) = 1%nat) /\
  (forall k t l p,
      discover_printers env k t = Some l -> In p l -> fields (address p) = 1%nat).

(** ** Attributes by kind of batch *)

Definition test_result (k : TestType) (s : TestState) : pyval :=
  match k with
  | NORMAL => normal_test_result s
  | EXTENDED => extended_test_result s
  end.

Definition test_running (k : TestType) (s : TestState) : bool :=
  match k with
  | NORMAL => normal_test_running s
  | EXTENDED => extended_test_running s
  end.

Definition last_failure_time (k : TestType) (s : TestState) : Q :=
  match k with
  | NORMAL => last_normal_test_failure_time s
  | EXTENDED => last_extended_test_failure_time s
  end.

Definition last_started_time (k : TestType) (s : TestState) : Q :=
  match k with
  | NORMAL => last_normal_test_started_time s
  | EXTENDED => last_extended_test_started_time s
  end.

Definition other_kind (k : TestType) : TestType :=
  match k with NORMAL => EXTENDED | EXTENDED => NORMAL end.

(** The values handed to [GPIO.output] between the process [w] and the
    later process [w']. *)
Definition written (w w' : World) : list (Leds * pyval) :=
  skipn (length (gpio_out w)) (gpio_out w').

(** Two states of the [TestState] object that differ at most in the two
    scheduled flags. *)
Definition same_but_scheduled (s s' : TestState) : Prop :=
  normal_test_result s' = normal_test_result s /\
  extended_test_result s' = extended_test_result s /\
  last_normal_test_failure_time s' = last_normal_test_failure_time s /\
  last_extended_test_failure_time s' = last_extended_test_failure_time s /\
  normal_test_running s' = normal_test_running s /\
  extended_test_running s' = extended_test_running s /\
  last_normal_test_started_time s' = last_normal_test_started_time s /\
  last_extended_test_started_time s' = last_extended_test_started_time s.

(** ** The loops of [network-status-main.py] *)

(** What [get_user_input] returns in the turn of the loop that starts in
    [st]. *)
Definition turn_input (env : Env) (fuel : nat) (st : main.MainState)
  : option UserInput :=
  eval (hardware.get_user_input env fuel main.user_input_timeout)
    (world (main.sys (main.run_due_batch env st))).

(** The first [n] turns of [while True] in [update(hardware,
    update_interval)], the target of the daemon thread. *)
Fixpoint update_thread (env : Env) (update_interval : Q) (n : nat) : M unit :=
  match n with
  | O => ret tt
  | S n' =>
      hardware.update env ;;;
      hardware.time_sleep update_interval ;;;
      update_thread env update_interval n'
  end.

(** The clock starts at 10000 s and advances a second per question; the
    button reads pushed at question 4 only. *)
Definition env_push_after_batch : Env :=
  env_of (fun k => inject_Z (10000 + Z.of_nat k)) (fun k => (k =? 4)%nat).

(** A loop state with two small composites and no observer, before the
    first turn. *)
Definition light_main_state : main.MainState :=
  main.mkMain
    (mkNormalAndExtendedChecks (MultipleChecks [FailEveryNTimes 3 3])
       (MultipleChecks [DnsCheck "example.org" 10]) [])
    0 0 (mkSys world0 []) [].

(** The state after the first turn, in which the button is pushed. *)
Definition light_next : main.MainState :=
  Eval vm_compute in
    match main.cycle env_push_after_batch 5 light_main_state with
    | Some st => st
    | None => light_main_state
    end.

(** ** The lock on the outputs *)

(** A thread is between the acquisition and the release of [led_lock]. *)
Definition writing (pc : nat) : Prop := (7 <= pc <= 12)%nat.

(** The output that the statement at [pc] of [__update_leds] writes. *)
Definition led_at (pc : nat) : option Leds :=
  if (7 <=? pc)%nat && (pc <=? 11)%nat then nth_error all_leds (pc - 7) else None.

(** [led_lock] seen from one thread: free, held by it ([true]) or held
    by the other one ([false]); [p] is at which statement of
    [__update_leds] the thread is, [q] the other one. *)
Definition lock_status (ll : option bool) (p q : nat) : Prop :=
  match ll with
  | None => ~ writing p /\ ~ writing q
  | Some true => writing p /\ ~ writing q
  | Some false => writing q /\ ~ writing p
  end.

(** How many of its five writes the holder of [led_lock] has made. *)
Definition lock_progress (ll : option bool) (p q : nat) : nat :=
  match ll with
  | None => 0
  | Some true => p - 7
  | Some false => q - 7
  end.

(** The outputs written are whole refreshes followed by the writes made
    so far by the holder of the lock. *)
Definition whole_refreshes (ll : option bool) (p q : nat) (leds : list Leds) : Prop :=
  exists k, leds = List.concat (repeat all_leds k) ++ firstn (lock_progress ll p q) all_leds.

Definition held_by (me : threads.Thread) (ll : threads.Lock) : option bool :=
  option_map (threads.Thread_eqb me) ll.

(** What holds of every configuration that the two threads reach from the
    outputs [out0]. *)
Definition led_lock_inv (out0 : list (Leds * pyval)) (c : threads.Config) : Prop :=
  let pb := threads.pc (threads.background c) in
  let pf := threads.pc (threads.refresh (threads.foreground c)) in
  ((threads.cpc (threads.foreground c) < 6)%nat -> pf = 0%nat) /\
  lock_status (held_by threads.Background (threads.led_lock c)) pb pf /\
  exists ws,
    gpio_out (threads.shared c) = out0 ++ ws /\
    whole_refreshes (held_by threads.Background (threads.led_lock c)) pb pf (map fst ws).

(* ================================================================== *)
(** * networkstatus.py: reading the output of the external commands *)
(* ================================================================== *)

Module parsing.

(** [s.split(sep)] for a separator of one character. *)
Fixpoint split_on (sep : ascii) (s : string) : list string :=
  match s with
  | EmptyString => [EmptyString]
  | String c s' =>
      if Ascii.eqb c sep then EmptyString :: split_on sep s'
      else match split_on sep s' with
           | h :: t => String c h :: t
           | [] => [String c EmptyString]
           end
  end.

Definition Printer_eq_dec (a b : Printer) : {a = b} + {a <> b}.
Proof. decide equality; apply string_dec. Defined.

(** The loop of [dns_service_discovery] over [out.splitlines()]: the
    records of the lines whose first field is [=], in the order of the
    lines.  [None] stands for the [IndexError] of [record[3]] or
    [record[7]] on a line with fewer than eight fields. *)
Fixpoint list_with_duplicates (lines : list string) : option (list Printer) :=
  match lines with
  | [] => Some []
  | line :: rest =>
      let record := split_on ";" line in
      if negb (String.eqb (hd EmptyString record) "=") then list_with_duplicates rest
      else
        match nth_error record 3, nth_error record 7 with
        | Some name, Some address =>
            option_map (cons (mkPrinter name address)) (list_with_duplicates rest)
        | _, _ => None
        end
  end.

(** [dns_service_discovery], from the lines of the output of
    [avahi-browse] on.  The duplicates are removed through a Python set,
    whose order of iteration the code does not fix; the model keeps the
    last occurrence of each record, in the order of the lines. *)
Definition dns_service_discovery (lines : list string) : option (list Printer) :=
  option_map (nodup Printer_eq_dec) (list_with_duplicates lines).

(** A value read by [json.loads]: a string, or anything else. *)
Inductive jvalue : Type :=
| JStr (s : string)
| JOther.

(** A JSON object as read by [json.loads]: a dict with string keys. *)
Definition Dict : Type := list (string * jvalue).

(** [d[key]]; [None] stands for [KeyError]. *)
Fixpoint getitem (d : Dict) (key : string) : option jvalue :=
  match d with
  | [] => None
  | (k, v) :: d' => if String.eqb k key then Some v else getitem d' key
  end.

(** [x == 'default'] *)
Definition is_default (v : jvalue) : bool :=
  match v with
  | JStr s => String.eqb s "default"
  | JOther => false
  end.

(** The loop of [default_gateway] over [json.loads(out)].  [None] stands
    for an exception: a [KeyError], or [No default route]. *)
Fixpoint default_gateway (records : list Dict) : option jvalue :=
  match records with
  | [] => None
  | record :: rest =>
      match getitem record "dst" with
      | None => None
      | Some dst =>
          if is_default dst then getitem record "gateway"
          else default_gateway rest
      end
  end.

End parsing.

(** The line is a record of [avahi-browse] with the given name and
    address in its fields 3 and 7. *)
Definition resolved (line : string) (p : Printer) : Prop :=
  let record := parsing.split_on ";" line in
  hd EmptyString record = "="%string /\
  nth_error record 3 = Some (name p) /\
  nth_error record 7 = Some (address p).

(** The line is a record with fewer than eight fields. *)
Definition short_record (line : string) : bool :=
  let record := parsing.split_on ";" line in
  String.eqb (hd EmptyString record) "=" && (length record <? 8)%nat.

(** The record is a route to something other than [default]. *)
Definition other_route (record : parsing.Dict) : Prop :=
  exists dst, parsing.getitem record "dst" = Some dst /\ parsing.is_default dst = false.

(** ** The two locks together *)

(** The statements that the two threads are at: the refresher's
    [__update_leds], the main thread's [notify_test_completed] and the
    [__update_leds] that it calls last. *)
Definition position (c : threads.Config) : nat * nat * nat :=
  (threads.pc (threads.background c),
   threads.cpc (threads.foreground c),
   threads.pc (threads.refresh (threads.foreground c))).

(** Both threads have returned. *)
Definition returned (c : threads.Config) : bool :=
  let '(pb, cf, pf) := position c in
  (pb =? 13)%nat && (cf =? 6)%nat && (pf =? 13)%nat.

(** The thread is between the acquisition and the release of
    [test_state_lock]. *)
Definition in_state_section (t : threads.Thread) (c : threads.Config) : bool :=
  let '(pb, cf, pf) := position c in
  match t with
  | threads.Background => (2 <=? pb)%nat && (pb <=? 3)%nat
  | threads.Foreground =>
      (1 <=? cf)%nat && (cf <=? 5)%nat || (6 <=? cf)%nat && (2 <=? pf)%nat && (pf <=? 3)%nat
  end.

(** The thread is between the acquisition and the release of [led_lock]. *)
Definition in_led_section (t : threads.Thread) (c : threads.Config) : bool :=
  let '(pb, cf, pf) := position c in
  match t with
  | threads.Background => (7 <=? pb)%nat && (pb <=? 12)%nat
  | threads.Foreground => (6 <=? cf)%nat && (7 <=? pf)%nat && (pf <=? 12)%nat
  end.

(** The lock that goes with who is inside the section that it guards;
    nothing goes with both threads inside. *)
Definition guarded (background foreground : bool) : option threads.Lock :=
  match background, foreground with
  | false, false => Some None
  | true, false => Some (Some threads.Background)
  | false, true => Some (Some threads.Foreground)
  | true, true => None
  end.

(** A schedule that lets the refresher run, then the main thread, then
    the refresher again, each for as many steps as it has statements. *)
Definition drain : list threads.Thread :=
  repeat threads.Background 13 ++ repeat threads.Foreground 19 ++
  repeat threads.Background 13.

(** The control skeleton of a configuration: the positions and the two
    locks, without the data. *)
Definition Control : Type := nat * nat * nat * threads.Lock * threads.Lock.

Definition control (c : threads.Config) : Control :=
  (position c, threads.test_state_lock c, threads.led_lock c).

(** What [threads.refresh_step] does to the position and the locks. *)
Definition refresh_control (me : threads.Thread) (p : nat) (sl ll : threads.Lock)
  : option (nat * threads.Lock * threads.Lock) :=
  match p with
  | 1%nat => match sl with None => Some (2%nat, Some me, ll) | Some _ => None end
  | 3%nat => Some (4%nat, None, ll)
  | 6%nat => match ll with None => Some (7%nat, sl, Some me) | Some _ => None end
  | 12%nat => Some (13%nat, sl, None)
  | _ => if (p <? 13)%nat then Some (S p, sl, ll) else None
  end.

(** What [threads.step] does to the control skeleton. *)
Definition control_step (t : threads.Thread) (k : Control) : Control :=
  let '(pb, cf, pf, sl, ll) := k in
  match t with
  | threads.Background =>
      match refresh_control threads.Background pb sl ll with
      | Some (p, sl', ll') => (p, cf, pf, sl', ll')
      | None => k
      end
  | threads.Foreground =>
      match cf with
      | 0%nat =>
          match sl with
          | None => (pb, 1%nat, pf, Some threads.Foreground, ll)
          | Some _ => k
          end
      | 5%nat => (pb, 6%nat, pf, None, ll)
      | _ =>
          if (cf <? 5)%nat then (pb, S cf, pf, sl, ll)
          else
            match refresh_control threads.Foreground pf sl ll with
            | Some (p, sl', ll') => (pb, cf, p, sl', ll')
            | None => k
            end
      end
  end.

Definition control_run (schedule : list threads.Thread) (k : Control) : Control :=
  fold_left (fun k t => control_step t k) schedule k.

Definition Lock_eqb (a b : threads.Lock) : bool :=
  match a, b with
  | None, None => true
  | Some x, Some y => threads.Thread_eqb x y
  | _, _ => false
  end.

Definition guarded_by (l : threads.Lock) (background foreground : bool) : bool :=
  match guarded background foreground with
  | Some l' => Lock_eqb l l'
  | None => false
  end.

Definition same_place (k k' : Control) : bool :=
  let '(pb, cf, pf, _, _) := k in
  let '(pb', cf', pf', _, _) := k' in
  (pb =? pb')%nat && (cf =? cf')%nat && (pf =? pf')%nat.

(** What holds of the control skeleton of every configuration that the
    two threads reach. *)
Definition control_inv (k : Control) : bool :=
  let '(pb, cf, pf, sl, ll) := k in
  (pb <=? 13)%nat && (cf <=? 6)%nat && (pf <=? 13)%nat &&
  ((6 <=? cf)%nat || (pf =? 0)%nat) &&
  guarded_by sl ((2 <=? pb)%nat && (pb <=? 3)%nat)
    ((1 <=? cf)%nat && (cf <=? 5)%nat || (6 <=? cf)%nat && (2 <=? pf)%nat && (pf <=? 3)%nat) &&
  guarded_by ll ((7 <=? pb)%nat && (pb <=? 12)%nat)
    ((6 <=? cf)%nat && (7 <=? pf)%nat && (pf <=? 12)%nat).

Definition control_returned (k : Control) : bool :=
  let '(pb, cf, pf, _, _) := k in
  (pb =? 13)%nat && (cf =? 6)%nat && (pf =? 13)%nat.

Definition control_free (k : Control) : bool :=
  let '(_, _, _, sl, ll) := k in
  Lock_eqb sl None && Lock_eqb ll None.

(** The invariant is kept by a step of either thread; a skeleton that has
    not returned has a thread that moves; and [drain] makes both threads
    return with the locks free. *)
Definition control_ok (k : Control) : bool :=
  implb (control_inv k)
    (control_inv (control_step threads.Background k) &&
     control_inv (control_step threads.Foreground k) &&
     (control_returned k ||
      negb (same_place (control_step threads.Background k) k) ||
      negb (same_place (control_step threads.Foreground k) k)) &&
     control_returned (control_run drain k) &&
     control_free (control_run drain k)).

Fixpoint forall_below (n : nat) (f : nat -> bool) : bool :=
  match n with
  | O => true
  | S m => f m && forall_below m f
  end.

Definition forall_lock (f : threads.Lock -> bool) : bool :=
  f None && f (Some threads.Background) && f (Some threads.Foreground).

(* ================================================================== *)
(** * Properties *)
(* ================================================================== *)

(** ** Verdict reduction *)

Lemma combine_results_comm (a b : pyval) :
  combine_results a b = combine_results b a.
Proof. destruct a as [|[|]], b as [|[|]]; reflexivity. Qed.

Lemma combine_results_assoc (a b c : pyval) :
  combine_results (combine_results a b) c = combine_results a (combine_results b c).
Proof. destruct a as [|[|]], b as [|[|]], c as [|[|]]; reflexivity. Qed.

Lemma reduce_from (l : list pyval) (acc : pyval) :
  reduce combine_results l acc = combine_results acc (reduce combine_results l PyNone).
Proof.
  unfold reduce. revert acc.
  induction l as [|v l IH]; intros acc; simpl.
  - destruct acc as [|[|]]; reflexivity.
  - rewrite IH. rewrite (IH v). rewrite combine_results_assoc. reflexivity.
Qed.

(** C1. [combine_results] is commutative, [None] (Unknown) is its
    identity on both sides, and the left fold of a list of verdicts from
    [None] is [False] (Fail) when some element is [False], [None] when
    every element is [None], and [True] (Pass) otherwise. *)
Theorem combine_results_fold :
  (forall a b, combine_results a b = combine_results b a) /\
  (forall a, combine_results PyNone a = a /\ combine_results a PyNone = a) /\
  (forall l,
      reduce combine_results l PyNone =
      if existsb is_fail l then PyBool false
      else if forallb is_unknown l then PyNone
      else PyBool true).
Proof.
  split; [exact combine_results_comm|].
  split; [intros [|[|]]; split; reflexivity|].
  induction l as [|v l IH].
  - reflexivity.
  - change (reduce combine_results (v :: l) PyNone)
      with (reduce combine_results l (combine_results PyNone v)).
    rewrite reduce_from, IH. simpl.
    destruct v as [|[|]]; simpl;
      destruct (existsb is_fail l); simpl; try reflexivity;
      destruct (forallb is_unknown l); reflexivity.
Qed.

(** ** LED refresh *)

Lemma update_leds_run (env : Env) (w : World) :
  hardware.update_leds env w =
  (tt, mkWorld (3 + tick w) (test_state w) (gpio_out w ++ refresh_list env w)).
Proof.
  unfold hardware.update_leds, hardware.get_blink_state, hardware.time_time,
    hardware.read, hardware.GPIO_output, ask, bind, ret, refresh_list,
    normal_blink, extended_blink.
  simpl. rewrite <- !app_assoc. reflexivity.
Qed.

Lemma refresh_values_list (env : Env) (w : World) :
  refresh_values env w = refresh_list env w.
Proof.
  unfold refresh_values, exec. rewrite update_leds_run. simpl.
  rewrite skipn_app, skipn_all, Nat.sub_diag. reflexivity.
Qed.

Lemma update_leds_test_state (env : Env) (w : World) :
  test_state (exec (hardware.update_leds env) w) = test_state w.
Proof. unfold exec. rewrite update_leds_run. reflexivity. Qed.

(** C3. One refresh writes the five outputs in the order Normal-Pass,
    Normal-Fail, Extended-Pass, Extended-Fail, Test-Running.  With stored
    verdicts that are booleans, as the specification types them, the
    values written are the booleans of the specification: Pass = blink
    state and verdict is Pass and not scheduled; Fail = verdict is Fail
    and not scheduled; Running = either running flag, or the time of the
    refresh is at most one second after either last start. *)
Theorem update_leds_values (env : Env) (w : World) :
  is_unknown (normal_test_result (test_state w)) = false ->
  is_unknown (extended_test_result (test_state w)) = false ->
  refresh_values env w =
  as_written
    (claimed_leds (normal_blink env w) (extended_blink env w) (clock env (tick w))
       (test_state w)).
Proof.
  intros Hn He. rewrite refresh_values_list.
  unfold refresh_list, as_written, claimed_leds, hardware.normal_pass_value,
    hardware.normal_fail_value, hardware.extended_pass_value,
    hardware.extended_fail_value, hardware.test_running_value, Py.ge, Py.le.
  destruct (test_state w) as [nr er sn se fn fe rn re tn te].
  cbn [normal_test_result extended_test_result] in Hn, He.
  destruct nr as [|nr]; [discriminate Hn|]. destruct er as [|er]; [discriminate He|].
  cbn [normal_test_result extended_test_result scheduled_normal_test
       scheduled_extended_test normal_test_running extended_test_running
       last_normal_test_started_time last_extended_test_started_time map fst snd].
  destruct (normal_blink env w), (extended_blink env w), nr, er, sn, se, rn, re;
    cbn;
    repeat match goal with |- context [Qle_bool ?a ?b] => destruct (Qle_bool a b) end;
    reflexivity.
Qed.

Lemma update_leds_values_witness :
  refresh_values env_late world_failed =
  [(NORMAL_PASS, PyBool false); (NORMAL_FAIL, PyBool true);
   (EXTENDED_PASS, PyBool false); (EXTENDED_FAIL, PyBool false);
   (TEST_RUNNING, PyBool false)].
Proof.
  rewrite (update_leds_values env_late world_failed eq_refl eq_refl).
  vm_compute. reflexivity.
Defined.

(** ** The scheduled flags *)

Ltac hw_run :=
  unfold exec, hardware.assign, hardware.time_time, ask, bind, ret; simpl;
  rewrite ?update_leds_run; simpl.

Lemma notify_test_started_scheduled (env : Env) (t k : TestType) (w : World) :
  scheduled k (test_state (exec (hardware.notify_test_started env t) w)) =
  scheduled k (test_state w).
Proof.
  unfold hardware.notify_test_started. destruct t, k; hw_run; reflexivity.
Qed.

Lemma notify_test_completed_scheduled (env : Env) (t k : TestType) (r : pyval)
  (w : World) :
  scheduled k (test_state (exec (hardware.notify_test_completed env t r) w)) =
  if hardware.TestType_eqb t k then false else scheduled k (test_state w).
Proof.
  unfold hardware.notify_test_completed.
  destruct t, k, r as [|[|]]; hw_run; reflexivity.
Qed.

Lemma poll_scheduled (env : Env) (k : TestType) (fuel : nat) :
  forall (timeout_time : Q) (user_input_time : option Q) (w : World),
    scheduled k (test_state w) = true ->
    scheduled k (test_state (exec (hardware.poll env fuel timeout_time user_input_time) w))
    = true.
Proof.
  induction fuel as [|fuel IH]; intros T u w H; [exact H|].
  unfold exec in *. destruct u as [t0|]; simpl;
    unfold hardware.GPIO_input, hardware.time_time, hardware.time_sleep,
      hardware.assign, ask, bind, ret; simpl;
    destruct (button env (tick w)); simpl; try exact H;
    try match goal with |- context [Py.ge ?a ?b] => destruct (Py.ge a b) end;
    rewrite ?update_leds_run; simpl; try exact H;
    try (apply IH; simpl); destruct k; simpl in *; auto.
Qed.

Lemma run_op_scheduled (env : Env) (k : TestType) (op : Op) (w : World) :
  is_completion_of k op = false ->
  scheduled k (test_state w) = true ->
  scheduled k (test_state (run_op env w op)) = true.
Proof.
  intros Hop H. destruct op as [t|t r|fuel timeout|]; cbn [run_op is_completion_of] in *.
  - rewrite notify_test_started_scheduled. exact H.
  - rewrite notify_test_completed_scheduled, Hop. exact H.
  - unfold hardware.get_user_input, exec, bind, hardware.time_time, ask.
    apply (poll_scheduled env k fuel). exact H.
  - unfold hardware.update. rewrite update_leds_test_state. exact H.
Qed.

Lemma run_ops_scheduled (env : Env) (k : TestType) (ops : list Op) :
  forall w,
    forallb (fun op => negb (is_completion_of k op)) ops = true ->
    scheduled k (test_state w) = true ->
    scheduled k (test_state (run_ops env ops w)) = true.
Proof.
  induction ops as [|op ops IH]; intros w Hops H; [exact H|].
  simpl in Hops. apply andb_prop in Hops. destruct Hops as [Hop Hops].
  apply negb_true_iff in Hop.
  unfold run_ops. simpl. apply IH; [exact Hops|].
  apply run_op_scheduled; assumption.
Qed.

Lemma scheduled_leds_off (env : Env) (k : TestType) (w : World) :
  scheduled k (test_state w) = true ->
  drives_on (pass_led k) (refresh_values env w) = false /\
  drives_on (fail_led k) (refresh_values env w) = false /\
  written_to (fail_led k) (refresh_values env w) = [PyBool false] /\
  (is_unknown (test_result k (test_state w)) = false ->
   written_to (pass_led k) (refresh_values env w) = [PyBool false]).
Proof.
  intros H. rewrite refresh_values_list.
  unfold refresh_list, hardware.normal_pass_value, hardware.normal_fail_value,
    hardware.extended_pass_value, hardware.extended_fail_value.
  destruct (test_state w) as [nr er sn se fn fe rn re tn te].
  destruct k; cbn [scheduled scheduled_normal_test scheduled_extended_test] in H;
    subst; cbn;
    destruct (normal_blink env w), (extended_blink env w), nr as [|[|]], er as [|[|]];
    repeat split; try reflexivity; try discriminate.
Qed.

(** C4. For each kind of batch: the scheduled flag is true after
    [Hardware()] and stays true through every sequence of operations on the
    object that contains no completion notification of that kind; a
    completion notification of that kind clears it.  In every state where
    it is true, a refresh writes no true value to the Pass or to the Fail
    output of that kind, whatever the stored verdict: it writes [False] to
    the Fail output, and [False] to the Pass output when the stored
    verdict is a boolean.  Right after [Hardware()] a refresh writes
    [False] to each of the four. *)
Theorem scheduled_until_first_completion (env : Env) (k : TestType) :
  (forall ops w0,
      forallb (fun op => negb (is_completion_of k op)) ops = true ->
      scheduled k (test_state (run_ops env ops (exec hardware.Hardware_init w0))) = true)
  /\ (forall w r, scheduled k (test_state (run_op env w (OpCompleted k r))) = false)
  /\ (forall w,
         scheduled k (test_state w) = true ->
         drives_on (pass_led k) (refresh_values env w) = false /\
         drives_on (fail_led k) (refresh_values env w) = false /\
         written_to (fail_led k) (refresh_values env w) = [PyBool false] /\
         (is_unknown (test_result k (test_state w)) = false ->
          written_to (pass_led k) (refresh_values env w) = [PyBool false]))
  /\ (forall w0,
         let w := exec hardware.Hardware_init w0 in
         forallb (fun led => negb (drives_on led (refresh_values env w)))
           [NORMAL_PASS; NORMAL_FAIL; EXTENDED_PASS; EXTENDED_FAIL] = true /\
         map (fun led => written_to led (refresh_values env w))
           [NORMAL_PASS; NORMAL_FAIL; EXTENDED_PASS; EXTENDED_FAIL] =
         [[PyBool false]; [PyBool false]; [PyBool false]; [PyBool false]]).
Proof.
  split; [|split; [|split]].
  - intros ops w0 Hops. apply run_ops_scheduled; [exact Hops|].
    destruct k; reflexivity.
  - intros w r. cbn [run_op]. rewrite notify_test_completed_scheduled.
    destruct k; reflexivity.
  - intros w. apply scheduled_leds_off.
  - intros w0 w.
    destruct (scheduled_leds_off env NORMAL w eq_refl) as (H1 & H2 & H3 & H4).
    destruct (scheduled_leds_off env EXTENDED w eq_refl) as (H5 & H6 & H7 & H8).
    cbn [pass_led fail_led] in *.
    cbn [forallb map]. rewrite H1, H2, H5, H6, H3, H7, (H4 eq_refl), (H8 eq_refl).
    split; reflexivity.
Qed.

Lemma scheduled_until_first_completion_witness :
  scheduled NORMAL
    (test_state
       (run_ops env_hold
          [OpStarted NORMAL; OpUserInput 10 1; OpUpdate; OpCompleted EXTENDED (PyBool false)]
          (exec hardware.Hardware_init world0))) = true /\
  drives_on NORMAL_FAIL
    (refresh_values env_hold
       (with_state (hardware.set_normal_test_result (PyBool false))
          (exec hardware.Hardware_init world0))) = false /\
  written_to NORMAL_FAIL
    (refresh_values env_hold
       (with_state (hardware.set_normal_test_result (PyBool false))
          (exec hardware.Hardware_init world0))) = [PyBool false] /\
  written_to NORMAL_PASS
    (refresh_values env_hold
       (with_state (hardware.set_normal_test_result (PyBool false))
          (exec hardware.Hardware_init world0))) = [PyBool false].
Proof.
  destruct (scheduled_until_first_completion env_hold NORMAL) as [Hkeep [_ [Hoff _]]].
  split; [apply Hkeep; reflexivity|].
  destruct (Hoff (with_state (hardware.set_normal_test_result (PyBool false))
                    (exec hardware.Hardware_init world0)) eq_refl)
    as (_ & Hfail & Hwf & Hwp).
  split; [exact Hfail|]. split; [exact Hwf|]. apply Hwp. reflexivity.
Defined.

(** ** Blink regimes *)

Lemma Qle_bool_false (a b : Q) : Qle_bool a b = false <-> b < a.
Proof.
  split; intros H.
  - apply Qnot_le_lt. intros Hle. apply Qle_bool_iff in Hle. congruence.
  - destruct (Qle_bool a b) eqn:E; [|reflexivity].
    apply Qle_bool_iff in E. apply Qlt_not_le in H. contradiction.
Qed.



(** The product on doubles at some readings: the tenfold of the clock
    reading 1793700000.55 is the double 17937000005.5, which [round] takes
    to the even 17937000006, where the exact product rounds to
    17937000005; and [0.1 * 3] is the double above three tenths. *)
Lemma float_mul_samples :
  float_mul reading_2026 10 == 35874000011 # 2 /\
  round (float_mul reading_2026 10) = 17937000006%Z /\
  round (reading_2026 * 10) = 17937000005%Z /\
  float_mul (3602879701896397 # 36028797018963968) 3 ==
    1351079888211149 # 4503599627370496 /\
  float_mul 3601 10 == 36010.
Proof. repeat split; vm_compute; reflexivity. Qed.





(** ** Button classification *)

Ltac poll_run :=
  unfold hardware.GPIO_input, hardware.time_time, hardware.time_sleep,
    hardware.assign, ask, bind, ret; simpl.

Lemma poll_timeout (env : Env) (fuel : nat) (T : Q) (w : World) :
  button env (tick w) = false ->
  ge (clock env (S (tick w))) T = true ->
  hardware.poll env (S fuel) T None w = (Some NO_INPUT, with_tick (2 + tick w) w).
Proof. intros Hb Ht. simpl. poll_run. rewrite Hb. simpl. rewrite Ht. reflexivity. Qed.

Lemma poll_push (env : Env) (fuel : nat) (T : Q) (w : World) :
  button env (tick w) = true ->
  hardware.poll env (S fuel) T None w =
  hardware.poll env fuel T (Some (clock env (S (tick w)))) (after_push env (tick w) w).
Proof.
  intros Hb. simpl. poll_run. rewrite Hb. simpl.
  unfold after_push, exec, with_state, with_tick. simpl.
  reflexivity.
Qed.

Lemma poll_release (env : Env) (fuel : nat) (T t0 : Q) (w : World) :
  button env (tick w) = false ->
  hardware.poll env (S fuel) T (Some t0) w = (Some NORMAL_TEST, with_tick (1 + tick w) w).
Proof. intros Hb. simpl. poll_run. rewrite Hb. reflexivity. Qed.

Lemma poll_hold (env : Env) (fuel : nat) (T t0 : Q) (w : World) :
  button env (tick w) = true ->
  ge (clock env (S (tick w))) (t0 + 3) = true ->
  hardware.poll env (S fuel) T (Some t0) w = (Some EXTENDED_TEST, after_hold env (tick w) w).
Proof.
  intros Hb Ht. simpl. poll_run. rewrite Hb. simpl. rewrite Ht.
  unfold after_hold, exec, with_state, with_tick. simpl.
  reflexivity.
Qed.

Lemma poll_idle (env : Env) (T : Q) (n : nat) :
  forall (fuel : nat) (w : World),
    idle_until env (tick w) T n = true ->
    hardware.poll env (n + fuel) T None w =
    hardware.poll env fuel T None (with_tick (2 * n + tick w) w).
Proof.
  induction n as [|n IH]; intros fuel w H.
  - destruct w; reflexivity.
  - simpl in H. apply andb_prop in H. destruct H as [H Hn].
    apply andb_prop in H. destruct H as [Hb Ht].
    apply negb_true_iff in Hb. apply negb_true_iff in Ht.
    change (S n + fuel)%nat with (S (n + fuel)).
    cbn [hardware.poll]. poll_run. rewrite Hb. simpl. rewrite Ht.
    rewrite IH by exact Hn. unfold with_tick. simpl.
    replace (n + (n + 0) + S (S (tick w)))%nat with (S (n + S (n + 0) + tick w)) by lia.
    reflexivity.
Qed.

Lemma poll_held (env : Env) (T t0 : Q) (n : nat) :
  forall (fuel : nat) (w : World),
    held_until env (tick w) t0 n = true ->
    hardware.poll env (n + fuel) T (Some t0) w =
    hardware.poll env fuel T (Some t0) (with_tick (2 * n + tick w) w).
Proof.
  induction n as [|n IH]; intros fuel w H.
  - destruct w; reflexivity.
  - simpl in H. apply andb_prop in H. destruct H as [H Hn].
    apply andb_prop in H. destruct H as [Hb Ht].
    apply negb_true_iff in Ht.
    change (S n + fuel)%nat with (S (n + fuel)).
    cbn [hardware.poll]. poll_run. rewrite Hb. simpl. rewrite Ht.
    rewrite IH by exact Hn. unfold with_tick. simpl.
    replace (n + (n + 0) + S (S (tick w)))%nat with (S (n + S (n + 0) + tick w)) by lia.
    reflexivity.
Qed.

Lemma get_user_input_run (env : Env) (fuel : nat) (timeout : Q) (w : World) :
  hardware.get_user_input env fuel timeout w =
  hardware.poll env fuel (clock env (tick w) + timeout) None (with_tick (S (tick w)) w).
Proof. reflexivity. Qed.

(** C2. [get_user_input(timeout)], hold threshold 3 s.  Let the first [n]
    turns of the loop see the button released and the timeout not reached.
    - If the next turn sees it released and the timeout reached, the call
      returns [NO_INPUT] and leaves the test state and the outputs as they
      were.
    - If the next turn sees it pushed, [scheduled_normal_test] is set and
      one refresh is written before polling goes on.  If then [m] turns see
      it pushed with less than 3 s on the clock since the push and the next
      turn sees it released, the call returns [NORMAL_TEST]; if instead
      the next turn sees it pushed with 3 s or more on the clock, the call
      sets [scheduled_extended_test], writes one refresh and returns
      [EXTENDED_TEST], the flag being true in the state it returns in. *)
Theorem get_user_input_classifies (env : Env) (timeout : Q) (w : World) (n : nat) :
  let timeout_time := clock env (tick w) + timeout in
  let k := (2 * n + S (tick w))%nat in
  idle_until env (S (tick w)) timeout_time n = true ->
  (button env k = false ->
   ge (clock env (S k)) timeout_time = true ->
   forall fuel, (n < fuel)%nat ->
     hardware.get_user_input env fuel timeout w = (Some NO_INPUT, with_tick (2 + k) w))
  /\
  (button env k = true ->
   let pushed_at := clock env (S k) in
   let flagged := with_state (hardware.set_scheduled_normal_test true) (with_tick (2 + k) w) in
   let pushed := after_push env k w in
   scheduled_normal_test (test_state pushed) = true /\
   gpio_out pushed = gpio_out w ++ refresh_values env flagged /\
   forall m,
     held_until env (tick pushed) pushed_at m = true ->
     let k' := (2 * m + tick pushed)%nat in
     (button env k' = false ->
      forall fuel, (n + m + 1 < fuel)%nat ->
        hardware.get_user_input env fuel timeout w =
        (Some NORMAL_TEST, with_tick (1 + k') pushed))
     /\
     (button env k' = true ->
      ge (clock env (S k')) (pushed_at + 3) = true ->
      forall fuel, (n + m + 1 < fuel)%nat ->
        hardware.get_user_input env fuel timeout w =
        (Some EXTENDED_TEST, after_hold env k' pushed) /\
        scheduled_extended_test (test_state (after_hold env k' pushed)) = true /\
        scheduled_normal_test (test_state (after_hold env k' pushed)) = true)).
Proof.
  intros timeout_time k Hidle.
  assert (Hstart : forall fuel,
             hardware.get_user_input env (n + fuel) timeout w =
             hardware.poll env fuel timeout_time None (with_tick k w)).
  { intros fuel. rewrite get_user_input_run.
    rewrite (poll_idle env _ n fuel (with_tick (S (tick w)) w)) by exact Hidle.
    reflexivity. }
  split.
  - intros Hb Ht fuel Hfuel.
    replace fuel with (n + S (fuel - n - 1))%nat by lia.
    rewrite Hstart.
    rewrite poll_timeout by assumption. reflexivity.
  - intros Hb pushed_at flagged pushed.
    split; [|split].
    + unfold pushed, after_push. rewrite update_leds_test_state. reflexivity.
    + unfold pushed, after_push, exec. fold flagged.
      rewrite refresh_values_list, update_leds_run. reflexivity.
    + intros m Hheld k'.
      assert (Hpushed : forall fuel,
                 hardware.get_user_input env (n + S (m + fuel)) timeout w =
                 hardware.poll env fuel timeout_time (Some pushed_at)
                   (with_tick k' pushed)).
      { intros fuel. rewrite Hstart.
        rewrite poll_push by exact Hb.
        change (after_push env (tick (with_tick k w)) (with_tick k w)) with pushed.
        change (clock env (S (tick (with_tick k w)))) with pushed_at.
        rewrite poll_held by exact Hheld. reflexivity. }
      split.
      * intros Hb' fuel Hfuel.
        replace fuel with (n + S (m + S (fuel - n - m - 2)))%nat by lia.
        rewrite Hpushed. rewrite poll_release by exact Hb'. reflexivity.
      * intros Hb' Ht fuel Hfuel.
        replace fuel with (n + S (m + S (fuel - n - m - 2)))%nat by lia.
        rewrite Hpushed. rewrite poll_hold by assumption.
        change (after_hold env (tick (with_tick k' pushed)) (with_tick k' pushed))
          with (after_hold env k' pushed).
        split; [reflexivity|].
        unfold after_hold. rewrite update_leds_test_state.
        cbn [with_state with_tick test_state].
        split; [reflexivity|].
        cbn [hardware.set_scheduled_extended_test scheduled_normal_test].
        unfold pushed, after_push. rewrite update_leds_test_state. reflexivity.
Qed.

Lemma get_user_input_classifies_witness :
  eval (hardware.get_user_input env_quiet 10 1) world0 = Some NO_INPUT /\
  eval (hardware.get_user_input env_tap 10 1) world0 = Some NORMAL_TEST /\
  eval (hardware.get_user_input env_hold 10 1) world0 = Some EXTENDED_TEST /\
  scheduled_extended_test
    (test_state (exec (hardware.get_user_input env_hold 10 1) world0)) = true.
Proof.
  unfold eval, exec.
  destruct (get_user_input_classifies env_quiet 1 world0 1 eq_refl) as [Hquiet _].
  destruct (get_user_input_classifies env_tap 1 world0 1 eq_refl) as [_ Htap].
  destruct (get_user_input_classifies env_hold 1 world0 1 eq_refl) as [_ Hhold].
  split; [|split].
  - rewrite (Hquiet eq_refl eq_refl 10%nat); [reflexivity|lia].
  - destruct (Htap eq_refl) as [_ [_ Hm]].
    destruct (Hm 2%nat eq_refl) as [Hrelease _].
    rewrite (Hrelease eq_refl 10%nat); [reflexivity|simpl; lia].
  - destruct (Hhold eq_refl) as [_ [_ Hm]].
    destruct (Hm 4%nat eq_refl) as [_ Hlong].
    destruct (Hlong eq_refl eq_refl 10%nat) as [Hrun [Hflag _]]; [simpl; lia|].
    rewrite Hrun. split; [reflexivity|exact Hflag].
Defined.

(** ** The two batches *)

Lemma for_each_observers (body : nat * TestObserver -> State Sys unit)
  (wbody : TestObserver -> M unit) (cs : nat -> list Call) :
  (forall io s,
      body io s = (tt, mkSys (exec (wbody (snd io)) (world s)) (calls s ++ cs (fst io)))) ->
  forall (observers : list TestObserver) (k : nat) (s : Sys),
    for_each (combine (seq k (length observers)) observers) body s =
    (tt, mkSys (exec (for_each observers wbody) (world s))
           (calls s ++ flat_map cs (seq k (length observers)))).
Proof.
  intros Hbody. induction observers as [|o l IH]; intros k s.
  - simpl. unfold ret, exec. simpl. rewrite app_nil_r. destruct s; reflexivity.
  - simpl. unfold bind at 1. rewrite Hbody. rewrite IH. simpl.
    unfold exec, bind. simpl.
    destruct (wbody o (world s)) as [[] w']. simpl.
    rewrite <- app_assoc. reflexivity.
Qed.

Lemma two_calls (c1 c2 : Call) (m1 m2 : M unit) (s : Sys) :
  ((called c1 ;;; lift m1) ;;; (called c2 ;;; lift m2)) s =
  (tt, mkSys (exec (m1 ;;; m2) (world s)) (calls s ++ [c1; c2])).
Proof.
  unfold called, lift, bind, exec. simpl.
  destruct (m1 (world s)) as [[] w1]. simpl.
  destruct (m2 w1) as [[] w2]. simpl.
  rewrite <- app_assoc. reflexivity.
Qed.

Lemma do_notify_test_started_run (io : nat * TestObserver) (t : TestType) (s : Sys) :
  do_notify_test_started io t s =
  (tt, mkSys (exec (notify_test_started (snd io) t) (world s))
         (calls s ++ [CallStarted (fst io) t])).
Proof.
  unfold do_notify_test_started, called, lift, bind, exec. simpl.
  destruct (notify_test_started (snd io) t (world s)) as [[] w']. reflexivity.
Qed.

Lemma do_notify_test_completed_run (io : nat * TestObserver) (t : TestType)
  (r : pyval) (s : Sys) :
  do_notify_test_completed io t r s =
  (tt, mkSys (exec (notify_test_completed (snd io) t r) (world s))
         (calls s ++ [CallCompleted (fst io) t r])).
Proof.
  unfold do_notify_test_completed, called, lift, bind, exec. simpl.
  destruct (notify_test_completed (snd io) t r (world s)) as [[] w']. reflexivity.
Qed.

Lemma do_check_call_run (env : Env) (t : TestType) (c : StatusCheck) (s : Sys) :
  do_check_call env t c s =
  (fst (check env c (world s)),
   mkSys (snd (check env c (world s))) (calls s ++ [CallCheck t])).
Proof.
  unfold do_check_call, called, lift, bind. simpl.
  destruct (check env c (world s)) as [r w']. reflexivity.
Qed.

Lemma flat_map_singleton {A B : Type} (f : A -> B) (l : list A) :
  flat_map (fun x => [f x]) l = map f l.
Proof. induction l as [|x l IH]; simpl; [|rewrite IH]; reflexivity. Qed.

Lemma normal_check_run (env : Env) (self : NormalAndExtendedChecks) (s : Sys) :
  let observers := test_observers self in
  let n := length observers in
  let w1 := exec (started_normal observers) (world s) in
  let normal_run := check env (normal_checks self) w1 in
  let results := fst (fst normal_run) in
  let w3 := exec (completed_normal observers (overall results)) (snd normal_run) in
  normal_check env self s =
  (((fst results ++ "," ++ skip_extended self)%string,
    mkNormalAndExtendedChecks (snd (fst normal_run)) (extended_checks self) observers),
   mkSys w3
     (calls s ++ map (fun i => CallStarted i NORMAL) (seq 0 n) ++ [CallCheck NORMAL]
      ++ map (fun i => CallCompleted i NORMAL (overall results)) (seq 0 n))).
Proof.
  intros observers n w1 normal_run results w3.
  unfold normal_check, enumerate. fold observers.
  unfold bind at 1.
  rewrite (for_each_observers _ (fun o => notify_test_started o NORMAL)
             (fun i => [CallStarted i NORMAL]))
    by (intros; apply do_notify_test_started_run).
  unfold bind at 1. rewrite do_check_call_run. cbn [world calls].
  fold (started_normal observers). fold w1. fold normal_run.
  unfold bind at 1.
  rewrite (for_each_observers _
             (fun o => notify_test_completed o NORMAL (overall results))
             (fun i => [CallCompleted i NORMAL (overall results)]))
    by (intros; apply do_notify_test_completed_run).
  cbn [world calls]. unfold ret.
  rewrite !flat_map_singleton, <- !app_assoc. reflexivity.
Qed.

Lemma extended_check_run (env : Env) (self : NormalAndExtendedChecks) (s : Sys) :
  let observers := test_observers self in
  let n := length observers in
  let normal_run := check env (normal_checks self) (world s) in
  let normal_results := fst (fst normal_run) in
  let w2 := exec (started_both observers) (snd normal_run) in
  let extended_run := check env (extended_checks self) w2 in
  let extended_results := fst (fst extended_run) in
  let w4 :=
    exec (completed_both observers (overall normal_results) (overall extended_results))
      (snd extended_run) in
  extended_check env self s =
  (((fst normal_results ++ "," ++ fst extended_results)%string,
    mkNormalAndExtendedChecks (snd (fst normal_run)) (snd (fst extended_run)) observers),
   mkSys w4
     (calls s ++ [CallCheck NORMAL] ++ started_calls n ++ [CallCheck EXTENDED]
      ++ completed_calls n (overall normal_results) (overall extended_results))).
Proof.
  intros observers n normal_run normal_results w2 extended_run extended_results w4.
  unfold extended_check, enumerate. fold observers.
  unfold bind at 1. rewrite do_check_call_run. fold normal_run.
  unfold bind at 1.
  rewrite (for_each_observers _
             (fun o => notify_test_started o NORMAL ;;; notify_test_started o EXTENDED)
             (fun i => [CallStarted i NORMAL; CallStarted i EXTENDED])).
  2:{ intros io s0. unfold do_notify_test_started. apply two_calls. }
  cbn [world calls]. fold (started_both observers). fold w2.
  unfold bind at 1. rewrite do_check_call_run. cbn [world calls]. fold extended_run.
  unfold bind at 1.
  rewrite (for_each_observers _
             (fun o => notify_test_completed o NORMAL (overall normal_results) ;;;
                       notify_test_completed o EXTENDED (overall extended_results))
             (fun i => [CallCompleted i NORMAL (overall normal_results);
                        CallCompleted i EXTENDED (overall extended_results)])).
  2:{ intros io s0. unfold do_notify_test_completed. apply two_calls. }
  cbn [world calls]. unfold ret.
  unfold started_calls, completed_calls. rewrite <- !app_assoc. reflexivity.
Qed.

(** C7. [extended_check()] calls, in this order: [check()] of the Normal
    composite, in the process as it is on entry; for each observer in
    turn, started(Normal) then started(Extended); [check()] of the Extended
    composite; for each observer in turn, completed(Normal, fold of the
    Normal verdicts) then completed(Extended, fold of the Extended
    verdicts); and it returns the Normal value string, a comma and the
    Extended value string.  [normal_check()] notifies started(Normal)
    before it calls [check()] of the Normal composite. *)
Theorem extended_check_order (env : Env) (self : NormalAndExtendedChecks) (s : Sys) :
  let observers := test_observers self in
  let n := length observers in
  let normal_run := check env (normal_checks self) (world s) in
  let normal_results := fst (fst normal_run) in
  let extended_run :=
    check env (extended_checks self) (exec (started_both observers) (snd normal_run)) in
  let extended_results := fst (fst extended_run) in
  let run := extended_check env self s in
  let normal_alone :=
    fst (fst (check env (normal_checks self) (exec (started_normal observers) (world s)))) in
  fst (fst run) = (fst normal_results ++ "," ++ fst extended_results)%string /\
  world (snd run) =
    exec (completed_both observers (overall normal_results) (overall extended_results))
      (snd extended_run) /\
  calls (snd run) =
    calls s ++ [CallCheck NORMAL] ++ started_calls n ++ [CallCheck EXTENDED]
    ++ completed_calls n (overall normal_results) (overall extended_results) /\
  calls (exec (normal_check env self) s) =
    calls s ++ map (fun i => CallStarted i NORMAL) (seq 0 n) ++ [CallCheck NORMAL]
    ++ map (fun i => CallCompleted i NORMAL (overall normal_alone)) (seq 0 n).
Proof.
  intros observers n normal_run normal_results extended_run extended_results run
    normal_alone.
  unfold run, exec. rewrite extended_check_run, normal_check_run.
  repeat split; reflexivity.
Qed.

(** ** Fields of a row *)

Lemma split_not_nil (s : string) : split s <> [].
Proof.
  destruct s as [|c s]; simpl; [discriminate|].
  destruct (Ascii.eqb c comma); [discriminate|].
  destruct (split s); discriminate.
Qed.

Lemma fields_cons (c : ascii) (s : string) :
  fields (String c s) = if Ascii.eqb c comma then S (fields s) else fields s.
Proof.
  unfold fields. simpl. destruct (Ascii.eqb c comma); [reflexivity|].
  pose proof (split_not_nil s) as H.
  destruct (split s); [contradiction|reflexivity].
Qed.

Lemma fields_pos (s : string) : (1 <= fields s)%nat.
Proof.
  unfold fields. pose proof (split_not_nil s) as H.
  destruct (split s); [contradiction|simpl; lia].
Qed.

Lemma fields_append (a b : string) :
  (fields (a ++ b) + 1 = fields a + fields b)%nat.
Proof.
  induction a as [|c a IH].
  - change (fields EmptyString) with 1%nat. simpl. lia.
  - change (String c a ++ b)%string with (String c (a ++ b)%string).
    rewrite !fields_cons. destruct (Ascii.eqb c comma); lia.
Qed.

Lemma fields_comma (a b : string) :
  fields (a ++ "," ++ b) = (fields a + fields b)%nat.
Proof.
  pose proof (fields_append a ("," ++ b)%string) as H.
  change ("," ++ b)%string with (String comma b) in *.
  rewrite fields_cons in H. rewrite Ascii.eqb_refl in H. lia.
Qed.

Lemma fields_padding (n : nat) :
  (1 <= n)%nat -> fields (join "," (list_times EmptyString n)) = n.
Proof.
  unfold join, list_times. induction n as [|n IH]; intros Hn; [lia|].
  destruct n as [|n]; [reflexivity|].
  change (String.concat "," (repeat EmptyString (S (S n))))
    with (String comma (String.concat "," (repeat EmptyString (S n)))).
  rewrite fields_cons, Ascii.eqb_refl, IH by lia. reflexivity.
Qed.

Lemma check_multiple (env : Env) (checks : list StatusCheck) :
  check env (MultipleChecks checks) =
  (rl <- check_each env checks ;;
   ret (combine_checks (fst rl), MultipleChecks (snd rl))).
Proof. reflexivity. Qed.

Lemma fields_join (l : list string) :
  l <> [] -> fields (join "," l) = list_sum (map fields l).
Proof.
  unfold join. induction l as [|x l IH]; intros Hl; [contradiction|].
  destruct l as [|y l].
  - simpl. lia.
  - change (String.concat "," (x :: y :: l))
      with (x ++ "," ++ String.concat "," (y :: l))%string.
    rewrite fields_comma, IH by discriminate. reflexivity.
Qed.

Lemma check_each_fields (env : Env) (checks : list StatusCheck) :
  Forall (arity_ok env) checks ->
  forall w,
    map fields (map fst (fst (eval (check_each env checks) w))) = map num_columns checks
    /\ (checks <> [] -> fst (eval (check_each env checks) w) <> []).
Proof.
  induction 1 as [|c l Hc Hl IH]; intros w.
  - split; [reflexivity|intros H; contradiction].
  - unfold eval in *. simpl. unfold bind.
    specialize (Hc w). unfold eval in Hc.
    destruct (check env c w) as [rc w1].
    specialize (IH w1). destruct (check_each env l w1) as [rl w2].
    simpl in *. destruct IH as [IH _].
    split; [rewrite Hc, IH; reflexivity|discriminate].
Qed.

(** A composite of at least one check has the arity property when its
    children have it. *)
Lemma MultipleChecks_arity (env : Env) (checks : list StatusCheck) :
  checks <> [] ->
  Forall (arity_ok env) checks ->
  arity_ok env (MultipleChecks checks).
Proof.
  intros Hne Hall w. rewrite check_multiple.
  destruct (check_each_fields env checks Hall w) as [Hf Hn].
  specialize (Hn Hne).
  unfold eval, bind in *.
  destruct (check_each env checks w) as [rl w']. simpl in *.
  rewrite fields_join.
  - rewrite Hf. reflexivity.
  - destruct (fst rl); [contradiction|discriminate].
Qed.

(** C6. If the value string that [check()] of the Normal composite
    returns always has [num_columns()] fields, and the same for the
    Extended composite, then the strings returned by [normal_check()] and
    by [extended_check()] both have as many fields as the two arities
    together, and [normal_check()] returns the Normal value followed by one
    empty field per Extended column. *)
Theorem row_arity (env : Env) (self : NormalAndExtendedChecks) :
  (forall w, fields (fst (fst (eval (check env (normal_checks self)) w)))
             = num_columns (normal_checks self)) ->
  (forall w, fields (fst (fst (eval (check env (extended_checks self)) w)))
             = num_columns (extended_checks self)) ->
  forall s : Sys,
    let normal_row := fst (eval (normal_check env self) s) in
    let extended_row := fst (eval (extended_check env self) s) in
    fields normal_row = NormalAndExtendedChecks_num_columns self /\
    fields extended_row = NormalAndExtendedChecks_num_columns self /\
    exists normal_value,
      fields normal_value = num_columns (normal_checks self) /\
      normal_row =
      (normal_value ++ "," ++
       join "," (list_times EmptyString (num_columns (extended_checks self))))%string /\
      split (join "," (list_times EmptyString (num_columns (extended_checks self)))) =
      list_times EmptyString (num_columns (extended_checks self)).
Proof.
  intros Hn He s normal_row extended_row.
  assert (Hpos : (1 <= num_columns (extended_checks self))%nat).
  { rewrite <- (He (world s)). apply fields_pos. }
  unfold normal_row, extended_row, eval, NormalAndExtendedChecks_num_columns.
  rewrite normal_check_run, extended_check_run. cbn [fst].
  unfold eval in Hn, He.
  split; [|split].
  - rewrite fields_comma, Hn. unfold skip_extended. rewrite fields_padding by exact Hpos.
    reflexivity.
  - rewrite fields_comma, Hn, He. reflexivity.
  - eexists. split; [apply Hn|]. split; [reflexivity|].
    generalize (num_columns (extended_checks self)) Hpos. clear.
    unfold join, list_times. induction n as [|n IH]; intros Hn; [lia|].
    destruct n as [|n]; [reflexivity|].
    change (String.concat "," (repeat EmptyString (S (S n))))
      with (String comma (String.concat "," (repeat EmptyString (S n)))).
    cbn [split]. rewrite Ascii.eqb_refl, IH by lia. reflexivity.
Qed.

(** ** The report *)

Lemma lift_calls {A : Type} (m : M A) (s : Sys) : calls (snd (lift m s)) = calls s.
Proof. unfold lift. destruct (m (world s)). reflexivity. Qed.

Lemma run_due_batch_run (env : Env) (st : main.MainState) :
  let st' := main.run_due_batch env st in
  main.printed st' =
    main.printed st ++
    (if main.extended_due env st then [main.header st; main.extended_row env st]
     else if main.normal_due env st then [main.normal_row env st]
     else []) /\
  calls (main.sys st') =
    (if main.extended_due env st
     then calls (exec (extended_check env (main.checks st)) (main.at_batch st))
     else if main.normal_due env st
     then calls (exec (normal_check env (main.checks st)) (main.at_batch st))
     else calls (main.sys st)).
Proof.
  unfold main.run_due_batch, main.extended_due, main.normal_due, main.extended_row,
    main.normal_row, main.header, main.time_str, main.now, main.at_batch, eval, exec.
  unfold lift, hardware.time_time, ask. cbn [world calls tick test_state gpio_out].
  unfold with_tick.
  set (nd := ge _ (main.last_normal_test st + _)).
  set (ed := ge _ (main.last_extended_test st + _)).
  destruct ed.
  - rewrite orb_true_r.
    destruct (extended_check env _ _) as [r s3]. simpl. split; reflexivity.
  - rewrite orb_false_r. destruct nd.
    + destruct (normal_check env _ _) as [r s3]. simpl. split; reflexivity.
    + simpl. rewrite app_nil_r. split; reflexivity.
Qed.

Lemma cycle_run (env : Env) (fuel : nat) (st st' : main.MainState) :
  main.cycle env fuel st = Some st' ->
  main.printed st' = main.printed (main.run_due_batch env st) /\
  calls (main.sys st') = calls (main.sys (main.run_due_batch env st)).
Proof.
  unfold main.cycle.
  pose proof (lift_calls (hardware.get_user_input env fuel main.user_input_timeout)
                (main.sys (main.run_due_batch env st))) as Hc.
  destruct (lift _ _) as [user_input s4]. simpl in Hc.
  destruct user_input as [[| |]|]; intros H; inversion H; subst; simpl;
    split; auto.
Qed.

Lemma extended_batches_app (a b : list Call) :
  main.extended_batches (a ++ b) = (main.extended_batches a + main.extended_batches b)%nat.
Proof. unfold main.extended_batches. rewrite filter_app, length_app. reflexivity. Qed.

Lemma extended_batches_flat_map (f : nat -> list Call) (l : list nat) :
  (forall i, main.extended_batches (f i) = 0%nat) ->
  main.extended_batches (flat_map f l) = 0%nat.
Proof.
  intros Hf. induction l as [|i l IH]; [reflexivity|].
  simpl. rewrite extended_batches_app, Hf, IH. reflexivity.
Qed.

Lemma extended_batches_map (f : nat -> Call) (l : list nat) :
  (forall i, main.is_extended_check (f i) = false) ->
  main.extended_batches (map f l) = 0%nat.
Proof.
  intros Hf. rewrite <- flat_map_singleton. apply extended_batches_flat_map.
  intros i. unfold main.extended_batches. simpl. rewrite Hf. reflexivity.
Qed.

Lemma extended_check_batches (env : Env) (self : NormalAndExtendedChecks) (s : Sys) :
  main.extended_batches (calls (exec (extended_check env self) s)) =
  S (main.extended_batches (calls s)).
Proof.
  unfold exec. rewrite extended_check_run. cbn [snd calls].
  rewrite !extended_batches_app.
  unfold started_calls, completed_calls.
  rewrite !extended_batches_flat_map by reflexivity.
  unfold main.extended_batches. simpl. lia.
Qed.

Lemma normal_check_batches (env : Env) (self : NormalAndExtendedChecks) (s : Sys) :
  main.extended_batches (calls (exec (normal_check env self) s)) =
  main.extended_batches (calls s).
Proof.
  unfold exec. rewrite normal_check_run. cbn [snd calls].
  rewrite !extended_batches_app.
  rewrite !extended_batches_map by reflexivity.
  unfold main.extended_batches. simpl. lia.
Qed.

Lemma headers_app (a b : list string) :
  main.headers (a ++ b) = main.headers a ++ main.headers b.
Proof. apply filter_app. Qed.

Lemma header_is_header (st : main.MainState) : main.is_header (main.header st) = true.
Proof. reflexivity. Qed.

Lemma cycle_headers (env : Env) :
  (forall k x, main.is_header (utc_now env k ++ x) = false) ->
  forall fuel st st',
    main.cycle env fuel st = Some st' ->
    length (main.headers (main.printed st)) = main.extended_batches (calls (main.sys st)) ->
    length (main.headers (main.printed st')) = main.extended_batches (calls (main.sys st')).
Proof.
  intros Hutc fuel st st' Hcycle Hinv.
  apply cycle_run in Hcycle. destruct Hcycle as [Hp Hc].
  destruct (run_due_batch_run env st) as [Hp' Hc'].
  rewrite Hp, Hc, Hp', Hc'. rewrite headers_app, length_app, Hinv.
  destruct (main.extended_due env st).
  - rewrite extended_check_batches.
    unfold main.headers. cbn [filter]. rewrite header_is_header.
    unfold main.extended_row, main.time_str. rewrite Hutc. simpl. unfold main.at_batch. simpl. lia.
  - destruct (main.normal_due env st).
    + rewrite normal_check_batches.
      unfold main.headers. cbn [filter]. unfold main.normal_row, main.time_str.
      rewrite Hutc.
      simpl. unfold main.at_batch. simpl. lia.
    + simpl. lia.
Qed.

Lemma loop_headers (env : Env) :
  (forall k x, main.is_header (utc_now env k ++ x) = false) ->
  forall cycles fuel st st',
    main.loop env cycles fuel st = Some st' ->
    length (main.headers (main.printed st)) = main.extended_batches (calls (main.sys st)) ->
    length (main.headers (main.printed st')) = main.extended_batches (calls (main.sys st')).
Proof.
  intros Hutc. induction cycles as [|cycles IH]; intros fuel st st' Hloop Hinv.
  - simpl in Hloop. inversion Hloop; subst. exact Hinv.
  - simpl in Hloop. destruct (main.cycle env fuel st) as [st1|] eqn:Hcycle;
      [|discriminate].
    apply (IH fuel st1 st' Hloop).
    apply (cycle_headers env Hutc fuel st st1 Hcycle Hinv).
Qed.

(** C8, counterexample.  With the Extended batch due in two turns of the
    loop, the output of the two turns holds two header lines. *)
Lemma two_headers_in_two_cycles :
  option_map (fun st => length (main.headers (main.printed st)))
    (main.main env_down 2 5 world0) = Some 2%nat.
Proof. vm_compute. reflexivity. Qed.

(** C8 (amended). In every turn of the loop in which the Extended batch
    is due, the header line [# time(utc),] followed by the column names of
    Normal then Extended is printed immediately before the row of that
    batch; a turn that runs the Normal batch alone prints its row only, and
    a turn with nothing due prints nothing.  Hence, when no timestamp
    reads like a header, the output holds as many header lines as Extended
    batches were run. *)
Theorem header_before_every_extended_row (env : Env) :
  (forall fuel st st',
      main.cycle env fuel st = Some st' ->
      main.printed st' =
        main.printed st ++
        (if main.extended_due env st then [main.header st; main.extended_row env st]
         else if main.normal_due env st then [main.normal_row env st]
         else [])) /\
  (forall st,
      main.header st =
      ("# time(utc)," ++ column_names (normal_checks (main.checks st)) ++ ","
       ++ column_names (extended_checks (main.checks st)))%string) /\
  ((forall k x, main.is_header (utc_now env k ++ x) = false) ->
   forall cycles fuel w st,
     main.main env cycles fuel w = Some st ->
     length (main.headers (main.printed st)) =
     main.extended_batches (calls (main.sys st))).
Proof.
  split; [|split].
  - intros fuel st st' Hcycle. apply cycle_run in Hcycle.
    destruct Hcycle as [Hp _]. rewrite Hp. apply run_due_batch_run.
  - reflexivity.
  - intros Hutc cycles fuel w st Hmain.
    apply (loop_headers env Hutc cycles fuel _ st Hmain). reflexivity.
Qed.

Lemma header_before_every_extended_row_witness :
  match main.main env_down 2 5 world0 with
  | Some st =>
      length (main.headers (main.printed st)) =
      main.extended_batches (calls (main.sys st))
  | None => False
  end.
Proof.
  destruct (header_before_every_extended_row env_down) as [_ [_ H]].
  assert (Hsome : match main.main env_down 2 5 world0 with
                  | Some _ => true
                  | None => false
                  end = true) by (vm_compute; reflexivity).
  destruct (main.main env_down 2 5 world0) as [st|] eqn:E.
  - apply (H (fun k x => eq_refl) 2%nat 5%nat world0 st E).
  - discriminate Hsome.
Defined.

Lemma row_arity_witness :
  let self := main.checks (main.start env_down world0) in
  let s := main.sys (main.start env_down world0) in
  fields (fst (eval (normal_check env_down self) s)) = 9%nat /\
  fields (fst (eval (extended_check env_down self) s)) = 9%nat.
Proof.
  intros self s.
  destruct (row_arity env_down self (fun w => eq_refl) (fun w => eq_refl) s)
    as [H1 [H2 _]].
  split; [exact H1|exact H2].
Defined.

(** An empty composite has an empty value string, which is one field,
    and arity zero. *)
Lemma empty_composite_fields (env : Env) (w : World) :
  fields (fst (fst (eval (check env (MultipleChecks [])) w))) = 1%nat /\
  num_columns (MultipleChecks []) = 0%nat.
Proof. split; reflexivity. Qed.

(** ** Leaf checks on probe failure *)

(** The ping checks, the printer check and the speed check turn a failed
    probe into their sentinel value with [False] on every evaluated
    column. *)
Lemma ping_checks_fail_on_probe_failure (env : Env) (w : World)
  (host : string) (max_ping timeout min_down min_up : Q) :
  (ping env (tick w) host timeout = None ->
   fst (eval (check env (PingCheck host max_ping timeout)) w)
   = ("-1"%string, [PyBool false])) /\
  (default_gateway env (tick w) timeout = None ->
   fst (eval (check env (PingDefaultGatewayCheck max_ping timeout)) w)
   = ("-1"%string, [PyBool false])) /\
  (discover_printers env (tick w) timeout = None ->
   fst (eval (check env (PingPrinterCheck max_ping timeout)) w)
   = ("-1,"%string, [PyBool false; PyNone])) /\
  (speedtest env (tick w) timeout = None ->
   fst (eval (check env (SpeedCheck min_down min_up max_ping timeout)) w)
   = ("-1,-1,-1,N/A"%string, [PyBool false; PyBool false; PyBool false; PyNone])).
Proof.
  repeat split; intros H; unfold eval; simpl;
    unfold StatusCheck_check, PingCheck_do_check, PingDefaultGatewayCheck_do_check,
      PingPrinterCheck_check, PingPrinterCheck_do_check, SpeedCheck_check,
      bind, ask, ret; simpl; rewrite H; reflexivity.
Qed.

(** C9, the defect.  [DnsCheck.check()] returns normally, and when the
    resolution fails it returns the value [False] with the verdict [None]
    (Unknown), not [False] (Fail): [do_to_value] has no [return]. *)
Theorem DnsCheck_failure_is_unknown (env : Env) (host : string) (timeout : Q)
  (w : World) :
  dns_resolve env (tick w) host timeout = None ->
  fst (eval (check env (DnsCheck host timeout)) w) = ("False"%string, [PyNone]).
Proof.
  intros H. unfold eval. simpl.
  unfold StatusCheck_check, DnsCheck_do_check, bind, ask, ret. simpl.
  rewrite H. reflexivity.
Qed.

Lemma DnsCheck_failure_is_unknown_witness :
  fst (eval (check env_down (DnsCheck "google.com" 10)) world0)
  = ("False"%string, [PyNone]).
Proof. apply (DnsCheck_failure_is_unknown env_down "google.com" 10 world0). reflexivity. Defined.

(** ** A refresh interleaved with a completion *)

(** Alone, the thread model of [__update_leds] does what [update_leds]
    does. *)
Lemma refresh_alone (env : Env) (w : World) (t : TestType) (r : pyval) :
  threads.shared (threads.run env (repeat threads.Background 13) (threads.initial w t r))
  = exec (hardware.update_leds env) w.
Proof.
  unfold exec. rewrite update_leds_run. unfold refresh_list, normal_blink, extended_blink.
  destruct w as [k s out]. simpl. unfold exec, hardware.GPIO_output. simpl.
  rewrite <- !app_assoc. reflexivity.
Qed.

(** No state of the [TestState] object yields true values for both the
    Pass and the Fail output of a kind. *)
Lemma pass_and_fail_exclusive (b : bool) (s : TestState) :
  truthy (hardware.normal_pass_value b s) && truthy (hardware.normal_fail_value s) = false
  /\ truthy (hardware.extended_pass_value b s)
     && truthy (hardware.extended_fail_value s) = false.
Proof.
  destruct s as [nr er sn se fn fe rn re tn te].
  unfold hardware.normal_pass_value, hardware.normal_fail_value,
    hardware.extended_pass_value, hardware.extended_fail_value. simpl.
  destruct b, nr as [|[|]], er as [|[|]], sn, se; split; reflexivity.
Qed.

(** C10, the defect.  [test_state = self.test_state] copies the
    reference, not the attributes, so the refresh reads the attributes
    after it has released the lock.  With [notify_test_completed(NORMAL,
    False)] running between two of its writes, one refresh writes true to
    Normal-Pass and true to Normal-Fail, which no single state of the
    object yields. *)
Theorem refresh_reads_after_release :
  let c := threads.run env_late torn_schedule
             (threads.initial world_passed NORMAL (PyBool false)) in
  skipn (length (gpio_out world_passed)) (gpio_out (threads.shared c)) =
  [(NORMAL_PASS, PyBool true); (NORMAL_FAIL, PyBool true);
   (EXTENDED_PASS, PyBool false); (EXTENDED_FAIL, PyBool false);
   (TEST_RUNNING, PyBool false)]
  /\ threads.test_state_lock c = None
  /\ forall (b : bool) (s : TestState),
       truthy (hardware.normal_pass_value b s)
       && truthy (hardware.normal_fail_value s) = false.
Proof.
  split; [vm_compute; reflexivity|].
  split; [vm_compute; reflexivity|].
  intros b s. apply pass_and_fail_exclusive.
Qed.

(* ================================================================== *)
(** * Further properties of the checks *)
(* ================================================================== *)

(** Induction over a check and the checks it is made of. *)
Lemma StatusCheck_nested_ind (P : StatusCheck -> Prop) :
  (forall n i, P (FailEveryNTimes n i)) ->
  (forall max_ping timeout, P (PingPrinterCheck max_ping timeout)) ->
  (forall host max_ping timeout, P (PingCheck host max_ping timeout)) ->
  (forall max_ping timeout, P (PingDefaultGatewayCheck max_ping timeout)) ->
  (forall host timeout, P (DnsCheck host timeout)) ->
  (forall min_down min_up max_ping timeout,
      P (SpeedCheck min_down min_up max_ping timeout)) ->
  (forall checks, Forall P checks -> P (MultipleChecks checks)) ->
  forall c, P c.
Proof.
  intros HF HPP HP HG HD HS HM.
  fix IH 1.
  intros [n i|mp t|h mp t|mp t|h t|md mu mp t|checks];
    [apply HF|apply HPP|apply HP|apply HG|apply HD|apply HS|].
  apply HM. induction checks as [|c l IHl]; constructor; [apply IH|exact IHl].
Qed.

(** ** [FailEveryNTimes] *)

Lemma FailEveryNTimes_step (env : Env) (n i : Z) (w : World) :
  check env (FailEveryNTimes n i) w =
  (if (i - 1 =? 0)%Z
   then ((FAIL, [PyBool false]), FailEveryNTimes n n)
   else ((PASS, [PyBool true]), FailEveryNTimes n (i - 1)), w).
Proof.
  simpl. unfold FailEveryNTimes_do_check, ret.
  destruct (i - 1 =? 0)%Z; reflexivity.
Qed.

Lemma FailEveryNTimes_from (env : Env) (n : Z) (w : World) (k : nat) :
  forall i : Z,
    (1 <= i <= n)%Z ->
    fst (fst (check_times env k (FailEveryNTimes n i) w)) =
    map (fun j => every_nth n (j + Z.to_nat (n - i))) (seq 1 k).
Proof.
  induction k as [|k IH]; intros i Hi; [reflexivity|].
  cbn [check_times]. rewrite FailEveryNTimes_step.
  destruct (Z.eqb_spec (i - 1) 0) as [E|E].
  - specialize (IH n ltac:(lia)).
    destruct (check_times env k (FailEveryNTimes n n) w) as [[rs c2] w2].
    cbn [fst] in *. rewrite IH. cbn [seq map]. f_equal.
    + unfold every_nth.
      replace (Z.of_nat (1 + Z.to_nat (n - i))) with n by lia.
      rewrite Z.mod_same by lia. reflexivity.
    + rewrite <- (seq_shift k 1), map_map. apply map_ext. intros j. unfold every_nth.
      replace (Z.of_nat (S j + Z.to_nat (n - i))) with (Z.of_nat (j + Z.to_nat (n - n)) + 1 * n)%Z
        by lia.
      rewrite Z.mod_add by lia. reflexivity.
  - specialize (IH (i - 1)%Z ltac:(lia)).
    destruct (check_times env k (FailEveryNTimes n (i - 1)) w) as [[rs c2] w2].
    cbn [fst] in *. rewrite IH. cbn [seq map]. f_equal.
    + unfold every_nth.
      replace (Z.of_nat (1 + Z.to_nat (n - i))) with (1 + n - i)%Z by lia.
      rewrite Z.mod_small by lia.
      destruct (Z.eqb_spec (1 + n - i) 0); [lia|reflexivity].
    + rewrite <- (seq_shift k 1), map_map. apply map_ext. intros j.
      f_equal. lia.
Qed.

Lemma FailEveryNTimes_never (env : Env) (n : Z) (w : World) (k : nat) :
  forall i : Z,
    (i <= 0)%Z ->
    fst (fst (check_times env k (FailEveryNTimes n i) w)) =
    repeat (PASS, [PyBool true]) k.
Proof.
  induction k as [|k IH]; intros i Hi; [reflexivity|].
  cbn [check_times]. rewrite FailEveryNTimes_step.
  destruct (Z.eqb_spec (i - 1) 0) as [E|E]; [lia|].
  specialize (IH (i - 1)%Z ltac:(lia)).
  destruct (check_times env k (FailEveryNTimes n (i - 1)) w) as [[rs c2] w2].
  cbn [fst] in *. rewrite IH. reflexivity.
Qed.

(** X1. A fresh [FailEveryNTimes(n)] with [n >= 1] returns [Fail] with
    verdict [False] on call number [n], [2n], [3n], ... and [Pass] with
    verdict [True] on every other call; with [n <= 0] it never fails.  It
    asks the environment nothing. *)
Theorem FailEveryNTimes_period (env : Env) (n : Z) (k : nat) (w : World) :
  ((1 <= n)%Z ->
   fst (fst (check_times env k (FailEveryNTimes_init n) w)) =
   map (every_nth n) (seq 1 k)) /\
  ((n <= 0)%Z ->
   fst (fst (check_times env k (FailEveryNTimes_init n) w)) =
   repeat (PASS, [PyBool true]) k) /\
  snd (check_times env k (FailEveryNTimes_init n) w) = w.
Proof.
  split; [|split].
  - intros Hn. unfold FailEveryNTimes_init.
    rewrite (FailEveryNTimes_from env n w k n) by lia.
    apply map_ext. intros j. rewrite Z.sub_diag. simpl. rewrite Nat.add_0_r.
    reflexivity.
  - intros Hn. apply FailEveryNTimes_never. exact Hn.
  - unfold FailEveryNTimes_init. generalize n at 2. revert w.
    induction k as [|k IH]; intros w i; [reflexivity|].
    cbn [check_times]. rewrite FailEveryNTimes_step.
    destruct (i - 1 =? 0)%Z.
    + specialize (IH w n).
      destruct (check_times env k (FailEveryNTimes n n) w) as [[rs c2] w2].
      exact IH.
    + specialize (IH w (i - 1)%Z).
      destruct (check_times env k (FailEveryNTimes n (i - 1)) w) as [[rs c2] w2].
      exact IH.
Qed.

Lemma FailEveryNTimes_period_witness :
  fst (fst (check_times env_down 7 (FailEveryNTimes_init 3) world0)) =
  [(PASS, [PyBool true]); (PASS, [PyBool true]); (FAIL, [PyBool false]);
   (PASS, [PyBool true]); (PASS, [PyBool true]); (FAIL, [PyBool false]);
   (PASS, [PyBool true])] /\
  fst (fst (check_times env_down 3 (FailEveryNTimes_init 0) world0)) =
  repeat (PASS, [PyBool true]) 3.
Proof.
  destruct (FailEveryNTimes_period env_down 3 7 world0) as [H _].
  destruct (FailEveryNTimes_period env_down 0 3 world0) as [_ [H0 _]].
  split; [rewrite H by lia; reflexivity|apply H0; lia].
Defined.

(** ** Arity of the verdicts and of the names *)

Lemma check_multiple_run (env : Env) (checks : list StatusCheck) (w : World) :
  check env (MultipleChecks checks) w =
  ((combine_checks (fst (fst (check_each env checks w))),
    MultipleChecks (snd (fst (check_each env checks w)))),
   snd (check_each env checks w)).
Proof.
  rewrite check_multiple. unfold bind, ret.
  destruct (check_each env checks w) as [rl w']. reflexivity.
Qed.

Lemma check_each_cons (env : Env) (c : StatusCheck) (l : list StatusCheck) (w : World) :
  check_each env (c :: l) w =
  ((fst (fst (check env c w)) :: fst (fst (check_each env l (snd (check env c w)))),
    snd (fst (check env c w)) :: snd (fst (check_each env l (snd (check env c w))))),
   snd (check_each env l (snd (check env c w)))).
Proof.
  simpl. unfold bind, ret.
  destruct (check env c w) as [rc w1]. cbn [fst snd].
  fold (check_each env). destruct (check_each env l w1) as [rl w2]. reflexivity.
Qed.

Lemma check_each_verdicts (env : Env) (checks : list StatusCheck) :
  Forall (fun c => forall w,
              length (snd (fst (fst (check env c w)))) = num_columns c) checks ->
  forall w,
    map (fun r => length (snd r)) (fst (fst (check_each env checks w)))
    = map num_columns checks.
Proof.
  induction 1 as [|c l Hc Hl IH]; intros w; [reflexivity|].
  rewrite check_each_cons. cbn [fst snd map]. rewrite Hc, IH. reflexivity.
Qed.

(** X2. [check()] of every check, leaf or composite, returns exactly
    [num_columns()] verdicts, whatever the probes answer. *)
Theorem check_verdicts_arity (env : Env) (c : StatusCheck) :
  forall w, length (snd (fst (fst (check env c w)))) = num_columns c.
Proof.
  induction c as [n i|mp t|h mp t|mp t|h t|md mu mp t|checks IH]
    using StatusCheck_nested_ind; intros w.
  - rewrite FailEveryNTimes_step. destruct (i - 1 =? 0)%Z; reflexivity.
  - simpl. unfold PingPrinterCheck_check, bind, ret.
    destruct (PingPrinterCheck_do_check env t w). reflexivity.
  - simpl. unfold StatusCheck_check, bind, ret.
    destruct (PingCheck_do_check env h t w). reflexivity.
  - simpl. unfold StatusCheck_check, bind, ret.
    destruct (PingDefaultGatewayCheck_do_check env t w). reflexivity.
  - simpl. unfold StatusCheck_check, bind, ret.
    destruct (DnsCheck_do_check env h t w). reflexivity.
  - simpl. unfold SpeedCheck_check, bind, ret, ask.
    destruct (speedtest env (tick w) t); reflexivity.
  - rewrite check_multiple_run. cbn [fst snd combine_checks num_columns].
    rewrite length_concat, map_map.
    rewrite (check_each_verdicts env checks IH w). reflexivity.
Qed.

Lemma check_each_columns (env : Env) (checks : list StatusCheck) :
  Forall (fun c => forall w,
              column_names (snd (fst (check env c w))) = column_names c /\
              num_columns (snd (fst (check env c w))) = num_columns c) checks ->
  forall w,
    map column_names (snd (fst (check_each env checks w))) = map column_names checks /\
    map num_columns (snd (fst (check_each env checks w))) = map num_columns checks.
Proof.
  induction 1 as [|c l Hc Hl IH]; intros w; [split; reflexivity|].
  rewrite check_each_cons. cbn [fst snd map].
  destruct (Hc w) as [H1 H2]. destruct (IH (snd (check env c w))) as [H3 H4].
  rewrite H1, H2, H3, H4. split; reflexivity.
Qed.

(** X3. [check()] changes neither the column names nor the number of
    columns of the object it is called on. *)
Theorem check_keeps_columns (env : Env) (c : StatusCheck) :
  forall w,
    column_names (snd (fst (check env c w))) = column_names c /\
    num_columns (snd (fst (check env c w))) = num_columns c.
Proof.
  induction c as [n i|mp t|h mp t|mp t|h t|md mu mp t|checks IH]
    using StatusCheck_nested_ind; intros w.
  - rewrite FailEveryNTimes_step. destruct (i - 1 =? 0)%Z; split; reflexivity.
  - simpl. unfold bind, ret.
    destruct (PingPrinterCheck_check env mp t w). split; reflexivity.
  - simpl. unfold bind, ret.
    destruct (StatusCheck_check _ _ w). split; reflexivity.
  - simpl. unfold bind, ret.
    destruct (StatusCheck_check _ _ w). split; reflexivity.
  - simpl. unfold bind, ret.
    destruct (StatusCheck_check _ _ w). split; reflexivity.
  - simpl. unfold bind, ret.
    destruct (SpeedCheck_check env md mu mp t w). split; reflexivity.
  - rewrite check_multiple_run. cbn [fst snd column_names num_columns].
    destruct (check_each_columns env checks IH w) as [H1 H2].
    rewrite H1, H2. split; reflexivity.
Qed.

Lemma fields_uint (d : Decimal.uint) : fields (NilEmpty.string_of_uint d) = 1%nat.
Proof. induction d; simpl; [reflexivity|rewrite fields_cons; exact IHd ..]. Qed.

Lemma fields_str_int (n : Z) : fields (str_int n) = 1%nat.
Proof.
  unfold str_int. destruct (Z.to_int n) as [d|d]; simpl.
  - destruct d; try apply (fields_uint (_ d)); reflexivity.
  - rewrite fields_cons. simpl.
    destruct d; try apply (fields_uint (_ d)); reflexivity.
Qed.

Lemma fields_wrap (a b s : string) :
  fields a = 1%nat -> fields b = 1%nat -> fields s = 1%nat ->
  fields (a ++ s ++ b) = 1%nat.
Proof.
  intros Ha Hb Hs.
  pose proof (fields_append a (s ++ b)) as H1.
  pose proof (fields_append s b) as H2. lia.
Qed.

(** X4. When no host name holds a comma and no composite is empty, the
    column names of a check have exactly [num_columns()] fields, so the
    header has as many fields as the check declares columns. *)
Theorem column_names_arity (c : StatusCheck) :
  plain_names c = true -> fields (column_names c) = num_columns c.
Proof.
  induction c as [n i|mp t|h mp t|mp t|h t|md mu mp t|checks IH]
    using StatusCheck_nested_ind; intros Hp; try reflexivity.
  - apply (fields_wrap "fail every " " times" (str_int n));
      [reflexivity|reflexivity|apply fields_str_int].
  - cbn [plain_names] in Hp. apply Nat.eqb_eq in Hp.
    apply (fields_wrap "ping time for " " (ms)" h); [reflexivity|reflexivity|exact Hp].
  - cbn [plain_names] in Hp. apply Nat.eqb_eq in Hp.
    cbn [column_names num_columns].
    pose proof (fields_append "DNS resolution check for " h) as H.
    change (fields "DNS resolution check for ") with 1%nat in H. lia.
  - cbn [plain_names] in Hp. apply andb_prop in Hp. destruct Hp as [Hne Hall].
    cbn [column_names num_columns].
    rewrite fields_join
      by (destruct checks; [discriminate Hne|discriminate]).
    rewrite map_map. f_equal.
    clear Hne. induction IH as [|c l Hc Hl IHl]; [reflexivity|].
    simpl in Hall. apply andb_prop in Hall. destruct Hall as [H1 H2].
    simpl. rewrite Hc by exact H1. rewrite IHl by exact H2. reflexivity.
Qed.

Lemma column_names_arity_witness :
  fields (column_names main.quick_checks) = 5%nat /\
  fields (column_names main.extended_checks) = 4%nat.
Proof.
  split.
  - apply (column_names_arity main.quick_checks). reflexivity.
  - apply (column_names_arity main.extended_checks). reflexivity.
Defined.

(** ** Composites *)

Lemma string_app_assoc (a b c : string) : ((a ++ b) ++ c = a ++ (b ++ c))%string.
Proof. induction a as [|x a IH]; simpl; [|rewrite IH]; reflexivity. Qed.

Lemma join_app (sep : string) (A B : list string) :
  A <> [] -> B <> [] ->
  join sep (A ++ B) = (join sep A ++ sep ++ join sep B)%string.
Proof.
  unfold join. intros HA HB. induction A as [|a A IH]; [contradiction|].
  destruct A as [|a' A].
  - destruct B as [|b B]; [contradiction|]. reflexivity.
  - change (String.concat sep ((a :: a' :: A) ++ B))
      with (a ++ sep ++ String.concat sep ((a' :: A) ++ B))%string.
    rewrite IH by discriminate.
    change (String.concat sep (a :: a' :: A))
      with (a ++ sep ++ String.concat sep (a' :: A))%string.
    rewrite !string_app_assoc. reflexivity.
Qed.

Lemma join_nested (sep : string) (P A Q : list string) :
  A <> [] ->
  join sep (P ++ join sep A :: Q) = join sep (P ++ A ++ Q).
Proof.
  intros HA. destruct P as [|p P], Q as [|q Q].
  - simpl. rewrite app_nil_r. reflexivity.
  - cbn [app]. rewrite (join_app sep A (q :: Q)) by (assumption || discriminate).
    reflexivity.
  - rewrite app_nil_r.
    rewrite (join_app sep (p :: P) [join sep A]) by discriminate.
    rewrite (join_app sep (p :: P) A) by (assumption || discriminate).
    reflexivity.
  - rewrite (join_app sep (p :: P) (join sep A :: q :: Q)) by discriminate.
    rewrite (join_app sep (p :: P) (A ++ q :: Q))
      by first [discriminate|destruct A; [contradiction|discriminate]].
    rewrite (join_app sep A (q :: Q)) by (assumption || discriminate).
    reflexivity.
Qed.

Lemma check_each_nil (env : Env) (w : World) : check_each env [] w = (([], []), w).
Proof. reflexivity. Qed.

Lemma check_each_app (env : Env) (a b : list StatusCheck) :
  forall w,
    check_each env (a ++ b) w =
    ((fst (fst (check_each env a w))
      ++ fst (fst (check_each env b (snd (check_each env a w)))),
      snd (fst (check_each env a w))
      ++ snd (fst (check_each env b (snd (check_each env a w))))),
     snd (check_each env b (snd (check_each env a w)))).
Proof.
  induction a as [|c a IH]; intros w.
  - rewrite check_each_nil. cbn [app fst snd].
    destruct (check_each env b w) as [[rs cs] w']. reflexivity.
  - rewrite <- app_comm_cons, !check_each_cons, IH. reflexivity.
Qed.

Lemma check_each_length (env : Env) (l : list StatusCheck) :
  forall w, length (fst (fst (check_each env l w))) = length l.
Proof.
  induction l as [|c l IH]; intros w; [reflexivity|].
  rewrite check_each_cons. cbn [fst length]. rewrite IH. reflexivity.
Qed.

(** X5. A composite nested in a composite can be inlined: when the inner
    composite has at least one child, [MultipleChecks(pre + [MultipleChecks(a)]
    + post)] and [MultipleChecks(pre + a + post)] return the same value
    string and the same verdicts, ask the environment the same questions,
    and declare the same column names and number of columns. *)
Theorem nested_composite_inlines (env : Env) (pre a post : list StatusCheck)
  (w : World) :
  a <> [] ->
  let nested := MultipleChecks (pre ++ MultipleChecks a :: post) in
  let flat := MultipleChecks (pre ++ a ++ post) in
  fst (fst (check env nested w)) = fst (fst (check env flat w)) /\
  snd (check env nested w) = snd (check env flat w) /\
  column_names nested = column_names flat /\
  num_columns nested = num_columns flat.
Proof.
  intros Ha nested flat. unfold nested, flat.
  rewrite !check_multiple_run. cbn [fst snd].
  rewrite !check_each_app. rewrite check_each_cons, check_multiple_run.
  cbn [fst snd].
  set (w1 := snd (check_each env pre w)).
  set (Rpre := fst (fst (check_each env pre w))).
  set (Ra := fst (fst (check_each env a w1))).
  set (w2 := snd (check_each env a w1)).
  set (Rpost := fst (fst (check_each env post w2))).
  assert (HRa : map fst Ra <> []).
  { intros E. apply (f_equal (@length _)) in E.
    rewrite length_map in E. unfold Ra in E. rewrite check_each_length in E.
    destruct a; [contradiction|discriminate]. }
  split; [|split; [reflexivity|split]].
  - unfold combine_checks. f_equal.
    + rewrite !map_app. cbn [map fst]. apply join_nested. exact HRa.
    + rewrite !map_app. cbn [map snd]. rewrite !concat_app. cbn [List.concat].
      rewrite ?concat_app, <- ?app_assoc. reflexivity.
  - cbn [column_names]. rewrite !map_app. cbn [map column_names].
    fold (join "," (map column_names a)). apply join_nested.
    destruct a; [contradiction|discriminate].
  - cbn [num_columns]. rewrite !map_app. cbn [map num_columns].
    rewrite !list_sum_app. unfold list_sum. cbn [fold_right]. lia.
Qed.

Lemma nested_composite_inlines_witness :
  fst (fst (check env_down
              (MultipleChecks [DnsCheck "a" 10;
                               MultipleChecks [PingCheck "b" 200 10; DnsCheck "c" 10]])
              world0)) =
  fst (fst (check env_down
              (MultipleChecks [DnsCheck "a" 10; PingCheck "b" 200 10; DnsCheck "c" 10])
              world0)).
Proof.
  apply (nested_composite_inlines env_down [DnsCheck "a" 10]
           [PingCheck "b" 200 10; DnsCheck "c" 10] [] world0).
  discriminate.
Defined.

Lemma reduce_app (l1 l2 : list pyval) (acc : pyval) :
  reduce combine_results (l1 ++ l2) acc =
  reduce combine_results l2 (reduce combine_results l1 acc).
Proof. unfold reduce. apply fold_left_app. Qed.

Lemma overall_concat (rs : list CheckResult) :
  reduce combine_results (List.concat (map snd rs)) PyNone =
  reduce combine_results (map overall rs) PyNone.
Proof.
  induction rs as [|r rs IH]; [reflexivity|].
  cbn [map List.concat]. rewrite reduce_app, reduce_from, IH.
  change (reduce combine_results (overall r :: map overall rs) PyNone)
    with (reduce combine_results (map overall rs) (combine_results PyNone (overall r))).
  rewrite (reduce_from (map overall rs) (combine_results PyNone (overall r))).
  reflexivity.
Qed.

Lemma reduce_is_fail (l : list pyval) :
  is_fail (reduce combine_results l PyNone) = existsb is_fail l.
Proof.
  induction l as [|v l IH]; [reflexivity|].
  change (reduce combine_results (v :: l) PyNone)
    with (reduce combine_results l (combine_results PyNone v)).
  rewrite reduce_from. cbn [existsb]. rewrite <- IH.
  destruct v as [|[|]], (reduce combine_results l PyNone) as [|[|]]; reflexivity.
Qed.

(** X6. The overall verdict of a composite is the fold of the overall
    verdicts of its children; it is Fail exactly when the overall verdict
    of some child is Fail. *)
Theorem composite_overall (env : Env) (checks : list StatusCheck) (w : World) :
  let children := fst (fst (check_each env checks w)) in
  let composite := fst (fst (check env (MultipleChecks checks) w)) in
  overall composite = reduce combine_results (map overall children) PyNone /\
  is_fail (overall composite) = existsb (fun r => is_fail (overall r)) children.
Proof.
  intros children composite. unfold composite.
  rewrite check_multiple_run. cbn [fst]. fold children.
  assert (H : overall (combine_checks children)
              = reduce combine_results (map overall children) PyNone)
    by apply overall_concat.
  split; [exact H|].
  rewrite H, reduce_is_fail. clear H.
  induction children as [|r rs IH]; [reflexivity|].
  cbn [map existsb]. rewrite IH. reflexivity.
Qed.

(** ** Leaf checks *)

Lemma PingPrinterCheck_run (env : Env) (max_ping timeout : Q) (w : World) :
  check env (PingPrinterCheck max_ping timeout) w =
  ((fst (PingPrinterCheck_do_check env timeout w),
    [PingCheckBase_do_to_value env max_ping
       (hd EmptyString (split (fst (PingPrinterCheck_do_check env timeout w))));
     PyNone],
    PingPrinterCheck max_ping timeout),
   snd (PingPrinterCheck_do_check env timeout w)).
Proof.
  simpl. unfold PingPrinterCheck_check, bind, ret.
  destruct (PingPrinterCheck_do_check env timeout w). reflexivity.
Qed.

Lemma hd_split_no_ping (x : string) :
  hd EmptyString (split (NO_PING ++ "," ++ x)) = NO_PING.
Proof. simpl. destruct (split x); reflexivity. Qed.

(** X7. The printer check does not guess.  When discovery finds two or
    more printers it returns the sentinel [-1] followed by all addresses
    joined by spaces, with verdicts [False] and [None], without pinging
    any of them; when discovery finds none, or fails, it returns [-1,] with
    the same verdicts. *)
Theorem PingPrinterCheck_no_unique_printer (env : Env) (max_ping timeout : Q)
  (w : World) :
  (forall p q l,
      discover_printers env (tick w) timeout = Some (p :: q :: l) ->
      check env (PingPrinterCheck max_ping timeout) w =
      (((NO_PING ++ "," ++ join " " (map address (p :: q :: l)))%string,
        [PyBool false; PyNone], PingPrinterCheck max_ping timeout),
       with_tick (S (tick w)) w)) /\
  (discover_printers env (tick w) timeout = Some [] \/
   discover_printers env (tick w) timeout = None ->
   check env (PingPrinterCheck max_ping timeout) w =
   (((NO_PING ++ ",")%string, [PyBool false; PyNone],
     PingPrinterCheck max_ping timeout),
    with_tick (S (tick w)) w)).
Proof.
  split.
  - intros p q l H. rewrite PingPrinterCheck_run.
    unfold PingPrinterCheck_do_check, bind, ask, ret. rewrite H. cbn [fst snd].
    rewrite hd_split_no_ping. reflexivity.
  - intros [H|H]; rewrite PingPrinterCheck_run;
      unfold PingPrinterCheck_do_check, bind, ask, ret; rewrite H; reflexivity.
Qed.

Lemma PingPrinterCheck_no_unique_printer_witness :
  fst (fst (check (env_ping 5) (PingPrinterCheck 200 10) world0)) =
  ("-1,192.0.2.7 192.0.2.8"%string, [PyBool false; PyNone]) /\
  fst (fst (check env_down (PingPrinterCheck 200 10) world0)) =
  ("-1,"%string, [PyBool false; PyNone]).
Proof.
  destruct (PingPrinterCheck_no_unique_printer (env_ping 5) 200 10 world0) as [H _].
  destruct (PingPrinterCheck_no_unique_printer env_down 200 10 world0) as [_ H0].
  split.
  - rewrite (H (mkPrinter "a" "192.0.2.7") (mkPrinter "b" "192.0.2.8") [] eq_refl).
    reflexivity.
  - rewrite (H0 (or_intror eq_refl)). reflexivity.
Defined.

Lemma Qle_bool_Qeq (a b c : Q) : a == b -> Qle_bool a c = Qle_bool b c.
Proof.
  intros H. destruct (Qle_bool b c) eqn:E.
  - apply Qle_bool_iff in E. apply Qle_bool_iff. rewrite H. exact E.
  - apply Qle_bool_false in E. apply Qle_bool_false. rewrite H. exact E.
Qed.

(** X8. When [float(str(t)) == t] and [str(t)] is not the sentinel, a
    ping that measured [t] makes [PingCheck] return [str(t)] with the
    verdict [t <= max_ping], and [PingDefaultGatewayCheck] does the same
    for the gateway it resolved; the object is unchanged. *)
Theorem ping_verdict (env : Env) (host : string) (max_ping timeout t : Q)
  (w : World) :
  float_str env (str_float env t) == t ->
  str_float env t <> NO_PING ->
  (ping env (tick w) host timeout = Some t ->
   check env (PingCheck host max_ping timeout) w =
   ((str_float env t, [PyBool (Qle_bool t max_ping)], PingCheck host max_ping timeout),
    with_tick (S (tick w)) w)) /\
  (forall gateway,
      default_gateway env (tick w) timeout = Some gateway ->
      ping env (S (tick w)) gateway timeout = Some t ->
      check env (PingDefaultGatewayCheck max_ping timeout) w =
      ((str_float env t, [PyBool (Qle_bool t max_ping)],
        PingDefaultGatewayCheck max_ping timeout),
       with_tick (S (S (tick w))) w)).
Proof.
  intros Hround Hsentinel.
  assert (Hv : PingCheckBase_do_to_value env max_ping (str_float env t)
               = PyBool (Qle_bool t max_ping)).
  { unfold PingCheckBase_do_to_value.
    destruct (String.eqb_spec (str_float env t) NO_PING) as [E|_]; [contradiction|].
    unfold Py.le. rewrite (Qle_bool_Qeq _ _ _ Hround). reflexivity. }
  split.
  - intros H. simpl.
    unfold StatusCheck_check, PingCheck_do_check, bind, ask, ret. rewrite H.
    cbn [tick]. rewrite Hv. reflexivity.
  - intros gateway Hg H. simpl.
    unfold StatusCheck_check, PingDefaultGatewayCheck_do_check, bind, ask, ret.
    rewrite Hg. cbn [tick]. rewrite H. rewrite Hv. reflexivity.
Qed.

Lemma ping_verdict_witness :
  fst (fst (check (env_ping 250) (PingCheck "example.org" 200 10) world0)) =
  ("12.5"%string, [PyBool false]) /\
  fst (fst (check (env_ping 5) (PingDefaultGatewayCheck 200 10) world0)) =
  ("12.5"%string, [PyBool true]).
Proof.
  destruct (ping_verdict (env_ping 250) "example.org" 200 10 250 world0) as [H _];
    [reflexivity|discriminate|].
  destruct (ping_verdict (env_ping 5) "example.org" 200 10 5 world0) as [_ H0];
    [reflexivity|discriminate|].
  split.
  - rewrite (H eq_refl). reflexivity.
  - rewrite (H0 "192.0.2.254"%string eq_refl eq_refl). reflexivity.
Defined.

Lemma fields_remove_commas (s : string) : fields (remove_commas s) = 1%nat.
Proof.
  induction s as [|c s IH]; [reflexivity|].
  simpl. destruct (Ascii.eqb c comma) eqn:E; [exact IH|].
  rewrite fields_cons, E. exact IH.
Qed.

Lemma fields_one_append (a b : string) :
  fields a = 1%nat -> fields b = 1%nat -> fields (a ++ b) = 1%nat.
Proof. intros Ha Hb. pose proof (fields_append a b). lia. Qed.

Lemma fields_join_space (l : list string) :
  (forall s, In s l -> fields s = 1%nat) -> fields (join " " l) = 1%nat.
Proof.
  unfold join. induction l as [|x l IH]; intros H; [reflexivity|].
  destruct l as [|y l]; [apply H; left; reflexivity|].
  change (String.concat " " (x :: y :: l))
    with (x ++ " " ++ String.concat " " (y :: l))%string.
  apply fields_one_append; [apply H; left; reflexivity|].
  apply fields_one_append; [reflexivity|].
  apply IH. intros s Hs. apply H. right. exact Hs.
Qed.

Lemma leaf_arity (env : Env) (c : StatusCheck) :
  plain_env env ->
  match c with MultipleChecks _ => False | _ => True end ->
  arity_ok env c.
Proof.
  intros [Hfloat Haddr] Hleaf w. unfold eval.
  destruct c as [n i|mp t|h mp t|mp t|h t|md mu mp t|checks];
    [| | | | | |contradiction].
  - rewrite FailEveryNTimes_step. destruct (i - 1 =? 0)%Z; reflexivity.
  - rewrite PingPrinterCheck_run. cbn [fst num_columns].
    unfold PingPrinterCheck_do_check, bind, ask, ret.
    destruct (discover_printers env (tick w) t) as [printers|] eqn:E; [|reflexivity].
    assert (Hjoin : fields (join " " (map address printers)) = 1%nat).
    { apply fields_join_space. intros s Hs. apply in_map_iff in Hs.
      destruct Hs as [p [<- Hp]]. apply (Haddr _ _ _ _ E Hp). }
    destruct printers as [|p [|q l]]; [reflexivity| |].
    + cbn [tick].
      destruct (ping env (S (tick w)) (address p) 10) as [x|]; [|reflexivity].
      cbn [fst]. rewrite fields_comma, Hfloat, Hjoin. reflexivity.
    + cbn [fst]. rewrite fields_comma, Hjoin. reflexivity.
  - simpl. unfold StatusCheck_check, PingCheck_do_check, bind, ask, ret.
    destruct (ping env (tick w) h t); [apply Hfloat|reflexivity].
  - simpl. unfold StatusCheck_check, PingDefaultGatewayCheck_do_check, bind, ask, ret.
    destruct (default_gateway env (tick w) t); [|reflexivity]. cbn [tick].
    destruct (ping env (S (tick w)) s t); [apply Hfloat|reflexivity].
  - simpl. unfold StatusCheck_check, DnsCheck_do_check, bind, ask, ret.
    destruct (dns_resolve env (tick w) h t); reflexivity.
  - simpl. unfold SpeedCheck_check, bind, ask, ret.
    destruct (speedtest env (tick w) t) as [m|]; [|reflexivity].
    cbn [fst]. rewrite !fields_comma, !fields_str_int, Hfloat, fields_remove_commas.
    reflexivity.
Qed.

(** X9. When floats are rendered without a comma and no printer address
    holds one, the value string of every check whose composites are not
    empty has exactly [num_columns()] fields; in particular [SpeedCheck]
    strips the commas of the server name, so the name is one field. *)
Theorem value_arity (env : Env) (c : StatusCheck) :
  plain_env env ->
  nonempty_composites c = true ->
  arity_ok env c.
Proof.
  intros Henv.
  induction c as [n i|mp t|h mp t|mp t|h t|md mu mp t|checks IH]
    using StatusCheck_nested_ind; intros Hne;
    try (apply (leaf_arity env _ Henv); exact I).
  cbn [nonempty_composites] in Hne. apply andb_prop in Hne. destruct Hne as [Hlen Hall].
  apply MultipleChecks_arity.
  - destruct checks; [discriminate Hlen|discriminate].
  - clear Hlen. induction IH as [|c l Hc Hl IHl]; constructor.
    + apply Hc. simpl in Hall. apply andb_prop in Hall. apply Hall.
    + apply IHl. simpl in Hall. apply andb_prop in Hall. apply Hall.
Qed.

Lemma value_arity_witness :
  fields (fst (fst (eval (check (env_ping 5) main.extended_checks) world0))) = 4%nat /\
  fst (fst (eval (check (env_ping 5) main.extended_checks) world0)) =
  "30000000,6000000,12.5,Example Town"%string.
Proof.
  split; [|reflexivity].
  apply (value_arity (env_ping 5) main.extended_checks); [|reflexivity].
  split; [reflexivity|].
  intros k t l p H Hp. inversion H; subst.
  destruct Hp as [<-|[<-|[]]]; reflexivity.
Defined.

(* ================================================================== *)
(** * Further properties of the hardware signaller *)
(* ================================================================== *)

Lemma written_app (w w' : World) (outs : list (Leds * pyval)) :
  gpio_out w' = gpio_out w ++ outs -> written w w' = outs.
Proof.
  intros H. unfold written. rewrite H, skipn_app, skipn_all, Nat.sub_diag.
  reflexivity.
Qed.

Lemma notify_test_started_run (env : Env) (k : TestType) (w : World) :
  hardware.notify_test_started env k w =
  hardware.update_leds env
    (mkWorld (S (tick w))
       (match k with
        | NORMAL =>
            hardware.set_last_normal_test_started_time (clock env (tick w))
              (hardware.set_normal_test_running true (test_state w))
        | EXTENDED =>
            hardware.set_last_extended_test_started_time (clock env (tick w))
              (hardware.set_extended_test_running true (test_state w))
        end)
       (gpio_out w)).
Proof.
  unfold hardware.notify_test_started, hardware.assign, hardware.time_time, ask,
    bind, ret.
  destruct k; reflexivity.
Qed.

(** X10. [notify_test_started(kind)] sets the running flag of the kind
    and its last start time to the clock reading, and the refresh it
    triggers writes five values with Test-Running on.  The verdicts, the
    scheduled flags, the failure times and the running flag and start time
    of the other kind are left as they were. *)
Theorem notify_test_started_effect (env : Env) (k : TestType) (w : World) :
  let w' := exec (hardware.notify_test_started env k) w in
  let s := test_state w in
  let s' := test_state w' in
  test_running k s' = true /\
  last_started_time k s' = clock env (tick w) /\
  length (written w w') = 5%nat /\
  drives_on TEST_RUNNING (written w w') = true /\
  test_running (other_kind k) s' = test_running (other_kind k) s /\
  last_started_time (other_kind k) s' = last_started_time (other_kind k) s /\
  (forall j, test_result j s' = test_result j s /\
             scheduled j s' = scheduled j s /\
             last_failure_time j s' = last_failure_time j s).
Proof.
  intros w' s s'. unfold s', w', exec.
  rewrite notify_test_started_run, update_leds_run. cbn [snd test_state].
  unfold written. cbn [gpio_out].
  rewrite skipn_app, skipn_all, Nat.sub_diag. cbn [skipn app].
  unfold s. destruct (test_state w) as [nr er sn se fn fe rn re tn te].
  destruct k; cbn; repeat split; try (destruct j; reflexivity);
    unfold drives_on, refresh_list, hardware.test_running_value; cbn;
    rewrite ?orb_true_r; try reflexivity;
    destruct rn; reflexivity.
Qed.

Lemma notify_test_completed_run (env : Env) (k : TestType) (r : pyval) (w : World) :
  let s1 :=
    match k with
    | NORMAL =>
        hardware.set_scheduled_normal_test false
          (hardware.set_normal_test_running false
             (hardware.set_normal_test_result r (test_state w)))
    | EXTENDED =>
        hardware.set_scheduled_extended_test false
          (hardware.set_extended_test_running false
             (hardware.set_extended_test_result r (test_state w)))
    end in
  hardware.notify_test_completed env k r w =
  hardware.update_leds env
    (if truthy r then mkWorld (tick w) s1 (gpio_out w)
     else mkWorld (S (tick w))
            (match k with
             | NORMAL => hardware.set_last_normal_test_failure_time (clock env (tick w)) s1
             | EXTENDED =>
                 hardware.set_last_extended_test_failure_time (clock env (tick w)) s1
             end)
            (gpio_out w)).
Proof.
  unfold hardware.notify_test_completed, hardware.assign, hardware.time_time, ask,
    bind, ret, py_not.
  destruct k, r as [|[|]]; reflexivity.
Qed.

(** X11. [notify_test_completed(kind, result)] stores the result, clears
    the running and the scheduled flag of the kind, and sets its last
    failure time to the clock reading exactly when the result is not true.
    For a boolean result the refresh it triggers writes five values: the
    result [False] writes [True] to the Fail output of the kind and [False]
    to its Pass output; the result [True] writes [False] to Fail and the
    blink state to Pass.  The start time of the kind and every attribute of
    the other kind are left as they were. *)
Theorem notify_test_completed_effect (env : Env) (k : TestType) (r : pyval)
  (w : World) :
  let w' := exec (hardware.notify_test_completed env k r) w in
  let s := test_state w in
  let s' := test_state w' in
  test_result k s' = r /\
  test_running k s' = false /\
  scheduled k s' = false /\
  last_failure_time k s' =
    (if truthy r then last_failure_time k s else clock env (tick w)) /\
  (forall b, r = PyBool b ->
     length (written w w') = 5%nat /\
     written_to (fail_led k) (written w w') = [PyBool (negb b)] /\
     written_to (pass_led k) (written w w') =
     [PyBool (b && hardware.blink_state_at (last_failure_time k s)
                      (clock env (match k with NORMAL => 1 | EXTENDED => 2 end + tick w)))]) /\
  last_started_time k s' = last_started_time k s /\
  test_result (other_kind k) s' = test_result (other_kind k) s /\
  test_running (other_kind k) s' = test_running (other_kind k) s /\
  scheduled (other_kind k) s' = scheduled (other_kind k) s /\
  last_failure_time (other_kind k) s' = last_failure_time (other_kind k) s /\
  last_started_time (other_kind k) s' = last_started_time (other_kind k) s.
Proof.
  intros w' s s'. unfold s', w', exec.
  rewrite notify_test_completed_run.
  destruct (truthy r) eqn:Hr; rewrite update_leds_run; cbn [snd test_state];
    unfold written; cbn [gpio_out];
    rewrite skipn_app, skipn_all, Nat.sub_diag; cbn [skipn app];
    unfold s; destruct (test_state w) as [nr er sn se fn fe rn re tn te];
    destruct r as [|[|]]; try discriminate Hr;
    destruct k; cbn;
    unfold written_to, refresh_list, normal_blink, extended_blink,
      hardware.normal_pass_value, hardware.normal_fail_value,
      hardware.extended_pass_value, hardware.extended_fail_value; cbn;
    repeat split; try reflexivity; try discriminate;
    try match goal with
        | H : PyBool _ = PyBool _ |- _ => inversion H; subst; clear H
        end;
    cbn [negb andb];
    repeat match goal with
           | |- context [hardware.blink_state_at ?a ?b] =>
               destruct (hardware.blink_state_at a b)
           end; reflexivity.
Qed.

Lemma notify_test_completed_effect_witness :
  let w' := exec (hardware.notify_test_completed env_late NORMAL (PyBool false))
              world_passed in
  written_to NORMAL_FAIL (written world_passed w') = [PyBool true] /\
  written_to NORMAL_PASS (written world_passed w') = [PyBool false].
Proof.
  intros w'.
  destruct (notify_test_completed_effect env_late NORMAL (PyBool false) world_passed)
    as (_ & _ & _ & _ & H & _).
  destruct (H false eq_refl) as (_ & Hfail & Hpass).
  split; [exact Hfail|exact Hpass].
Defined.

(** ** What [get_user_input] leaves alone *)

Ltac poll_step :=
  cbv beta iota zeta delta
    [bind ret ask hardware.GPIO_input hardware.time_time hardware.time_sleep
     hardware.assign];
  cbn [tick test_state gpio_out].

Lemma poll_pushed_sound (env : Env) (fuel : nat) :
  forall (T t0 : Q) (w : World),
    match hardware.poll env fuel T (Some t0) w with
    | (Some EXTENDED_TEST, w') =>
        test_state w' = hardware.set_scheduled_extended_test true (test_state w) /\
        exists outs, gpio_out w' = gpio_out w ++ outs /\ length outs = 5%nat
    | (Some NO_INPUT, _) => False
    | (_, w') => test_state w' = test_state w /\ gpio_out w' = gpio_out w
    end.
Proof.
  induction fuel as [|fuel IH]; intros T t0 w; [split; reflexivity|].
  destruct w as [k s out]. cbn [hardware.poll]. poll_step.
  destruct (button env k); cbn [negb]; poll_step; [|split; reflexivity].
  destruct (ge (clock env (S k)) (t0 + 3)).
  - rewrite update_leds_run. cbn [test_state gpio_out]. split; [reflexivity|].
    eexists. split; [reflexivity|reflexivity].
  - apply (IH T t0 (mkWorld (S (S k)) s out)).
Qed.

Lemma poll_idle_sound (env : Env) (fuel : nat) :
  forall (T : Q) (w : World),
    match hardware.poll env fuel T None w with
    | (Some NO_INPUT, w') => test_state w' = test_state w /\ gpio_out w' = gpio_out w
    | (Some NORMAL_TEST, w') =>
        test_state w' = hardware.set_scheduled_normal_test true (test_state w) /\
        exists outs, gpio_out w' = gpio_out w ++ outs /\ length outs = 5%nat
    | (Some EXTENDED_TEST, w') =>
        test_state w' =
        hardware.set_scheduled_extended_test true
          (hardware.set_scheduled_normal_test true (test_state w)) /\
        exists outs, gpio_out w' = gpio_out w ++ outs /\ length outs = 10%nat
    | (None, w') => same_but_scheduled (test_state w) (test_state w')
    end.
Proof.
  induction fuel as [|fuel IH]; intros T w;
    [cbn; unfold same_but_scheduled; repeat split; reflexivity|].
  destruct w as [k s out]. cbn [hardware.poll]. poll_step.
  destruct (button env k); poll_step.
  - rewrite update_leds_run. cbn [tick test_state gpio_out].
    match goal with
    | |- context [hardware.poll env fuel T (Some ?t0) ?W] =>
        pose proof (poll_pushed_sound env fuel T t0 W) as H;
        destruct (hardware.poll env fuel T (Some t0) W) as [[[| |]|] w']
    end; cbn [test_state gpio_out] in H.
    + contradiction.
    + destruct H as [Hs Ho]. split; [exact Hs|].
      eexists. split; [exact Ho|reflexivity].
    + destruct H as [Hs [outs [Ho Hl]]]. split; [exact Hs|].
      eexists. split; [rewrite Ho, <- app_assoc; reflexivity|].
      rewrite length_app, Hl. reflexivity.
    + destruct H as [Hs _]. rewrite Hs.
      destruct s. unfold same_but_scheduled. cbn. repeat split; reflexivity.
  - destruct (ge (clock env (S k)) T); [split; reflexivity|].
    apply (IH T (mkWorld (S (S k)) s out)).
Qed.

(** X12. Whatever the button and the clock do and however long it polls,
    [get_user_input] changes nothing of the test state but the two
    scheduled flags, and only sets them: when it returns [NO_INPUT] the
    state and the outputs are as before; when it returns [NORMAL_TEST] it
    has set [scheduled_normal_test] and written one refresh; when it
    returns [EXTENDED_TEST] it has set both flags and written two. *)
Theorem get_user_input_sound (env : Env) (fuel : nat) (timeout : Q) (w : World) :
  let r := eval (hardware.get_user_input env fuel timeout) w in
  let w' := exec (hardware.get_user_input env fuel timeout) w in
  same_but_scheduled (test_state w) (test_state w') /\
  match r with
  | Some NO_INPUT => test_state w' = test_state w /\ written w w' = []
  | Some NORMAL_TEST =>
      test_state w' = hardware.set_scheduled_normal_test true (test_state w) /\
      length (written w w') = 5%nat
  | Some EXTENDED_TEST =>
      test_state w' =
      hardware.set_scheduled_extended_test true
        (hardware.set_scheduled_normal_test true (test_state w)) /\
      length (written w w') = 10%nat
  | None => True
  end.
Proof.
  intros r w'. unfold r, w', eval, exec. rewrite get_user_input_run.
  pose proof (poll_idle_sound env fuel (clock env (tick w) + timeout)
                (with_tick (S (tick w)) w)) as H.
  destruct (hardware.poll env fuel _ None _) as [[[| |]|] w1];
    cbn [fst snd with_tick test_state gpio_out] in *.
  - destruct H as [Hs Ho]. rewrite Hs. unfold written. rewrite Ho, skipn_all.
    repeat split; reflexivity.
  - destruct H as [Hs [outs [Ho Hl]]]. rewrite Hs, (written_app w w1 outs Ho).
    destruct (test_state w). unfold same_but_scheduled. cbn.
    repeat split; try reflexivity. exact Hl.
  - destruct H as [Hs [outs [Ho Hl]]]. rewrite Hs, (written_app w w1 outs Ho).
    destruct (test_state w). unfold same_but_scheduled. cbn.
    repeat split; try reflexivity. exact Hl.
  - split; [exact H|exact I].
Qed.


(* ================================================================== *)
(** * Further properties of the main loop *)
(* ================================================================== *)

Lemma run_due_batch_timers (env : Env) (st : main.MainState) :
  let st1 := main.run_due_batch env st in
  main.last_normal_test st1 =
    (if main.normal_due env st || main.extended_due env st
     then main.now env st else main.last_normal_test st) /\
  main.last_extended_test st1 =
    (if main.extended_due env st then main.now env st else main.last_extended_test st).
Proof.
  unfold main.run_due_batch, main.extended_due, main.normal_due, main.now.
  unfold lift, hardware.time_time, ask. cbn [world calls tick test_state gpio_out].
  set (nd := ge _ (main.last_normal_test st + _)).
  set (ed := ge _ (main.last_extended_test st + _)).
  destruct ed.
  - rewrite orb_true_r.
    destruct (extended_check env _ _) as [r s3]. split; reflexivity.
  - rewrite orb_false_r. destruct nd.
    + destruct (normal_check env _ _) as [r s3]. split; reflexivity.
    + split; reflexivity.
Qed.

Lemma cycle_timers (env : Env) (fuel : nat) (st st' : main.MainState) :
  main.cycle env fuel st = Some st' ->
  let st1 := main.run_due_batch env st in
  match turn_input env fuel st with
  | Some NO_INPUT =>
      main.last_normal_test st' = main.last_normal_test st1 /\
      main.last_extended_test st' = main.last_extended_test st1
  | Some NORMAL_TEST =>
      main.last_normal_test st' = 0 /\
      main.last_extended_test st' = main.last_extended_test st1
  | Some EXTENDED_TEST =>
      main.last_normal_test st' = 0 /\ main.last_extended_test st' = 0
  | None => False
  end.
Proof.
  unfold main.cycle, turn_input, eval, lift.
  destruct (hardware.get_user_input env fuel main.user_input_timeout
              (world (main.sys (main.run_due_batch env st)))) as [u w'].
  cbn [fst]. destruct u as [[| |]|]; intros H; inversion H; subst; cbn;
    split; reflexivity.
Qed.

(** X13. How the button and the timers steer the loop.  After a turn in
    which [get_user_input] returned [NORMAL_TEST], [last_normal_test] is 0,
    so the Normal batch is due in the next turn as soon as the clock reads
    60 or more; after [EXTENDED_TEST] both timers are 0, so the Extended
    batch is due as soon as the clock reads 3600 or more.  After
    [NO_INPUT], a turn that ran a batch is not followed by a Normal batch
    while the clock reads less than 60 s later, and a turn that ran the
    Extended batch is followed by no batch at all in that time. *)
Theorem button_steers_loop (env : Env) (fuel : nat) (st st' : main.MainState) :
  main.cycle env fuel st = Some st' ->
  match turn_input env fuel st with
  | Some NORMAL_TEST =>
      main.last_normal_test st' = 0 /\
      (60 <= main.now env st' -> main.normal_due env st' = true)
  | Some EXTENDED_TEST =>
      main.last_normal_test st' = 0 /\ main.last_extended_test st' = 0 /\
      (3600 <= main.now env st' -> main.extended_due env st' = true)
  | Some NO_INPUT =>
      (main.normal_due env st || main.extended_due env st = true ->
       main.now env st' < main.now env st + 60 ->
       main.normal_due env st' = false) /\
      (main.extended_due env st = true ->
       main.now env st' < main.now env st + 60 ->
       main.extended_due env st' = false)
  | None => False
  end.
Proof.
  intros Hcycle. pose proof (cycle_timers env fuel st st' Hcycle) as H.
  destruct (run_due_batch_timers env st) as [Hn He]. cbv zeta in H.
  destruct (turn_input env fuel st) as [[| |]|]; [| | |exact H].
  - destruct H as [H1 H2]. rewrite Hn in H1. rewrite He in H2. split.
    + intros Hdue Hsoon. rewrite Hdue in H1.
      unfold main.normal_due at 1, Py.ge. rewrite H1.
      apply Qle_bool_false. unfold main.normal_test_interval. exact Hsoon.
    + intros Hdue Hsoon. rewrite Hdue in H2.
      unfold main.extended_due at 1, Py.ge. rewrite H2.
      apply Qle_bool_false. unfold main.extended_test_interval. lra.
  - destruct H as [H1 _]. split; [exact H1|].
    intros Hlate. unfold main.normal_due, Py.ge. rewrite H1.
    apply Qle_bool_iff. unfold main.normal_test_interval. lra.
  - destruct H as [H1 H2]. split; [exact H1|]. split; [exact H2|].
    intros Hlate. unfold main.extended_due, Py.ge. rewrite H2.
    apply Qle_bool_iff. unfold main.extended_test_interval. lra.
Qed.

Lemma button_steers_loop_witness :
  main.last_normal_test light_next = 0 /\ main.normal_due env_push_after_batch light_next = true.
Proof.
  assert (Hrun : main.cycle env_push_after_batch 5 light_main_state = Some light_next)
    by (vm_compute; reflexivity).
  pose proof (button_steers_loop env_push_after_batch 5 light_main_state light_next Hrun) as H.
  assert (Hin : turn_input env_push_after_batch 5 light_main_state = Some NORMAL_TEST)
    by (vm_compute; reflexivity).
  rewrite Hin in H. destruct H as [H0 H]. split; [exact H0|].
  apply H. apply Qle_bool_iff. vm_compute. reflexivity.
Defined.

(** ** The refresher thread alone *)

Lemma update_thread_run (env : Env) (update_interval : Q) (n : nat) :
  forall w,
    update_thread env update_interval n w =
    (tt, mkWorld (3 * n + tick w) (test_state w)
           (gpio_out w
            ++ List.concat (map (fun i => refresh_list env (with_tick (3 * i + tick w) w))
                              (seq 0 n)))).
Proof.
  induction n as [|n IH]; intros [k s out].
  - cbn [update_thread seq map List.concat]. rewrite app_nil_r. reflexivity.
  - cbn [update_thread]. unfold bind at 1. unfold hardware.update.
    rewrite update_leds_run. unfold bind at 1, hardware.time_sleep, ret at 1.
    rewrite IH. cbn [tick test_state gpio_out seq map List.concat].
    replace (3 * n + (3 + k))%nat with (3 * S n + k)%nat by lia.
    rewrite <- app_assoc. do 4 f_equal.
    rewrite <- (seq_shift n 0), map_map. f_equal. apply map_ext. intros i.
    unfold refresh_list, with_tick, normal_blink, extended_blink.
    cbn [tick test_state gpio_out].
    replace (3 * i + (3 + k))%nat with (3 * S i + k)%nat by lia.
    reflexivity.
Qed.

(** X14. Left alone, the refresher thread never changes the test state:
    [n] turns of its loop read the clock [3n] times and write [n]
    refreshes of the same state, each the five outputs in the order
    Normal-Pass, Normal-Fail, Extended-Pass, Extended-Fail, Test-Running. *)
Theorem update_thread_only_refreshes (env : Env) (update_interval : Q) (n : nat)
  (w : World) :
  let w' := exec (update_thread env update_interval n) w in
  test_state w' = test_state w /\
  tick w' = (3 * n + tick w)%nat /\
  written w w' =
    List.concat (map (fun i => refresh_list env (with_tick (3 * i + tick w) w)) (seq 0 n)) /\
  map fst (written w w') = List.concat (repeat all_leds n).
Proof.
  intros w'. unfold w', exec. rewrite update_thread_run. cbn [snd test_state tick].
  unfold written. cbn [gpio_out]. rewrite skipn_app, skipn_all, Nat.sub_diag.
  cbn [skipn app]. repeat split.
  replace (repeat all_leds n) with (repeat all_leds (length (seq 0 n)))
    by (rewrite length_seq; reflexivity).
  induction (seq 0 n) as [|i l IH]; [reflexivity|].
  cbn [map List.concat length repeat]. rewrite map_app, IH. reflexivity.
Qed.

(* ================================================================== *)
(** * Further properties of the two threads *)
(* ================================================================== *)


Lemma concat_repeat_snoc {A : Type} (l : list A) (k : nat) :
  List.concat (repeat l k) ++ l = List.concat (repeat l (S k)).
Proof.
  induction k as [|k IH]; [simpl; rewrite app_nil_r; reflexivity|].
  change (List.concat (repeat l (S k))) with (l ++ List.concat (repeat l k)).
  rewrite <- app_assoc, IH. reflexivity.
Qed.

Ltac refresh_case H :=
  unfold hardware.time_time, hardware.get_blink_state, hardware.GPIO_output,
    ask, bind, ret, exec, threads.at_pc, threads.deref in H;
  cbn in H;
  try match type of H with
      | context [match ?l with Some _ => _ | None => _ end] =>
          is_var l; destruct l as [?|]; [discriminate H|]
      end;
  inversion H; subst; clear H;
  cbn [threads.pc gpio_out led_at Nat.leb Nat.sub nth_error all_leds andb];
  repeat split; try reflexivity; try lia; try discriminate;
  try (eexists; split; [symmetry; apply app_nil_r|reflexivity]);
  try (eexists [_]; split; reflexivity).

Lemma refresh_step_cases (env : Env) (me : threads.Thread)
  (r : threads.Refresh) (w : World) (sl ll : threads.Lock) :
  forall r' w' sl' ll',
    threads.refresh_step env me r w sl ll = Some (r', w', sl', ll') ->
    threads.pc r' = S (threads.pc r) /\
    (threads.pc r <= 12)%nat /\
    (threads.pc r = 6%nat -> ll = None /\ ll' = Some me) /\
    (threads.pc r = 12%nat -> ll' = None) /\
    (threads.pc r <> 6%nat -> threads.pc r <> 12%nat -> ll' = ll) /\
    exists vs,
      gpio_out w' = gpio_out w ++ vs /\
      map fst vs = match led_at (threads.pc r) with Some led => [led] | None => [] end.
Proof.
  intros r' w' sl' ll' H.
  destruct r as [p ct lt nb eb]. destruct w as [k s out].
  unfold threads.refresh_step in H. cbn [threads.pc] in *.
  do 13 (destruct p as [|p]; [refresh_case H|]).
  discriminate H.
Qed.

Lemma lock_swap (ll : option bool) (p q : nat) (leds : list Leds) :
  (lock_status ll p q <-> lock_status (option_map negb ll) q p) /\
  (whole_refreshes ll p q leds <-> whole_refreshes (option_map negb ll) q p leds).
Proof.
  unfold lock_status, whole_refreshes, lock_progress.
  destruct ll as [[|]|]; cbn; split; tauto.
Qed.

Lemma holder_step (ll ll' : option bool) (p q : nat) (leds vs : list Leds) :
  lock_status ll p q ->
  whole_refreshes ll p q leds ->
  (p <= 12)%nat ->
  (p = 6%nat -> ll = None /\ ll' = Some true) ->
  (p = 12%nat -> ll' = None) ->
  (p <> 6%nat -> p <> 12%nat -> ll' = ll) ->
  vs = match led_at p with Some led => [led] | None => [] end ->
  lock_status ll' (S p) q /\ whole_refreshes ll' (S p) q (leds ++ vs).
Proof.
  intros Hs [k Hk] Hp H6 H12 Hother Hvs.
  unfold lock_status, whole_refreshes, lock_progress, writing in *.
  do 13 (destruct p as [|p];
         [clear Hp;
          destruct ll as [[|]|]; try (exfalso; lia);
          first
            [ destruct (H6 eq_refl) as [E1 E2]; try discriminate E1; subst ll'
            | rewrite (H12 eq_refl)
            | rewrite (Hother ltac:(discriminate) ltac:(discriminate)) ];
          (split; [lia|]);
          cbn in Hvs; subst vs; subst leds; cbn [Nat.sub firstn all_leds];
          first
            [ exists k; rewrite ?app_nil_r, <- ?app_assoc; reflexivity
            | exists (S k); rewrite <- (concat_repeat_snoc all_leds k), ?app_nil_r;
              reflexivity ]
         |]).
  lia.
Qed.

Lemma held_by_swap (ll : threads.Lock) (p q : nat) (leds : list Leds) :
  (lock_status (held_by threads.Background ll) p q <->
   lock_status (held_by threads.Foreground ll) q p) /\
  (whole_refreshes (held_by threads.Background ll) p q leds <->
   whole_refreshes (held_by threads.Foreground ll) q p leds).
Proof.
  unfold lock_status, whole_refreshes, lock_progress.
  destruct ll as [[|]|]; cbn; split; tauto.
Qed.

Lemma completion_step_cases (env : Env) (c : threads.Completion) (w : World)
  (sl ll : threads.Lock) :
  forall c' w' sl' ll',
    threads.completion_step env c w sl ll = Some (c', w', sl', ll') ->
    ((threads.cpc c < 6)%nat /\ threads.cpc c' = S (threads.cpc c) /\
     threads.refresh c' = threads.refresh c /\ ll' = ll /\
     gpio_out w' = gpio_out w) \/
    ((6 <= threads.cpc c)%nat /\ threads.cpc c' = threads.cpc c /\
     threads.refresh_step env threads.Foreground (threads.refresh c) w sl ll =
     Some (threads.refresh c', w', sl', ll')).
Proof.
  intros c' w' sl' ll' H.
  destruct c as [cf tt rr rf]. destruct w as [k s out].
  unfold threads.completion_step in H. cbn [threads.cpc threads.refresh] in *.
  do 6 (destruct cf as [|cf];
        [left;
         unfold hardware.time_time, hardware.assign, ask, bind, ret, exec,
           threads.at_cpc in H;
         cbn in H;
         try match type of H with
             | context [match ?l with Some _ => _ | None => _ end] =>
                 is_var l; destruct l as [?|]; [discriminate H|]
             end;
         try match type of H with
             | context [if ?b then _ else _] => destruct b
             end;
         inversion H; subst; cbn; repeat split; lia|]).
  right.
  destruct (threads.refresh_step env threads.Foreground rf
              {| tick := k; test_state := s; gpio_out := out |} sl ll)
    as [[[[r1 w1] sl1] ll1]|]; [|discriminate H].
  inversion H; subst. cbn. repeat split. lia.
Qed.

Lemma step_led_lock_inv (env : Env) (out0 : list (Leds * pyval)) (t : threads.Thread)
  (c : threads.Config) :
  led_lock_inv out0 c -> led_lock_inv out0 (threads.step env t c).
Proof.
  intros (Hcf & Hst & ws & Hout & Hws).
  destruct c as [w sl ll bg fg]. cbn [threads.background threads.foreground
    threads.led_lock threads.shared] in *.
  destruct t; unfold threads.step;
    cbn [threads.background threads.foreground threads.led_lock threads.shared
         threads.test_state_lock].
  - destruct (threads.refresh_step env threads.Background bg w sl ll)
      as [[[[r1 w1] sl1] ll1]|] eqn:E;
      [|unfold led_lock_inv; cbn; split; [exact Hcf|split; [exact Hst|]];
        exists ws; split; assumption].
    apply refresh_step_cases in E.
    destruct E as (Hpc & Hle & H6 & H12 & Hother & vs & Hvs & Hleds).
    destruct (holder_step (held_by threads.Background ll)
                (held_by threads.Background ll1)
                (threads.pc bg) (threads.pc (threads.refresh fg))
                (map fst ws) (map fst vs) Hst Hws Hle) as [Hst' Hws'].
    + intros E6. destruct (H6 E6) as [-> ->]. split; reflexivity.
    + intros E12. rewrite (H12 E12). reflexivity.
    + intros N6 N12. rewrite (Hother N6 N12). reflexivity.
    + exact Hleds.
    + unfold led_lock_inv.
      cbn [threads.background threads.foreground threads.led_lock threads.shared].
      rewrite Hpc. split; [exact Hcf|]. split; [exact Hst'|].
      exists (ws ++ vs). split; [rewrite Hvs, Hout, app_assoc; reflexivity|].
      rewrite map_app. exact Hws'.
  - destruct (threads.completion_step env fg w sl ll)
      as [[[[f1 w1] sl1] ll1]|] eqn:E;
      [|unfold led_lock_inv; cbn; split; [exact Hcf|split; [exact Hst|]];
        exists ws; split; assumption].
    apply completion_step_cases in E.
    destruct E as [(Hlt & Hc1 & Hr1 & -> & Hw1)|(Hge & Hc1 & E)].
    + unfold led_lock_inv.
      cbn [threads.background threads.foreground threads.led_lock threads.shared].
      rewrite Hr1, Hw1. split; [intros _; apply Hcf; exact Hlt|].
      split; [exact Hst|]. exists ws. split; assumption.
    + apply refresh_step_cases in E.
      destruct E as (Hpc & Hle & H6 & H12 & Hother & vs & Hvs & Hleds).
      destruct (held_by_swap ll (threads.pc bg) (threads.pc (threads.refresh fg))
                  (map fst ws)) as [Sw1 Sw2].
      destruct (holder_step (held_by threads.Foreground ll)
                  (held_by threads.Foreground ll1)
                  (threads.pc (threads.refresh fg)) (threads.pc bg)
                  (map fst ws) (map fst vs) (proj1 Sw1 Hst) (proj1 Sw2 Hws) Hle)
        as [Hst' Hws'].
      * intros E6. destruct (H6 E6) as [-> ->]. split; reflexivity.
      * intros E12. rewrite (H12 E12). reflexivity.
      * intros N6 N12. rewrite (Hother N6 N12). reflexivity.
      * exact Hleds.
      * unfold led_lock_inv.
        cbn [threads.background threads.foreground threads.led_lock threads.shared].
        rewrite Hpc.
        destruct (held_by_swap ll1 (threads.pc bg)
                    (S (threads.pc (threads.refresh fg))) (map fst (ws ++ vs)))
          as [Sw3 Sw4].
        split; [intros Hlt; lia|]. split; [apply Sw3; exact Hst'|].
        exists (ws ++ vs). split; [rewrite Hvs, Hout, app_assoc; reflexivity|].
        apply Sw4. rewrite map_app. exact Hws'.
Qed.

Lemma run_led_lock_inv (env : Env) (out0 : list (Leds * pyval))
  (schedule : list threads.Thread) :
  forall c, led_lock_inv out0 c -> led_lock_inv out0 (threads.run env schedule c).
Proof.
  unfold threads.run.
  induction schedule as [|t l IH]; intros c H; [exact H|].
  cbn [fold_left]. apply IH. apply step_led_lock_inv. exact H.
Qed.

(** X15. The lock on the outputs does its work.  However the main
    thread's [notify_test_completed] and the refresher's [__update_leds]
    are interleaved, the two threads are never both between acquiring and
    releasing [led_lock], and the outputs written are always whole
    refreshes, five writes each in the order Normal-Pass, Normal-Fail,
    Extended-Pass, Extended-Fail, Test-Running, followed by the first
    writes of at most one unfinished refresh. *)
Theorem led_writes_never_interleave (env : Env) (schedule : list threads.Thread)
  (w : World) (t : TestType) (r : pyval) :
  let c := threads.run env schedule (threads.initial w t r) in
  ~ (writing (threads.pc (threads.background c)) /\
     writing (threads.pc (threads.refresh (threads.foreground c)))) /\
  exists ws k j,
    gpio_out (threads.shared c) = gpio_out w ++ ws /\
    map fst ws = List.concat (repeat all_leds k) ++ firstn j all_leds.
Proof.
  intros c.
  assert (Hinit : led_lock_inv (gpio_out w) (threads.initial w t r)).
  { unfold led_lock_inv, threads.initial, lock_status, writing. cbn.
    split; [reflexivity|]. split; [lia|].
    exists []. split; [rewrite app_nil_r; reflexivity|]. exists 0%nat. reflexivity. }
  pose proof (run_led_lock_inv env (gpio_out w) schedule _ Hinit) as H.
  fold c in H. destruct H as (_ & Hst & ws & Hout & k & Hk).
  split.
  - unfold lock_status in Hst.
    destruct (held_by threads.Background (threads.led_lock c)) as [[|]|]; tauto.
  - exists ws, k. eexists. split; [exact Hout|exact Hk].
Qed.


(* ================================================================== *)
(** * Properties of the readers of command output *)
(* ================================================================== *)

Lemma list_with_duplicates_raises (lines : list string) :
  parsing.list_with_duplicates lines = None <-> existsb short_record lines = true.
Proof.
  induction lines as [|line rest IH]; [cbn; split; discriminate|].
  cbn [parsing.list_with_duplicates existsb]. unfold short_record at 1.
  destruct (String.eqb (hd EmptyString (parsing.split_on ";" line)) "=");
    cbn [negb andb orb]; [|exact IH].
  destruct (Nat.ltb_spec (length (parsing.split_on ";" line)) 8) as [Hlt|Hge].
  - cbn [orb]. split; [reflexivity|intros _].
    destruct (nth_error (parsing.split_on ";" line) 3) as [nm|]; [|reflexivity].
    destruct (nth_error (parsing.split_on ";" line) 7) as [ad|] eqn:E7; [|reflexivity].
    exfalso. assert (nth_error (parsing.split_on ";" line) 7 <> None) as H7
      by (rewrite E7; discriminate).
    apply nth_error_Some in H7. lia.
  - cbn [orb].
    destruct (nth_error (parsing.split_on ";" line) 3) as [nm|] eqn:E3;
      [|exfalso; apply nth_error_None in E3; lia].
    destruct (nth_error (parsing.split_on ";" line) 7) as [ad|] eqn:E7;
      [|exfalso; apply nth_error_None in E7; lia].
    destruct (parsing.list_with_duplicates rest) as [ps|]; cbn [option_map].
    + split; [discriminate|]. intros H. apply IH in H. discriminate H.
    + split; [intros _; apply IH; reflexivity|reflexivity].
Qed.

Lemma list_with_duplicates_in (lines : list string) :
  forall ps,
    parsing.list_with_duplicates lines = Some ps ->
    forall p, In p ps <-> exists line, In line lines /\ resolved line p.
Proof.
  induction lines as [|line rest IH]; intros ps H p.
  - inversion H; subst. split; [intros []|intros [l [[] _]]].
  - cbn [parsing.list_with_duplicates] in H.
    destruct (String.eqb_spec (hd EmptyString (parsing.split_on ";" line)) "=")
      as [Heq|Hne]; cbn [negb] in H.
    + destruct (nth_error (parsing.split_on ";" line) 3) as [nm|] eqn:E3;
        [|discriminate H].
      destruct (nth_error (parsing.split_on ";" line) 7) as [ad|] eqn:E7;
        [|discriminate H].
      destruct (parsing.list_with_duplicates rest) as [qs|]; [|discriminate H].
      inversion H; subst. specialize (IH qs eq_refl p). split.
      * intros [<-|Hin].
        -- exists line. split; [left; reflexivity|].
           unfold resolved. cbn [name address]. auto.
        -- apply IH in Hin. destruct Hin as [l [Hl Hr]].
           exists l. split; [right; exact Hl|exact Hr].
      * intros [l [[<-|Hl] Hr]].
        -- left. destruct Hr as [_ [H3 H7]]. rewrite E3 in H3. rewrite E7 in H7.
           destruct p as [pn pa]. cbn in *. congruence.
        -- right. apply IH. exists l. split; assumption.
    + specialize (IH ps H p). split.
      * intros Hin. apply IH in Hin. destruct Hin as [l [Hl Hr]].
        exists l. split; [right; exact Hl|exact Hr].
      * intros [l [[<-|Hl] Hr]].
        -- destruct Hr as [Hr _]. contradiction.
        -- apply IH. exists l. split; assumption.
Qed.

(** X16. [dns_service_discovery], from the lines of the command output
    on: it raises exactly when some line whose first field is [=] has
    fewer than eight fields; otherwise it returns each name and address
    pair found in fields 3 and 7 of such a line exactly once, however many
    lines repeat it, and nothing else; lines with another first field are
    ignored. *)
Theorem dns_service_discovery_records (lines : list string) :
  (parsing.dns_service_discovery lines = None <-> existsb short_record lines = true) /\
  (forall ps,
      parsing.dns_service_discovery lines = Some ps ->
      NoDup ps /\
      forall p, In p ps <-> exists line, In line lines /\ resolved line p).
Proof.
  unfold parsing.dns_service_discovery. split.
  - rewrite <- list_with_duplicates_raises.
    destruct (parsing.list_with_duplicates lines); cbn; split; congruence.
  - intros ps H.
    destruct (parsing.list_with_duplicates lines) as [qs|] eqn:E; [|discriminate H].
    cbn in H. inversion H; subst. split; [apply NoDup_nodup|].
    intros p. rewrite nodup_In. apply (list_with_duplicates_in lines qs E).
Qed.

Lemma dns_service_discovery_records_witness :
  parsing.dns_service_discovery
    ["+;eth0;IPv4;Printer;_pdl-datastream._tcp;local";
     "=;eth0;IPv4;Printer;_pdl-datastream._tcp;local;printer.local;192.0.2.7;9100;";
     "=;wlan0;IPv4;Printer;_pdl-datastream._tcp;local;printer.local;192.0.2.7;9100;"]%string
  = Some [mkPrinter "Printer" "192.0.2.7"] /\
  parsing.dns_service_discovery ["=;eth0;IPv4;Printer"%string] = None.
Proof.
  split; [reflexivity|].
  apply (dns_service_discovery_records ["=;eth0;IPv4;Printer"%string]). reflexivity.
Defined.

Lemma default_gateway_skips (pre : list parsing.Dict) :
  Forall other_route pre ->
  forall rest, parsing.default_gateway (pre ++ rest) = parsing.default_gateway rest.
Proof.
  induction 1 as [|r pre [dst [Hd Hn]] Hpre IH]; intros rest; [reflexivity|].
  cbn [app parsing.default_gateway]. rewrite Hd, Hn. apply IH.
Qed.

(** X17. [default_gateway], from the parsed records on: the first record
    whose [dst] is [default] decides, and the records after it are never
    looked at, so a malformed record there does no harm; the result is the
    [gateway] of that record, or a [KeyError] when it has none.  A list of
    records none of which is a default route raises [No default route]. *)
Theorem default_gateway_first_default (pre post : list parsing.Dict)
  (record : parsing.Dict) (dst : parsing.jvalue) :
  Forall other_route pre ->
  (parsing.getitem record "dst" = Some dst ->
   parsing.is_default dst = true ->
   parsing.default_gateway (pre ++ record :: post) = parsing.getitem record "gateway") /\
  parsing.default_gateway pre = None.
Proof.
  intros Hpre. split.
  - intros Hd Hdef. rewrite (default_gateway_skips pre Hpre).
    cbn [parsing.default_gateway]. rewrite Hd, Hdef. reflexivity.
  - rewrite <- (app_nil_r pre), (default_gateway_skips pre Hpre). reflexivity.
Qed.

Lemma default_gateway_first_default_witness :
  parsing.default_gateway
    [[("dst", parsing.JStr "192.0.2.0/24"); ("dev", parsing.JStr "eth0")];
     [("dst", parsing.JStr "default"); ("gateway", parsing.JStr "192.0.2.254")];
     [("dev", parsing.JStr "lo")]]%string
  = Some (parsing.JStr "192.0.2.254").
Proof.
  apply (default_gateway_first_default
           [[("dst", parsing.JStr "192.0.2.0/24"); ("dev", parsing.JStr "eth0")]]%string
           [[("dev", parsing.JStr "lo")]]%string
           [("dst", parsing.JStr "default"); ("gateway", parsing.JStr "192.0.2.254")]%string
           (parsing.JStr "default")).
  - constructor; [|constructor].
    exists (parsing.JStr "192.0.2.0/24"). split; reflexivity.
  - reflexivity.
  - reflexivity.
Defined.

(* ================================================================== *)
(** * The verdicts that [main()] stores *)
(* ================================================================== *)

Lemma reduce_from_bool (l : list pyval) :
  forall b, is_unknown (reduce combine_results l (PyBool b)) = false.
Proof.
  unfold reduce.
  induction l as [|v l IH]; intros b; [reflexivity|].
  cbn [fold_left]. destruct v as [|c]; cbn [combine_results]; [apply IH|].
  unfold py_and. cbn [truthy]. destruct b; apply IH.
Qed.

Lemma overall_first_bool (value : string) (v : pyval) (l : list pyval) :
  is_unknown v = false -> is_unknown (overall (value, v :: l)) = false.
Proof.
  intros Hv. unfold overall, reduce. cbn [snd fold_left].
  destruct v as [|b]; [discriminate Hv|]. apply reduce_from_bool.
Qed.

Lemma PingCheckBase_do_to_value_bool (env : Env) (max_ping : Q) (value : string) :
  is_unknown (PingCheckBase_do_to_value env max_ping value) = false.
Proof.
  unfold PingCheckBase_do_to_value. destruct (String.eqb value NO_PING); reflexivity.
Qed.

Lemma exec_seq {A B : Type} (m : M A) (k : M B) (w : World) :
  exec (m ;;; k) w = exec k (exec m w).
Proof. unfold exec, bind. destruct (m w) as [a w1]. reflexivity. Qed.

Lemma notify_test_completed_result (env : Env) (k j : TestType) (r : pyval) (w : World) :
  test_result j (test_state (exec (hardware.notify_test_completed env k r) w)) =
  if hardware.TestType_eqb k j then r else test_result j (test_state w).
Proof.
  unfold exec. rewrite notify_test_completed_run.
  destruct (truthy r); rewrite update_leds_run; cbn [snd test_state];
    destruct (test_state w) as [nr er sn se fn fe rn re tn te];
    destruct k, j; reflexivity.
Qed.

(** X18. The verdict that [main()] stores is never [None]: whatever the
    probes answer, the fold of the verdicts of its Normal composite and the
    fold of the verdicts of its Extended composite are booleans.  The first
    check of each yields a boolean, and [combine_results] keeps a boolean
    once it has one; the [None] of [DnsCheck] and of the address and name
    columns is absorbed.  So after [normal_check()] of the scheduler of
    [main()] the Normal verdict stored in the [Hardware] object is a
    boolean, and after [extended_check()] both are. *)
Theorem main_verdicts_are_bool (env : Env) :
  let self := main.checks (main.start env world0) in
  (forall w,
      is_unknown (overall (fst (eval (check env main.quick_checks) w))) = false /\
      is_unknown (overall (fst (eval (check env main.extended_checks) w))) = false) /\
  (forall s,
      is_unknown
        (test_result NORMAL (test_state (world (exec (normal_check env self) s)))) = false) /\
  (forall s k,
      is_unknown
        (test_result k (test_state (world (exec (extended_check env self) s)))) = false).
Proof.
  intros self.
  assert (Hfold : forall w,
    is_unknown (overall (fst (eval (check env main.quick_checks) w))) = false /\
    is_unknown (overall (fst (eval (check env main.extended_checks) w))) = false).
  { intros w. unfold eval, main.quick_checks, main.extended_checks.
    rewrite !check_multiple_run, !check_each_cons. cbn [fst snd].
    unfold combine_checks. cbn [map List.concat fst snd].
    split.
    - cbn [check]. unfold StatusCheck_check, bind, ret.
      destruct (PingDefaultGatewayCheck_do_check env main.status_timeout w) as [value w1].
      cbn [fst snd app]. apply overall_first_bool, PingCheckBase_do_to_value_bool.
    - cbn [check]. unfold SpeedCheck_check, bind, ret, ask.
      destruct (speedtest env (tick w) main.status_timeout) as [m|];
        cbn [fst snd app]; apply overall_first_bool; reflexivity. }
  split; [exact Hfold|]. split.
  - intros s. unfold exec at 1. rewrite normal_check_run.
    cbn [snd world]. unfold self, main.start.
    cbn [main.checks test_observers normal_checks].
    unfold completed_normal. cbn [for_each].
    rewrite exec_seq. unfold exec at 1, ret at 1. cbn [snd].
    cbn [networkstatus.notify_test_completed hardware.Hardware].
    rewrite notify_test_completed_result. cbn [hardware.TestType_eqb].
    apply (Hfold _).
  - intros s k. unfold exec at 1. rewrite extended_check_run.
    cbn [snd world]. unfold self, main.start.
    cbn [main.checks test_observers normal_checks extended_checks].
    unfold completed_both. cbn [for_each].
    rewrite !exec_seq. unfold exec at 1, ret at 1. cbn [snd].
    cbn [networkstatus.notify_test_completed hardware.Hardware].
    rewrite notify_test_completed_result.
    destruct k; cbn [hardware.TestType_eqb].
    + rewrite notify_test_completed_result. cbn [hardware.TestType_eqb].
      apply (Hfold _).
    + apply (Hfold _).
Qed.


(* ================================================================== *)
(** * Properties of the two locks together *)
(* ================================================================== *)

Lemma forall_below_spec (n : nat) (f : nat -> bool) :
  forall_below n f = true -> forall i, (i < n)%nat -> f i = true.
Proof.
  induction n as [|m IH]; intros H i Hi; [lia|].
  cbn [forall_below] in H. apply andb_true_iff in H. destruct H as [Hm Hr].
  destruct (Nat.eq_dec i m) as [->|Hne]; [exact Hm|].
  apply IH; [exact Hr|lia].
Qed.

Lemma forall_lock_spec (f : threads.Lock -> bool) :
  forall_lock f = true -> forall l, f l = true.
Proof.
  unfold forall_lock. intros H l.
  apply andb_true_iff in H. destruct H as [H H3].
  apply andb_true_iff in H. destruct H as [H1 H2].
  destruct l as [[|]|]; assumption.
Qed.

Lemma control_ok_everywhere :
  forall_below 14 (fun pb =>
  forall_below 7 (fun cf =>
  forall_below 14 (fun pf =>
  forall_lock (fun sl =>
  forall_lock (fun ll => control_ok (pb, cf, pf, sl, ll)))))) = true.
Proof. vm_compute. reflexivity. Qed.

Lemma control_inv_ok (k : Control) :
  control_inv k = true ->
  control_inv (control_step threads.Background k) = true /\
  control_inv (control_step threads.Foreground k) = true /\
  (control_returned k = false ->
   same_place (control_step threads.Background k) k = false \/
   same_place (control_step threads.Foreground k) k = false) /\
  control_returned (control_run drain k) = true /\
  control_free (control_run drain k) = true.
Proof.
  intros Hinv. destruct k as [[[[pb cf] pf] sl] ll].
  assert (Hb : (pb < 14 /\ cf < 7 /\ pf < 14)%nat).
  { unfold control_inv in Hinv.
    repeat (apply andb_true_iff in Hinv; destruct Hinv as [Hinv ?]).
    repeat match goal with
           | H : (_ <=? _)%nat = true |- _ => apply Nat.leb_le in H
           end. lia. }
  destruct Hb as (Hpb & Hcf & Hpf).
  pose proof (forall_lock_spec _
    (forall_lock_spec _
      (forall_below_spec _ _
        (forall_below_spec _ _
          (forall_below_spec _ _ control_ok_everywhere pb Hpb) cf Hcf) pf Hpf) sl) ll)
    as Hok.
  cbv beta in Hok. unfold control_ok in Hok. rewrite Hinv in Hok. cbn [implb] in Hok.
  repeat (apply andb_true_iff in Hok; destruct Hok as [Hok ?]).
  repeat split; try assumption.
  intros Hret.
  match goal with
  | H : (_ || _ || _) = true |- _ => rewrite Hret in H; cbn [orb] in H;
      apply orb_true_iff in H; destruct H as [H|H]; apply negb_true_iff in H;
      [left|right]; exact H
  end.
Qed.

Ltac step_oracles env w :=
  try match goal with
      | |- context [hardware.time_time env w] =>
          destruct (hardware.time_time env w) as [? ?]
      end;
  try match goal with
      | |- context [hardware.get_blink_state env ?a w] =>
          destruct (hardware.get_blink_state env a w) as [? ?]
      end.

Lemma control_of_step (env : Env) (t : threads.Thread) (c : threads.Config) :
  control (threads.step env t c) = control_step t (control c).
Proof.
  destruct c as [w sl ll [p ct lt nb eb] [cf tt rr [q ct' lt' nb' eb']]].
  destruct t; unfold threads.step, control, position, control_step;
    cbn [threads.background threads.foreground threads.shared threads.test_state_lock
         threads.led_lock threads.pc threads.cpc threads.refresh];
    cbv beta iota.
  - unfold threads.refresh_step; cbn [threads.pc].
    do 13 (destruct p as [|p];
           [step_oracles env w;
            destruct sl as [[|]|]; destruct ll as [[|]|]; reflexivity|]).
    destruct sl as [[|]|]; destruct ll as [[|]|]; reflexivity.
  - unfold threads.completion_step; cbn [threads.cpc threads.refresh].
    do 6 (destruct cf as [|cf];
          [destruct rr as [|[|]];
           step_oracles env w;
           destruct sl as [[|]|]; destruct ll as [[|]|]; reflexivity|]).
    change (S (S (S (S (S (S cf)))))) with (6 + cf)%nat.
    replace (6 + cf <? 5)%nat with false by (symmetry; apply Nat.ltb_ge; lia).
    cbn [Nat.add].
    unfold threads.refresh_step; cbn [threads.pc].
    do 13 (destruct q as [|q];
           [step_oracles env w;
            destruct sl as [[|]|]; destruct ll as [[|]|]; reflexivity|]).
    destruct sl as [[|]|]; destruct ll as [[|]|]; reflexivity.
Qed.

Lemma control_of_run (env : Env) (schedule : list threads.Thread) :
  forall c, control (threads.run env schedule c) = control_run schedule (control c).
Proof.
  unfold threads.run, control_run.
  induction schedule as [|t l IH]; intros c; [reflexivity|].
  cbn [fold_left]. rewrite IH, control_of_step. reflexivity.
Qed.

Lemma control_run_inv (schedule : list threads.Thread) :
  forall k, control_inv k = true -> control_inv (control_run schedule k) = true.
Proof.
  unfold control_run.
  induction schedule as [|t l IH]; intros k H; [exact H|].
  cbn [fold_left]. apply IH.
  destruct (control_inv_ok k H) as (Hb & Hf & _). destruct t; assumption.
Qed.

Lemma control_inv_facts (env : Env) (c c' : threads.Config) :
  control_inv (control c) = true ->
  control c' = control_run drain (control c) ->
  guarded (in_state_section threads.Background c) (in_state_section threads.Foreground c)
    = Some (threads.test_state_lock c) /\
  guarded (in_led_section threads.Background c) (in_led_section threads.Foreground c)
    = Some (threads.led_lock c) /\
  (returned c = false ->
   exists th, position (threads.step env th c) <> position c) /\
  returned c' = true /\
  threads.test_state_lock c' = None /\ threads.led_lock c' = None.
Proof.
  intros Hinv Hc'.
  destruct (control_inv_ok _ Hinv) as (_ & _ & Hmove & Hret & Hfree).
  rewrite <- Hc' in Hret, Hfree.
  pose proof (control_of_step env threads.Background c) as Hsb.
  pose proof (control_of_step env threads.Foreground c) as Hsf.
  clear Hc'.
  split; [|split; [|split; [|split; [|split]]]].
  - unfold control_inv, control in Hinv.
    unfold in_state_section.
    destruct (position c) as [[pb cf] pf].
    repeat (apply andb_true_iff in Hinv; destruct Hinv as [Hinv ?]).
    match goal with
    | H : guarded_by (threads.test_state_lock c) ?a ?b = true |- _ =>
        unfold guarded_by in H; destruct (guarded a b) as [l|]; [|discriminate H];
        destruct (threads.test_state_lock c) as [[|]|]; destruct l as [[|]|];
        try discriminate H; reflexivity
    end.
  - unfold control_inv, control in Hinv.
    unfold in_led_section.
    destruct (position c) as [[pb cf] pf].
    repeat (apply andb_true_iff in Hinv; destruct Hinv as [Hinv ?]).
    match goal with
    | H : guarded_by (threads.led_lock c) ?a ?b = true |- _ =>
        unfold guarded_by in H; destruct (guarded a b) as [l|]; [|discriminate H];
        destruct (threads.led_lock c) as [[|]|]; destruct l as [[|]|];
        try discriminate H; reflexivity
    end.
  - intros Hr.
    assert (Hr' : control_returned (control c) = false).
    { unfold returned in Hr. unfold control_returned, control.
      destruct (position c) as [[pb cf] pf]. exact Hr. }
    destruct (Hmove Hr') as [H|H];
      [exists threads.Background; rewrite <- Hsb in H
      |exists threads.Foreground; rewrite <- Hsf in H];
      intros E; unfold same_place, control in H; rewrite E in H;
      destruct (position c) as [[pb cf] pf];
      rewrite !Nat.eqb_refl in H; discriminate H.
  - unfold control_returned, control in Hret. unfold returned.
    destruct (position c') as [[pb cf] pf]. exact Hret.
  - unfold control_free, control in Hfree.
    destruct (position c') as [[pb cf] pf].
    apply andb_true_iff in Hfree. destruct Hfree as [H _].
    destruct (threads.test_state_lock c') as [[|]|]; [discriminate H..|reflexivity].
  - unfold control_free, control in Hfree.
    destruct (position c') as [[pb cf] pf].
    apply andb_true_iff in Hfree. destruct Hfree as [_ H].
    destruct (threads.led_lock c') as [[|]|]; [discriminate H..|reflexivity].
Qed.

(** X19. The two locks never deadlock.  However the refresher's
    [__update_leds] and the main thread's [notify_test_completed] have
    been interleaved so far: [test_state_lock] and [led_lock] are each
    held by exactly the thread that is between acquiring and releasing
    it, never by both; unless both threads have returned, one of them can
    run its next statement; and letting the refresher run, then the main
    thread, then the refresher again makes both return, with both locks
    free. *)
Theorem locks_never_deadlock (env : Env) (schedule : list threads.Thread)
  (w : World) (t : TestType) (r : pyval) :
  let c := threads.run env schedule (threads.initial w t r) in
  guarded (in_state_section threads.Background c) (in_state_section threads.Foreground c)
    = Some (threads.test_state_lock c) /\
  guarded (in_led_section threads.Background c) (in_led_section threads.Foreground c)
    = Some (threads.led_lock c) /\
  (returned c = false ->
   exists th, position (threads.step env th c) <> position c) /\
  let c' := threads.run env drain c in
  returned c' = true /\
  threads.test_state_lock c' = None /\ threads.led_lock c' = None.
Proof.
  intros c.
  assert (Hinv : control_inv (control c) = true).
  { unfold c. rewrite control_of_run. apply control_run_inv. reflexivity. }
  generalize (control_of_run env drain c).
  generalize (threads.run env drain c) as c'. intros c' Hc'.
  exact (control_inv_facts env c c' Hinv Hc').
Qed.
